(** * boinc2docker_create_work: a shallow embedding of
      [bin/boinc2docker_create_work.py] and the properties of its
      work-unit packaging.

    The script is Python 2.  Its pure helpers become Rocq functions; the
    body of [boinc2docker_create_work] becomes a program in a small
    state-and-exception monad over a world that holds the operating
    system (an arbitrary instance of the class [System]), the standard
    output, the Python list objects that the caller may share with the
    function ([input_files] and [vbox_job_xml]), and the list of
    external calls made so far. *)

From Stdlib Require Import ZArith QArith Ascii.
From stdpp Require Import base option list strings gmap pretty.

Local Open Scope Z_scope.
Set Warnings "-register-all".

(** ** Characters and Python [str] methods *)

Module Py.

Definition chr (n : nat) : string := String (Ascii.ascii_of_nat n) EmptyString.
Definition dq : string := chr 34.
Definition nl : string := chr 10.

(** [sep.join(l)] *)
Fixpoint join (sep : string) (l : list string) : string :=
  match l with
  | [] => ""
  | [s] => s
  | s :: rest => s +:+ sep +:+ join sep rest
  end.

Fixpoint lstrip (s : string) : string :=
  match s with
  | String a s' => if Ascii.is_space a then lstrip s' else s
  | EmptyString => s
  end.

Definition rstrip (s : string) : string := String.rev (lstrip (String.rev s)).

(** [s.strip()] *)
Definition strip (s : string) : string := rstrip (lstrip s).

(** [s.split()], on runs of white space *)
Definition split_ws (s : string) : list string := String.words s.

(** [s.split(c)] for a one-character separator *)
Fixpoint split_go (c : Ascii.ascii) (cur : string) (s : string) : list string :=
  match s with
  | EmptyString => [String.rev cur]
  | String a s' =>
      if Ascii.eqb a c then String.rev cur :: split_go c "" s'
      else split_go c (String a cur) s'
  end.
Definition split (c : Ascii.ascii) (s : string) : list string := split_go c "" s.

(** [needle in hay] *)
Fixpoint contains (needle hay : string) : bool :=
  String.prefix needle hay ||
  match hay with
  | EmptyString => false
  | String _ hay' => contains needle hay'
  end.

(** [s[:n]] *)
Fixpoint take (n : nat) (s : string) : string :=
  match n, s with
  | S n', String a s' => String a (take n' s')
  | _, _ => ""
  end.

(** [' ' * n] *)
Fixpoint spaces (n : nat) : string :=
  match n with O => "" | S n' => " " +:+ spaces n' end.

(** [str(i)] of an integer *)
Definition str_nat (i : nat) : string := pretty i.
Definition str_int (z : Z) : string := pretty z.

(** [int(s)] of a string: an optional sign and at least one digit;
    [None] stands for the [ValueError]. *)
Fixpoint digits (acc : Z) (s : string) : option Z :=
  match s with
  | EmptyString => Some acc
  | String a s' =>
      match Ascii.is_nat a with
      | Some d => digits (10 * acc + Z.of_nat d) s'
      | None => None
      end
  end.

Definition int_of_str (s : string) : option Z :=
  match strip s with
  | EmptyString => None
  | String "-"%char (String a s') => Z.opp <$> digits 0 (String a s')
  | String "+"%char (String a s') => digits 0 (String a s')
  | s' => digits 0 s'
  end.

End Py.

(** ** [os.path] (posixpath) *)

Module PosixPath.

(** The text after the last slash, and the text up to and including it. *)
Fixpoint cut (s : string) : string * string :=
  match s with
  | EmptyString => ("", "")
  | String a s' =>
      let '(h, t) := cut s' in
      if Ascii.eqb a "/"%char then
        match h with
        | EmptyString => ("/", s')
        | _ => (String a h, t)
        end
      else
        match h with
        | EmptyString => ("", String a t)
        | _ => (String a h, t)
        end
  end.

Fixpoint all_slashes (s : string) : bool :=
  match s with
  | EmptyString => true
  | String a s' => Ascii.eqb a "/"%char && all_slashes s'
  end.

Fixpoint strip_slashes (s : string) : string :=
  match s with
  | String a s' => if Ascii.eqb a "/"%char then strip_slashes s' else s
  | EmptyString => s
  end.

(** [split(p)]: head and tail around the last slash; trailing slashes
    are removed from the head unless it consists of slashes only. *)
Definition split (p : string) : string * string :=
  let '(h, t) := cut p in
  if all_slashes h then (h, t)
  else (String.rev (strip_slashes (String.rev h)), t).

Definition basename (p : string) : string := snd (cut p).
Definition dirname (p : string) : string := fst (split p).

Definition ends_with_slash (s : string) : bool :=
  match String.rev s with
  | String a _ => Ascii.eqb a "/"%char
  | EmptyString => false
  end.

(** [join(a, b)] *)
Definition join (a b : string) : string :=
  match b with
  | String "/"%char _ => b
  | _ =>
      if bool_decide (a = "") || ends_with_slash a then a +:+ b
      else a +:+ "/" +:+ b
  end.

End PosixPath.

(** ** Python numbers

  The script mixes [int] and [float]: the image size is divided by
  [1e6], [--memory] is an [int].  Integers are unbounded ([Z]); the
  floating-point type is left to an instance of [PyFloat], so that
  nothing below depends on how floats round. *)

Class PyFloat (F : Type) : Type := {
float_of_int : Z -> F;          (* float(i) *)
float_add : F -> F -> F;
float_mul : F -> F -> F;
float_div : F -> F -> F;
float_ltb : F -> F -> bool;
int_lt_float : Z -> F -> bool;  (* i < x, compared exactly *)
float_lt_int : F -> Z -> bool;  (* x < i, compared exactly *)
float_trunc : F -> Z            (* int(x) *)
}.

Inductive number (F : Type) : Type :=
| PyInt (z : Z)
| PyFlt (x : F).
Arguments PyInt {F} z.
Arguments PyFlt {F} x.

Section Numbers.
Context {F : Type} `{PyFloat F}.

Definition to_float (a : number F) : F :=
  match a with PyInt z => float_of_int z | PyFlt x => x end.

(** [a + b] and [a * b]: integer arithmetic on two ints, float
    arithmetic after coercion otherwise. *)
Definition num_add (a b : number F) : number F :=
  match a, b with
  | PyInt x, PyInt y => PyInt (x + y)
  | _, _ => PyFlt (float_add (to_float a) (to_float b))
  end.

Definition num_mul (a b : number F) : number F :=
  match a, b with
  | PyInt x, PyInt y => PyInt (x * y)
  | _, _ => PyFlt (float_mul (to_float a) (to_float b))
  end.

(** [a / 1e6]-style true division by a float *)
Definition num_div_float (a : number F) (d : F) : number F :=
  PyFlt (float_div (to_float a) d).

(** [a < b] *)
Definition num_ltb (a b : number F) : bool :=
  match a, b with
  | PyInt x, PyInt y => x <? y
  | PyInt x, PyFlt y => int_lt_float x y
  | PyFlt x, PyInt y => float_lt_int x y
  | PyFlt x, PyFlt y => float_ltb x y
  end.

(** [int(a)] *)
Definition num_int (a : number F) : Z :=
  match a with PyInt z => z | PyFlt x => float_trunc x end.

(** ["%i" % a] *)
Definition fmt_i (a : number F) : string := Py.str_int (num_int a).

Definition million : F := float_of_int 1000000.   (* 1e6 *)
End Numbers.

(** ** Data of the script *)

(** An element of [xml.etree.ElementTree]: tag, text, children in
    insertion order. *)
Inductive element : Type :=
| Element (tag : string) (text : option string) (children : list element).

Definition tag_of (e : element) : string := let 'Element t _ _ := e in t.
Definition text_of (e : element) : option string := let 'Element _ t _ := e in t.
Definition children_of (e : element) : list element := let 'Element _ _ c := e in c.

(** [e.find(tag)]: the first child with that tag. *)
Definition find_child (tag : string) (e : element) : option element :=
  List.find (fun c => bool_decide (tag_of c = tag)) (children_of e).

(** [e.findall(tag)]: the children with that tag, in document order. *)
Definition findall (tag : string) (e : element) : list element :=
  List.filter (fun c => bool_decide (tag_of c = tag)) (children_of e).

(** What the caller passes in [input_files]: (open_name, contents, flags). *)
Definition input_file : Type := string * string * list string.

(** After line 217 the middle component is either the pair
    (basename, contents) of an inline file or the name of a file staged
    in the download hierarchy. *)
Inductive source : Type :=
| Inline (name contents : string)
| Staged (filename : string).

Definition packaged_file : Type := string * source * list string.

Definition open_name_of (f : packaged_file) : string := f.1.1.
Definition source_of (f : packaged_file) : source := f.1.2.
Definition flags_of (f : packaged_file) : list string := f.2.

(** One entry of [manifest.json] as [docker save] writes it. *)
Record image_manifest : Type := {
  Config : string;
  RepoTags : list string;
  Layers : list string
}.

(** An entry of the [vbox_job_xml] list: a bare flag or a dict, given by
    its items in iteration order. *)
Inductive vbox_opt : Type :=
| OptFlag (name : string)
| OptDict (items : list (string * string)).

(** The two ways [command] can be given. *)
Inductive command_arg : Type :=
| CmdStr (s : string)
| CmdList (l : list string).

(** A value of the [create_work_args] dict. *)
Inductive arg_value (F : Type) : Type :=
| ArgNum (n : number F)
| ArgStr (s : string).
Arguments ArgNum {F} n.
Arguments ArgStr {F} s.

(** ** Exceptions and external calls *)

Inductive exn : Type :=
| CalledProcessError (output : string)
| KeyboardInterrupt
| NameError (name : string)
| KeyError (key : string)
| IndexError
| ValueError
| OSError (msg : string).

Inductive outcome (A : Type) : Type :=
| Normal (a : A)
| Raised (e : exn).
Arguments Normal {A} a.
Arguments Raised {A} e.

(** The argument of [subprocess.check_output]: a shell line (with or
    without [stderr=STDOUT]) or an argument vector. *)
Inductive popen_args : Type :=
| Shell (line : string) (stderr_to_stdout : bool)
| Argv (argv : list string).

(** Where a manifest is read from: the member [manifest.json] of an
    imported image tar, or a plain file. *)
Inductive manifest_source : Type :=
| FromTar (tar_path : string)
| FromFile (path : string).

Definition loc : Type := positive.

(** The external calls the script makes, with what came back. *)
Inductive event (F : Type) : Type :=
| EvMkdtemp (r : outcome string)
| EvCheckOutput (c : popen_args) (r : outcome string)
| EvLoadManifest (src : manifest_source) (r : outcome (list image_manifest))
| EvReadFile (path : string) (r : outcome string)
| EvWriteFile (path content : string) (r : outcome unit)
| EvUuid (r : outcome string)
| EvMasterHost (r : outcome string)
| EvKeysInsert (client_key client_username server_key : string) (r : outcome unit)
| EvCreateWork (appname : string) (args : gmap string (arg_value F))
    (files : list source) (r : outcome string).
Arguments EvMkdtemp {F} r.
Arguments EvCheckOutput {F} c r.
Arguments EvLoadManifest {F} src r.
Arguments EvReadFile {F} path r.
Arguments EvWriteFile {F} path content r.
Arguments EvUuid {F} r.
Arguments EvMasterHost {F} r.
Arguments EvKeysInsert {F} client_key client_username server_key r.
Arguments EvCreateWork {F} appname args files r.

(** The operating system, the Docker daemon and the BOINC library, as
    far as the script talks to them.  Every call may change the
    environment and may raise: a non-zero exit status is a
    [CalledProcessError] with the captured output, an interrupt of the
    user is the [KeyboardInterrupt] of the call during which it arrives.
    [dir_hier_path] (BOINC's download hierarchy) and the pretty-printer
    of [minidom] are functions of their argument.

    [sys_format] is [str.format] as [fmt] (line 62) calls it, with the
    globals of the module and the locals of the frame as keyword
    arguments, on a text that holds a brace: the text it gives, or the
    exception it raises ([IndexError] for a positional field,
    [KeyError] for a name that is not in scope, [ValueError] for a
    single brace).  It is asked only about the two progress messages
    that are first built with [%] (lines 232 and 243); the templates
    of the script itself are instantiated below. *)
Class System (F Env : Type) : Type := {
  sys_mkdtemp : Env -> outcome string * Env;
  sys_check_output : popen_args -> Env -> outcome string * Env;
  sys_exists : string -> Env -> bool;
  sys_load_manifest : manifest_source -> Env -> outcome (list image_manifest) * Env;
  sys_read_file : string -> Env -> outcome string * Env;
  sys_write_file : string -> string -> Env -> outcome unit * Env;
  sys_uuid4 : Env -> outcome string * Env;
  sys_master_host : Env -> outcome string * Env;
  sys_keys_insert : string -> string -> string -> Env -> outcome unit * Env;
  sys_create_work :
    string -> gmap string (arg_value F) -> list source -> Env -> outcome string * Env;
  dir_hier_path : string -> string;
  xml_pretty : element -> string;
  sys_format : string -> Env -> outcome string
}.

(** ** The world and the monad *)

Record world (F Env : Type) : Type := World {
  w_env : Env;
  w_stdout : list string;                  (* lines printed, oldest first *)
  w_heap : gmap loc (list input_file);     (* Python list objects *)
  w_tmpdir : option string;                (* the local [tmpdir], once bound *)
  w_trace : list (event F);                (* external calls, oldest first *)
  w_opts : gmap loc (list vbox_opt)        (* the [vbox_job_xml] list objects *)
}.
Arguments World {F Env}.
Arguments w_env {F Env}.
Arguments w_stdout {F Env}.
Arguments w_heap {F Env}.
Arguments w_tmpdir {F Env}.
Arguments w_trace {F Env}.
Arguments w_opts {F Env}.

Definition M (F Env A : Type) : Type := world F Env -> outcome A * world F Env.

Section Monad.
Context {F Env : Type}.
Local Abbreviation M := (M F Env).

Definition ret {A} (a : A) : M A := fun w => (Normal a, w).

Definition bind {A B} (m : M A) (k : A -> M B) : M B := fun w =>
  match m w with
  | (Normal a, w') => k a w'
  | (Raised e, w') => (Raised e, w')
  end.

Definition raise {A} (e : exn) : M A := fun w => (Raised e, w).

(** [try: m except ...: h]: [h e] is [None] when no clause matches [e]. *)
Definition try_except {A} (m : M A) (h : exn -> option (M A)) : M A := fun w =>
  match m w with
  | (Normal a, w') => (Normal a, w')
  | (Raised e, w') =>
      match h e with
      | Some k => k w'
      | None => (Raised e, w')
      end
  end.

(** [try: m finally: fin]: an exception of [fin] replaces the pending one. *)
Definition try_finally {A} (m : M A) (fin : M unit) : M A := fun w =>
  match m w with
  | (r, w') =>
      match fin w' with
      | (Normal _, w'') => (r, w'')
      | (Raised e, w'') => (Raised e, w'')
      end
  end.

(** [print s] *)
Definition print (s : string) : M unit := fun w =>
  (Normal tt, World (w_env w) (w_stdout w ++ [s]) (w_heap w) (w_tmpdir w) (w_trace w) (w_opts w)).

Definition when (b : bool) (m : M unit) : M unit := if b then m else ret tt.

(** An external call: the environment answers, the call is recorded. *)
Definition external {A} (op : Env -> outcome A * Env) (ev : outcome A -> event F) : M A :=
  fun w =>
    let '(r, e) := op (w_env w) in
    (r, World e (w_stdout w) (w_heap w) (w_tmpdir w) (w_trace w ++ [ev r]) (w_opts w)).

(** The local variable [tmpdir]. *)
Definition bind_tmpdir (d : string) : M unit := fun w =>
  (Normal tt, World (w_env w) (w_stdout w) (w_heap w) (Some d) (w_trace w) (w_opts w)).

Definition unbind_tmpdir : M unit := fun w =>
  (Normal tt, World (w_env w) (w_stdout w) (w_heap w) None (w_trace w) (w_opts w)).

(** [{tmpdir}] inside [fmt]: a [KeyError] while the local is unbound. *)
Definition read_tmpdir : M string := fun w =>
  match w_tmpdir w with
  | Some d => (Normal d, w)
  | None => (Raised (KeyError "tmpdir"), w)
  end.

(** List objects: [[]], [l.append(x)], and reading the current value. *)
Definition new_list (init : list input_file) : M loc := fun w =>
  let l := fresh (dom (w_heap w)) in
  (Normal l,
   World (w_env w) (w_stdout w) (<[l := init]> (w_heap w)) (w_tmpdir w) (w_trace w) (w_opts w)).

Definition list_append (l : loc) (x : input_file) : M unit := fun w =>
  match w_heap w !! l with
  | Some xs =>
      (Normal tt,
       World (w_env w) (w_stdout w) (<[l := xs ++ [x]]> (w_heap w)) (w_tmpdir w) (w_trace w) (w_opts w))
  | None => (Raised (OSError "dangling list reference"), w)
  end.

Definition list_read (l : loc) : M (list input_file) := fun w =>
  match w_heap w !! l with
  | Some xs => (Normal xs, w)
  | None => (Raised (OSError "dangling list reference"), w)
  end.

(** The list objects of [vbox_job_xml]: a step that acts on them and
    on nothing else. *)
Definition with_opts {A}
    (op : gmap loc (list vbox_opt) -> outcome A * gmap loc (list vbox_opt)) : M A :=
  fun w =>
    let '(r, o) := op (w_opts w) in
    (r, World (w_env w) (w_stdout w) (w_heap w) (w_tmpdir w) (w_trace w) o).

Definition new_opts (init : list vbox_opt) : M loc :=
  with_opts (fun o => let l := fresh (dom o) in (Normal l, <[l := init]> o)).

Definition opts_append (l : loc) (x : vbox_opt) : M unit :=
  with_opts (fun o =>
    match o !! l with
    | Some xs => (Normal tt, <[l := xs ++ [x]]> o)
    | None => (Raised (OSError "dangling list reference"), o)
    end).

Definition opts_read (l : loc) : M (list vbox_opt) :=
  with_opts (fun o =>
    match o !! l with
    | Some xs => (Normal xs, o)
    | None => (Raised (OSError "dangling list reference"), o)
    end).

(** A list comprehension whose element expression has effects. *)
Fixpoint mapM {A B} (f : A -> M B) (l : list A) : M (list B) :=
  match l with
  | [] => ret []
  | x :: rest => bind (f x) (fun y => bind (mapM f rest) (fun ys => ret (y :: ys)))
  end.

End Monad.

Declare Scope py_scope.
Delimit Scope py_scope with py.
Notation "'let!' x ':=' m 'in' k" := (bind m (fun x => k))
  (at level 10, x pattern, m at level 100, k at level 200) : py_scope.
Notation "m ;;; k" := (bind m (fun _ => k))
  (at level 100, k at level 200, right associativity) : py_scope.
Local Open Scope py_scope.

(** ** The helpers of the script *)

Section Script.
Context {F Env : Type} `{PyFloat F} `{System F Env}.
Local Abbreviation M := (M F Env).

Definition mkdtemp : M string := external sys_mkdtemp EvMkdtemp.

Definition check_output (c : popen_args) : M string :=
  external (sys_check_output c) (EvCheckOutput c).

Definition load_manifest (src : manifest_source) : M (list image_manifest) :=
  external (sys_load_manifest src) (EvLoadManifest src).

Definition read_file (path : string) : M string :=
  external (sys_read_file path) (EvReadFile path).

Definition write_file (path content : string) : M unit :=
  external (sys_write_file path content) (EvWriteFile path content).

Definition uuid_hex : M string := external sys_uuid4 EvUuid.

Definition master_host : M string := external sys_master_host EvMasterHost.

Definition keys_insert (client_key client_username server_key : string) : M unit :=
  external (sys_keys_insert client_key client_username server_key)
           (EvKeysInsert client_key client_username server_key).

Definition create_work (appname : string) (args : gmap string (arg_value F))
    (files : list source) : M string :=
  external (sys_create_work appname args files) (EvCreateWork appname args files).

(** [exists(p)] reads the environment and never raises. *)
Definition path_exists (p : string) : M bool := fun w => (Normal (sys_exists p (w_env w)), w).

(** A global that neither the function nor the module ever assigns. *)
Definition load_global {A} (name : string) : M A := raise (NameError name).

(** [sh] (line 63): run a shell line with stderr folded into stdout and
    strip the output. *)
Definition sh (line : string) : M string :=
  let! out := check_output (Shell line true) in
  ret (Py.strip out).

(** [fmt(s)] (line 62) of a text [s] that is no template of the
    script but was built with [%]: [str.format] returns a text without
    braces as it is, and looks for fields in any other. *)
Definition has_brace (s : string) : bool := Py.contains "{" s || Py.contains "}" s.

Definition fmt_outcome (s : string) (e : Env) : outcome string :=
  if has_brace s then sys_format s e else Normal s.

Definition fmt_text (s : string) : M string := fun w => (fmt_outcome s (w_env w), w).

(** [str(uuid)] from its 32 hex digits: 8-4-4-4-12. *)
Definition uuid_str (hex : string) : string :=
  String.substring 0 8 hex +:+ "-" +:+ String.substring 8 4 hex +:+ "-" +:+
  String.substring 12 4 hex +:+ "-" +:+ String.substring 16 4 hex +:+ "-" +:+
  String.substring 20 12 hex.

(** [memory_check] (lines 292-307). *)
Definition memory_check (imagesize : number F) (memory : option (number F))
    (verbose : bool) : M (number F) :=
  let need := num_add (num_mul (PyInt 4) imagesize) (PyInt 500) in
  match memory with
  | None =>
      when verbose
        (print ("Automatically setting memory allocation for job to "
                +:+ fmt_i need +:+ "MB.")) ;;;
      ret need
  | Some memory =>
      if num_ltb memory need then
        when verbose
          (print ("Warning: you allocated " +:+ fmt_i memory
                  +:+ "MB of memory for this job which is less than the prediceted minumum needed of "
                  +:+ fmt_i need +:+ "MB; job may fail.")) ;;;
        ret memory
      else
        ret memory
  end.

(** [escape_string] (lines 310-315): bash's [printf "%q"] on one
    argument; the output is returned as it is. *)
Definition escape_string (s : string) : M string :=
  check_output
    (Argv ["bash"; "-c";
           "printf " +:+ Py.dq +:+ "%q" +:+ Py.dq +:+ " " +:+ Py.dq +:+ "$@" +:+ Py.dq;
           "_"; s]).

(** [ssh_keygen] (lines 318-327): (public, private).  Opening and
    reading a file is one call here; the private key file is opened
    first, as in the nested [with]. *)
Definition ssh_keygen (tmpdir : string) : M (string * string) :=
  check_output
    (Shell ("echo y | ssh-keygen -C sshgrid -t rsa -b 4096 -P " +:+ Py.dq +:+ Py.dq
            +:+ " -f " +:+ PosixPath.join tmpdir "id_rsa") false) ;;;
  let! priv := read_file (PosixPath.join tmpdir "id_rsa") in
  let! pub := read_file (PosixPath.join tmpdir "id_rsa.pub") in
  ret (Py.strip pub, Py.strip priv).

(** ** The input template (lines 252-261) *)

Definition append_child (parent child : element) : element :=
  let 'Element tag text children := parent in
  Element tag text (children ++ [child]).

(** The [workunit] element is the first child of the root (line 253);
    [SubElement(workunit, ...)] changes it in place inside the root. *)
Definition in_workunit (f : element -> element) (root : element) : element :=
  match root with
  | Element tag text (workunit :: rest) => Element tag text (f workunit :: rest)
  | Element _ _ [] => root
  end.

Definition file_info_element (i : nat) (flags : list string) : element :=
  Element "file_info" None
    (Element "number" (Some (Py.str_nat i)) []
     :: map (fun flag => Element flag None []) flags).

Definition file_ref_element (i : nat) (open_name : string) : element :=
  Element "file_ref" None
    [Element "file_number" (Some (Py.str_nat i)) [];
     Element "open_name" (Some open_name) [];
     Element "copy_file" None []].

(** One turn of the loop at line 254. *)
Definition template_step (i : nat) (f : packaged_file) (root : element) : element :=
  let '(open_name, _, flags) := f in
  let root := append_child root (file_info_element i flags) in
  in_workunit (fun workunit => append_child workunit (file_ref_element i open_name)) root.

Fixpoint template_loop (i : nat) (files : list packaged_file) (root : element) : element :=
  match files with
  | [] => root
  | f :: rest => template_loop (S i) rest (template_step i f root)
  end.

Definition input_template (files : list packaged_file) : element :=
  let root := Element "input_template" None [] in
  let root := append_child root (Element "workunit" None []) in
  template_loop 0 files root.

(** The [file_ref] elements of a template, in document order. *)
Definition file_refs (root : element) : list element :=
  match find_child "workunit" root with
  | Some workunit => findall "file_ref" workunit
  | None => []
  end.

(** ** [boinc2docker_create_work] (lines 23-277) *)

Record arguments : Type := {
  image : string;
  command : option command_arg;
  input_files : option loc;
  appname : string;
  entrypoint : option string;
  prerun : option string;
  postrun : option string;
  sshgrid_mode : bool;
  verbose : bool;
  native_unzip : bool;
  memory : option (number F);
  disable_automatic_checkpoints : bool;
  progress_file : option string;
  vbox_job_xml : option loc;
  create_work_args : option (gmap string (arg_value F));
  force_reimport : bool
}.

(** Line 71. *)
Definition with_tag (image : string) : string :=
  if Py.contains ":" image then image else image +:+ ":latest".

(** Line 81. *)
Definition get_image_id (image : string) : M string :=
  let! out := sh ("docker inspect --format " +:+ Py.dq +:+ "{{ .Id }}" +:+ Py.dq
                  +:+ " " +:+ image) in
  match Py.split ":"%char (Py.strip out) !! 1%nat with
  | Some id => ret id
  | None => raise IndexError
  end.

(** Lines 82-90. *)
Definition resolve_image (image : string) (verbose : bool) : M string :=
  try_except (get_image_id image)
    (fun e =>
       match e with
       | CalledProcessError output =>
           Some (if Py.contains "No such image" output then
                   when verbose (print ("Pulling '" +:+ image +:+ "'...")) ;;;
                   sh ("docker pull " +:+ image) ;;;
                   get_image_id image
                 else raise e)
       | _ => None
       end).

Definition manual_gz (native_unzip : bool) : string :=
  if negb native_unzip then ".manual.gz" else "".

(** Line 96: the memory of the job, in MB. *)
Definition job_memory (image : string) (memory : option (number F))
    (verbose : bool) : M Z :=
  let! out := sh ("docker inspect --format " +:+ Py.dq +:+ "{{ .Size }}" +:+ Py.dq
                  +:+ " " +:+ image) in
  let! size := match Py.int_of_str out with
               | Some z => ret z
               | None => raise ValueError
               end in
  let! m := memory_check (num_div_float (PyInt size) million) memory verbose in
  ret (num_int m).

(** Lines 99-106: (need_extract, manifest). *)
Definition export_image (image tmpdir image_path : string)
    (force_reimport verbose : bool) : M (bool * list image_manifest) :=
  let! cached := (if negb force_reimport then path_exists image_path else ret false) in
  if cached then
    when verbose (print "Image already imported into BOINC. Reading existing info...") ;;;
    let! manifest := load_manifest (FromTar image_path) in
    ret (false, manifest)
  else
    when verbose (print ("Exporting '" +:+ image +:+ "' to tar file...")) ;;;
    sh ("docker save " +:+ image +:+ " | tar xf - -C " +:+ tmpdir) ;;;
    let! manifest := load_manifest (FromFile (PosixPath.join tmpdir "manifest.json")) in
    ret (true, manifest).

(** Lines 114-115: one line of [extra_opts]. *)
Definition extra_opt_line (i : vbox_opt) : M string :=
  match i with
  | OptDict ((k, v) :: _) =>
      ret (Py.spaces 4 +:+ "<" +:+ k +:+ ">" +:+ v +:+ "</" +:+ k +:+ ">")
  | OptDict [] => raise IndexError
  | OptFlag name => ret (Py.spaces 4 +:+ "<" +:+ name +:+ "/>")
  end.

(** Lines 110-129.  The caller's [vbox_job_xml] list is changed in
    place (lines 111 and 112) before its lines are built; without one
    the list is a new object.  The caller's [create_work_args] dict is
    a value here. *)
Definition vbox_job_xml_contents (vbox_job_xml : option loc)
    (disable_automatic_checkpoints : bool) (memory : Z) : M string :=
  let! vbox_job_xml := match vbox_job_xml with
                       | Some l => ret l
                       | None => new_opts []
                       end in
  when disable_automatic_checkpoints
    (opts_append vbox_job_xml (OptFlag "disable_automatic_checkpoints")) ;;;
  opts_append vbox_job_xml (OptDict [("memory_size_mb", Py.str_int memory)]) ;;;
  let! vbox_job_xml := opts_read vbox_job_xml in
  let! lines := mapM extra_opt_line vbox_job_xml in
  let extra_opts := Py.join Py.nl lines in
  ret (Py.join Py.nl
         [""; "<vbox_job>"; "";
          "    <os_name>Linux26_64</os_name>";
          "    <enable_isocontextualization>1</enable_isocontextualization>";
          "    <enable_shared_directory/>";
          "    <enable_network/>";
          "    <completion_trigger_file>completion_trigger_file</completion_trigger_file>";
          "";
          extra_opts;
          "";
          "</vbox_job>"; ""]).

(** Lines 134-135. *)
Definition escaped_command (command : command_arg) : M string :=
  let command := match command with
                 | CmdStr s => Py.split_ws s
                 | CmdList l => l
                 end in
  let! escaped := mapM escape_string command in
  ret (Py.join " " escaped).

(** Line 136. *)
Definition entrypoint_option (entrypoint : option string) : string :=
  match entrypoint with
  | Some e => if bool_decide (e = "") then "" else "--entrypoint " +:+ e
  | None => ""
  end.

(** Lines 147-158. *)
Definition sshgrid_snippet (server client_username : string) : string :=
  Py.join Py.nl
    [""; "echo " +:+ Py.dq +:+ "Starting SSH server..." +:+ Py.dq;
     "/etc/rc.d/sshd";
     "";
     "echo 10.0.2.2 " +:+ server +:+ " >> /etc/hosts # for debugging on local machine";
     "";
     "echo " +:+ Py.dq +:+ "Reverse tunneling to server..." +:+ Py.dq;
     "mkdir /root/.ssh";
     "cp /root/shared/id_rsa /root/shared/id_rsa.pub /root/shared/authorized_keys /root/.ssh";
     "chmod 600 /root/.ssh/id_rsa";
     "ssh -o StrictHostKeyChecking=no -p 422 -NTR 0:localhost:22 "
       +:+ client_username +:+ "@" +:+ server;
     ""].

Definition single_result (args : gmap string (arg_value F)) : gmap string (arg_value F) :=
  <["max_total_results" := ArgNum (PyInt 1)]>
    (<["max_success_results" := ArgNum (PyInt 1)]>
       (<["max_error_results" := ArgNum (PyInt 1)]>
          (<["target_nresults" := ArgNum (PyInt 1)]> args))).

(** Lines 138-182: the text for the script and the updated
    [create_work_args].  [server_pub] at line 173 is read as a global. *)
Definition configure_sshgrid (sshgrid_mode verbose : bool) (tmpdir : string)
    (input_files : loc) (create_work_args : gmap string (arg_value F))
    : M (string * gmap string (arg_value F)) :=
  if sshgrid_mode then
    when verbose (print "Configuring sshgrid job...") ;;;
    let! server := master_host in
    let! u := uuid_hex in
    let client_username := "sshgrid-" +:+ uuid_str u in
    let sshgrid := sshgrid_snippet server client_username in
    let! (client_pub, client_priv) := ssh_keygen tmpdir in
    let! (_, server_priv) := ssh_keygen tmpdir in
    keys_insert client_priv client_username server_priv ;;;
    list_append input_files ("shared/id_rsa", client_priv, []) ;;;
    list_append input_files ("shared/id_rsa.pub", client_pub, []) ;;;
    let! server_pub := load_global "server_pub" in
    list_append input_files ("shared/authorized_keys", server_pub, []) ;;;
    ret (sshgrid, single_result create_work_args)
  else
    ret ("", create_work_args).

(** Lines 184-212. *)
Definition boinc_app_script (sshgrid prerun entrypoint image command postrun : string)
    : string :=
  Py.join Py.nl
    [""; "#!/bin/sh"; "set -e "; "";
     "echo " +:+ Py.dq +:+ "Importing Docker image from BOINC..." +:+ Py.dq;
     "mkdir -p /tmp/image/combined";
     "for f in /root/shared/image/*.tar.manual.gz; do [ -e $f ] && gunzip -c $f > /tmp/image/$(basename $f .manual.gz); done";
     "cat $(for f in /root/shared/image/*.tar /tmp/image/*.tar; do [ -e $f ] && echo $f; done) | tar xi -C /tmp/image/combined";
     "rm  /tmp/image/*.tar";
     "tar cf - -C /tmp/image/combined . | docker load";
     "rm -rf /tmp/image";
     "";
     "echo " +:+ Py.dq +:+ "Prerun diagnostics..." +:+ Py.dq;
     "docker images";
     "docker ps -a";
     "du -sh /var/lib/docker";
     "free -m";
     "";
     sshgrid;
     "";
     "echo " +:+ Py.dq +:+ "Prerun commands..." +:+ Py.dq;
     prerun;
     "";
     "echo " +:+ Py.dq +:+ "Running... " +:+ Py.dq;
     "docker run --rm -v /root/shared:/root/shared " +:+ entrypoint +:+ " " +:+ image
       +:+ " " +:+ command;
     "";
     "echo " +:+ Py.dq +:+ "Postrun commands..." +:+ Py.dq;
     postrun;
     ""].

(** Lines 217-218: the new list built from the caller's. *)
Definition repackage (f : input_file) : packaged_file :=
  let '(open_name, contents, flags) := f in
  (open_name, Inline (PosixPath.basename open_name) contents, flags).

(** Lines 220-221. *)
Definition layer_flags (native_unzip : bool) : list string :=
  ["sticky"; "no_delete"] ++ (if native_unzip then ["gzip"] else []).

(** Lines 233-237 and 244-248: archive, then compress. *)
Definition tar_and_gzip (native_unzip : bool) (tar_line path_tar : string) : M unit :=
  sh tar_line ;;;
  (if native_unzip
   then sh ("gzip -fk " +:+ path_tar)
   else sh ("gzip -fS .manual.gz " +:+ path_tar)) ;;;
  ret tt.

Definition layer_filename_tar (layer : string) : string :=
  "layer_" +:+ (PosixPath.split layer).1 +:+ ".tar".

Definition layer_filename (native_unzip : bool) (layer : string) : string :=
  layer_filename_tar layer +:+ manual_gz native_unzip.

Definition layer_path (native_unzip : bool) (layer : string) : string :=
  dir_hier_path (layer_filename native_unzip layer).

(** Lines 225-237: one turn of the loop over the layers; the result is
    the entry appended to the new [input_files].  The progress message
    of line 232 is built with [%] and then passed through [fmt]. *)
Definition package_layer (force_reimport need_extract verbose native_unzip : bool)
    (tmpdir layer : string) : M packaged_file :=
  let layer_id := (PosixPath.split layer).1 in
  let layer_path_tar :=
    PosixPath.join (PosixPath.dirname (layer_path native_unzip layer))
                   (layer_filename_tar layer) in
  let entry := ("shared/image/" +:+ layer_filename native_unzip layer,
                Staged (layer_filename native_unzip layer),
                layer_flags native_unzip) in
  let! archive :=
    (if force_reimport then ret true
     else if need_extract
          then (let! there := path_exists (layer_path native_unzip layer) in
                ret (negb there))
          else ret false) in
  (if archive then
     when verbose
       (let! message := fmt_text ("Creating input file for layer "
                                  +:+ Py.take 12 layer_id +:+ "...") in
        print message) ;;;
     tar_and_gzip native_unzip
       ("tar cvf " +:+ layer_path_tar +:+ " -C " +:+ tmpdir +:+ " " +:+ layer_id)
       layer_path_tar
   else ret tt) ;;;
  ret entry.

(** Lines 241-248: the rest of the image.  The progress message of
    line 243 is built with [%] and then passed through [fmt]. *)
Definition package_image (force_reimport need_extract verbose native_unzip : bool)
    (tmpdir image_id : string) : M packaged_file :=
  let image_filename_tar := "image_" +:+ image_id +:+ ".tar" in
  let image_filename := image_filename_tar +:+ manual_gz native_unzip in
  let image_path := dir_hier_path image_filename in
  let image_path_tar := PosixPath.join (PosixPath.dirname image_path) image_filename_tar in
  (if force_reimport || need_extract then
     when verbose
       (let! message := fmt_text ("Creating input file for image "
                                  +:+ Py.take 12 image_id +:+ "...") in
        print message) ;;;
     tar_and_gzip native_unzip
       ("tar cvf " +:+ image_path_tar +:+ " -C " +:+ tmpdir +:+ " " +:+ image_id
        +:+ ".json manifest.json repositories")
       image_path_tar
   else ret tt) ;;;
  ret ("shared/image/" +:+ image_filename, Staged image_filename, layer_flags native_unzip).

(** Lines 251-266. *)
Definition submit (appname tmpdir : string) (verbose : bool)
    (create_work_args : gmap string (arg_value F)) (input_files : list packaged_file)
    : M string :=
  when verbose (print "Creating input template for job...") ;;;
  let root := input_template input_files in
  let! u := uuid_hex in
  let template_file := PosixPath.join tmpdir ("boinc2docker_in_" +:+ u) in
  write_file template_file (xml_pretty root) ;;;
  let create_work_args := <["wu_template" := ArgStr template_file]> create_work_args in
  let! wu := create_work appname create_work_args (map source_of input_files) in
  ret (Py.strip wu).

(** What lines 78-213 leave in the local variables. *)
Record prepared : Type := {
  p_tmpdir : string;
  p_image_id : string;
  p_need_extract : bool;
  p_manifest : list image_manifest;
  p_create_work_args : gmap string (arg_value F)
}.

(** Lines 91-213: from the image id to the last append to the caller's
    list. *)
Definition describe_job (a : arguments) (image prerun postrun : string)
    (command : command_arg) (input_files : loc)
    (create_work_args : gmap string (arg_value F)) (tmpdir image_id : string)
    : M prepared :=
  let image_filename_tar := "image_" +:+ image_id +:+ ".tar" in
  let image_filename := image_filename_tar +:+ manual_gz (native_unzip a) in
  let image_path := dir_hier_path image_filename in
  let! memory := job_memory image (memory a) (verbose a) in
  let create_work_args :=
    <["rsc_memory_bound" := ArgNum (num_mul (PyInt memory) (PyFlt million))]>
      create_work_args in
  let! (need_extract, manifest) :=
    export_image image tmpdir image_path (force_reimport a) (verbose a) in
  let! contents :=
    vbox_job_xml_contents (vbox_job_xml a) (disable_automatic_checkpoints a) memory in
  list_append input_files ("vbox_job.xml", contents, []) ;;;
  let! command := escaped_command command in
  let entrypoint := entrypoint_option (entrypoint a) in
  let! (sshgrid, create_work_args) :=
    configure_sshgrid (sshgrid_mode a) (verbose a) tmpdir input_files create_work_args in
  let script := boinc_app_script sshgrid prerun entrypoint image command postrun in
  list_append input_files ("shared/boinc_app", script, []) ;;;
  ret {| p_tmpdir := tmpdir; p_image_id := image_id; p_need_extract := need_extract;
         p_manifest := manifest; p_create_work_args := create_work_args |}.

(** Lines 78-213. *)
Definition prepare (a : arguments) (image prerun postrun : string)
    (command : command_arg) (input_files : loc)
    (create_work_args : gmap string (arg_value F)) : M prepared :=
  let! tmpdir := mkdtemp in
  bind_tmpdir tmpdir ;;;
  let! image_id := resolve_image image (verbose a) in
  describe_job a image prerun postrun command input_files create_work_args
               tmpdir image_id.

(** Lines 217-248: the final input-file sequence.  The entries of the
    layers go to the new list, which nothing else refers to. *)
Definition package (a : arguments) (input_files : loc) (p : prepared)
    : M (list packaged_file) :=
  let! old := list_read input_files in
  let input_files := map repackage old in
  let! layers := match p_manifest p with
                 | m :: _ => ret (Layers m)
                 | [] => raise IndexError
                 end in
  let! layer_entries :=
    mapM (package_layer (force_reimport a) (p_need_extract p) (verbose a)
                        (native_unzip a) (p_tmpdir p)) layers in
  let! image_entry :=
    package_image (force_reimport a) (p_need_extract p) (verbose a) (native_unzip a)
                  (p_tmpdir p) (p_image_id p) in
  ret (input_files ++ layer_entries ++ [image_entry]).

(** The suite of the outer [try] (lines 78-266). *)
Definition try_suite (a : arguments) (image prerun postrun : string)
    (command : command_arg) (input_files : loc)
    (create_work_args : gmap string (arg_value F)) : M (option string) :=
  let! p := prepare a image prerun postrun command input_files create_work_args in
  let! files := package a input_files p in
  let! wu := submit (appname a) (p_tmpdir p) (verbose a) (p_create_work_args p) files in
  ret (Some wu).

(** Lines 268-271: the function falls off its end after either clause. *)
Definition handlers (e : exn) : option (M (option string)) :=
  match e with
  | KeyboardInterrupt => Some (print "Cleaning up temporary files..." ;;; ret None)
  | CalledProcessError output => Some (print (Py.strip output) ;;; ret None)
  | _ => None
  end.

(** Lines 272-277. *)
Definition cleanup : M unit :=
  try_except
    (let! tmpdir := read_tmpdir in
     sh ("rm -rf " +:+ tmpdir) ;;;
     ret tt)
    (fun _ => Some (ret tt)).

Definition boinc2docker_create_work (a : arguments) : M (option string) :=
  unbind_tmpdir ;;;
  let prerun := default "" (prerun a) in
  let postrun := default "" (postrun a) in
  let command := default (CmdStr "") (command a) in
  let! input_files := match input_files a with
                      | Some l => ret l
                      | None => new_list []
                      end in
  let create_work_args := default ∅ (create_work_args a) in
  let image := with_tag (image a) in
  try_finally
    (try_except
       (try_suite a image prerun postrun command input_files create_work_args)
       handlers)
    cleanup.

(** ** The command line (lines 332-365) *)

Record cli : Type := {
  IMAGE : string;
  COMMAND : list string;
  cli_entrypoint : option string;
  cli_appname : string;
  cli_memory : option Z;
  cli_native_unzip : bool;
  cli_quiet : bool;
  cli_force_reimport : bool;
  cli_sshgrid_mode : bool;
  cli_create_work_args : gmap string (arg_value F)   (* read_create_work_args(args) *)
}.

Definition cli_arguments (c : cli) : arguments :=
  {| image := IMAGE c;
     command := Some (CmdList (COMMAND c));
     input_files := None;
     appname := cli_appname c;
     entrypoint := cli_entrypoint c;
     prerun := None;
     postrun := None;
     sshgrid_mode := cli_sshgrid_mode c;
     verbose := negb (cli_quiet c);
     native_unzip := cli_native_unzip c;
     memory := PyInt <$> cli_memory c;
     disable_automatic_checkpoints := true;
     progress_file := None;
     vbox_job_xml := None;
     create_work_args := Some (cli_create_work_args c);
     force_reimport := cli_force_reimport c |}.

Definition main (c : cli) : M unit :=
  let! wu := boinc2docker_create_work (cli_arguments c) in
  match wu with
  | Some wu => print wu
  | None => ret tt
  end.

End Script.

(** ** A simulated system

    A small deterministic instance of [System], used to run the script
    on concrete inputs: a set of existing paths, the images the Docker
    daemon has, the images of the registry, and whether [rm] is allowed
    to remove the scratch directory.  Floats are exact rationals here. *)

Module Sim.

#[global] Instance Q_float : PyFloat Q := {
  float_of_int := inject_Z;
  float_add x y := Qred (Qplus x y);
  float_mul x y := Qred (Qmult x y);
  float_div x y := Qred (Qdiv x y);
  float_ltb x y := negb (Qle_bool y x);
  int_lt_float z x := negb (Qle_bool x (inject_Z z));
  float_lt_int x z := negb (Qle_bool (inject_Z z) x);
  float_trunc x := Z.quot (Qnum x) (Zpos (Qden x))
}.

Record docker_image : Type := {
  img_name : string;             (* repository:tag *)
  img_id : string;
  img_size : Z;                  (* bytes *)
  img_layers : list string       (* <layer id>/layer.tar *)
}.

Record env : Type := {
  files : list string;                               (* paths that exist *)
  manifests : list (string * list image_manifest);   (* readable manifests, by path *)
  daemon : list docker_image;
  registry : list docker_image;
  rm_allowed : bool;
  next : nat
}.

Definition lookup_image (name : string) (l : list docker_image) : option docker_image :=
  List.find (fun i => bool_decide (img_name i = name)) l.

Definition manifest_of (i : docker_image) : list image_manifest :=
  [{| Config := img_id i +:+ ".json"; RepoTags := [img_name i]; Layers := img_layers i |}].

Definition with_files (e : env) (fs : list string) : env :=
  {| files := fs; manifests := manifests e; daemon := daemon e;
     registry := registry e; rm_allowed := rm_allowed e; next := next e |}.

Definition failed (msg : string) (e : env) : outcome string * env :=
  (Raised (CalledProcessError (msg +:+ Py.nl)), e).

Definition inspect (field name : string) (e : env) : outcome string * env :=
  match lookup_image name (daemon e) with
  | Some i =>
      if bool_decide (field = ".Id") then (Normal ("sha256:" +:+ img_id i +:+ Py.nl), e)
      else (Normal (Py.str_int (img_size i) +:+ Py.nl), e)
  | None => failed ("Error: No such image: " +:+ name) e
  end.

Definition run_shell (line : string) (e : env) : outcome string * env :=
  match Py.split_ws line with
  | ["docker"; "inspect"; "--format"; _; field; _; name] => inspect field name e
  | ["docker"; "pull"; name] =>
      match lookup_image name (registry e) with
      | Some i =>
          (Normal ("Status: Downloaded newer image for " +:+ name +:+ Py.nl),
           {| files := files e; manifests := manifests e; daemon := i :: daemon e;
              registry := registry e; rm_allowed := rm_allowed e; next := next e |})
      | None => failed ("Error response from daemon: pull access denied for " +:+ name) e
      end
  | ["docker"; "save"; name; "|"; "tar"; "xf"; "-"; "-C"; dir] =>
      match lookup_image name (daemon e) with
      | Some i =>
          let m := PosixPath.join dir "manifest.json" in
          (Normal "",
           {| files := m :: files e; manifests := (m, manifest_of i) :: manifests e;
              daemon := daemon e; registry := registry e; rm_allowed := rm_allowed e;
              next := next e |})
      | None => failed ("Error response from daemon: reference does not exist") e
      end
  | "tar" :: "cvf" :: path :: "-C" :: _ => (Normal "", with_files e (path :: files e))
  | ["gzip"; "-fk"; path] => (Normal "", with_files e ((path +:+ ".gz") :: files e))
  | ["gzip"; "-fS"; suffix; path] =>
      (Normal "",
       with_files e ((path +:+ suffix) :: filter (fun p => p <> path) (files e)))
  | ["rm"; "-rf"; dir] =>
      if rm_allowed e
      then (Normal "", with_files e (filter (fun p => negb (String.prefix dir p)) (files e)))
      else failed ("rm: cannot remove '" +:+ dir +:+ "': Permission denied") e
  | "echo" :: "y" :: "|" :: "ssh-keygen" :: _ =>
      match last (Py.split_ws line) with
      | Some key => (Normal "", with_files e (key :: (key +:+ ".pub") :: files e))
      | None => failed "ssh-keygen: no key file" e
      end
  | _ => failed "sh: command not found" e
  end.

Fixpoint xml_of (e : element) : string :=
  let 'Element tag text children := e in
  "<" +:+ tag +:+ ">" +:+ default "" text
  +:+ (fix go (l : list element) : string :=
         match l with
         | [] => ""
         | c :: rest => xml_of c +:+ go rest
         end) children
  +:+ "</" +:+ tag +:+ ">".

(** [str.format] in a frame where no field can be filled: the escapes
    [{{] and [}}] give one brace each; a single [}] and a [{] that is
    not closed are [ValueError]s; a field is an [IndexError] when its
    name is a number or empty, and the [KeyError] of its name
    otherwise. *)
Fixpoint closes (depth : nat) (s : string) : bool :=
  match s with
  | EmptyString => false
  | String c rest =>
      if Ascii.eqb c "{"%char then closes (S depth) rest
      else if Ascii.eqb c "}"%char then
        match depth with
        | O => true
        | S d => closes d rest
        end
      else closes depth rest
  end.

Fixpoint field_name (s : string) : string :=
  match s with
  | EmptyString => ""
  | String c rest =>
      if Ascii.eqb c "}"%char || Ascii.eqb c "."%char || Ascii.eqb c "["%char
         || Ascii.eqb c "!"%char || Ascii.eqb c ":"%char
      then ""
      else String c (field_name rest)
  end.

Definition field_error (s : string) : exn :=
  if closes 0 s then
    match Py.digits 0 (field_name s) with
    | Some _ => IndexError
    | None => KeyError (field_name s)
    end
  else ValueError.

Definition prepend (c : Ascii.ascii) (r : outcome string) : outcome string :=
  match r with
  | Normal t => Normal (String c t)
  | Raised e => Raised e
  end.

Fixpoint format_text (s : string) : outcome string :=
  match s with
  | EmptyString => Normal ""
  | String c rest =>
      if Ascii.eqb c "{"%char then
        match rest with
        | String c' rest' =>
            if Ascii.eqb c' "{"%char then prepend c (format_text rest')
            else Raised (field_error rest)
        | EmptyString => Raised ValueError
        end
      else if Ascii.eqb c "}"%char then
        match rest with
        | String c' rest' =>
            if Ascii.eqb c' "}"%char then prepend c (format_text rest')
            else Raised ValueError
        | EmptyString => Raised ValueError
        end
      else prepend c (format_text rest)
  end.

#[global] Instance system : System Q env := {
  sys_mkdtemp e :=
    let d := "/tmp/tmp" +:+ Py.str_nat (next e) in
    (Normal d,
     {| files := d :: files e; manifests := manifests e; daemon := daemon e;
        registry := registry e; rm_allowed := rm_allowed e; next := S (next e) |});
  sys_check_output c e :=
    match c with
    | Shell line _ => run_shell line e
    | Argv ["bash"; "-c"; _; "_"; s] => (Normal s, e)
    | Argv _ => failed "exec: not found" e
    end;
  sys_exists p e := bool_decide (p ∈ files e);
  sys_load_manifest src e :=
    let path := match src with FromTar p => p | FromFile p => p end in
    match List.find (fun pm => bool_decide (pm.1 = path)) (manifests e) with
    | Some pm => (Normal pm.2, e)
    | None => (Raised (OSError ("No such file or directory: " +:+ path)), e)
    end;
  sys_read_file path e :=
    if bool_decide (path ∈ files e) then (Normal ("contents of " +:+ path +:+ Py.nl), e)
    else (Raised (OSError ("No such file or directory: " +:+ path)), e);
  sys_write_file path _ e := (Normal tt, with_files e (path :: files e));
  sys_uuid4 e := (Normal "0123456789abcdef0123456789abcdef", e);
  sys_master_host e := (Normal "boinc.example.org", e);
  sys_keys_insert _ _ _ e := (Normal tt, e);
  sys_create_work appname _ _ e := (Normal (appname +:+ "_" +:+ Py.str_nat (next e) +:+ Py.nl), e);
  dir_hier_path f := "/project/download/2e/" +:+ f;
  xml_pretty := xml_of;
  sys_format s _ := format_text s
}.

Definition alpine : docker_image :=
  {| img_name := "alpine:latest"; img_id := "a24bb4013296";
     img_size := 5570000; img_layers := ["50644c29ef5a/layer.tar"] |}.

(** A server that has the image locally and has never imported it. *)
Definition fresh_server : env :=
  {| files := []; manifests := []; daemon := [alpine]; registry := [alpine];
     rm_allowed := true; next := 0 |}.

(** The same server, where [rm] may not remove the scratch directory. *)
Definition locked_server : env :=
  {| files := []; manifests := []; daemon := [alpine]; registry := [alpine];
     rm_allowed := false; next := 0 |}.

(** A server whose daemon does not have the image yet. *)
Definition server_without_image : env :=
  {| files := []; manifests := []; daemon := []; registry := [alpine];
     rm_allowed := true; next := 0 |}.

(** A server that has staged the layer of the image for another image,
    and has not imported the image itself. *)
Definition server_with_layer : env :=
  {| files := ["/project/download/2e/layer_50644c29ef5a.tar.manual.gz"];
     manifests := []; daemon := [alpine]; registry := [alpine];
     rm_allowed := true; next := 0 |}.

Definition start (e : env) : world Q env :=
  World e [] ∅ None [] ∅.

Definition job (image : string) : arguments (F := Q) :=
  {| image := image; command := Some (CmdStr "echo hello world"); input_files := None;
     appname := "boinc2docker"; entrypoint := None; prerun := None; postrun := None;
     sshgrid_mode := false; verbose := true; native_unzip := false; memory := None;
     disable_automatic_checkpoints := true; progress_file := None; vbox_job_xml := None;
     create_work_args := None; force_reimport := false |}.

(** A caller that owns a list of extra input files. *)
Definition start_with (e : env) (l : loc) (xs : list input_file) : world Q env :=
  World e [] {[l := xs]} None [] ∅.

Definition job_with_files (image : string) (l : loc) : arguments (F := Q) :=
  {| image := image; command := Some (CmdStr "echo hello world"); input_files := Some l;
     appname := "boinc2docker"; entrypoint := None; prerun := None; postrun := None;
     sshgrid_mode := false; verbose := true; native_unzip := false; memory := None;
     disable_automatic_checkpoints := true; progress_file := None; vbox_job_xml := None;
     create_work_args := None; force_reimport := false |}.

(** A caller that owns a list of options for [vbox_job.xml]. *)
Definition start_with_options (e : env) (lo : loc) (os : list vbox_opt) : world Q env :=
  World e [] ∅ None [] {[lo := os]}.

Definition job_with_options (image : string) (lo : loc) : arguments (F := Q) :=
  {| image := image; command := Some (CmdStr "echo hello world"); input_files := None;
     appname := "boinc2docker"; entrypoint := None; prerun := None; postrun := None;
     sshgrid_mode := false; verbose := true; native_unzip := false; memory := None;
     disable_automatic_checkpoints := true; progress_file := None;
     vbox_job_xml := Some lo; create_work_args := None; force_reimport := false |}.

(** The same job in sshgrid mode. *)
Definition sshgrid_job (image : string) (l : loc) : arguments (F := Q) :=
  {| image := image; command := Some (CmdStr "echo hello world"); input_files := Some l;
     appname := "boinc2docker"; entrypoint := None; prerun := None; postrun := None;
     sshgrid_mode := true; verbose := true; native_unzip := false; memory := None;
     disable_automatic_checkpoints := true; progress_file := None; vbox_job_xml := None;
     create_work_args := None; force_reimport := false |}.

End Sim.

(** ** Statements that are compared with the code below *)

(** [e.findtext(tag)] *)
Definition child_text (tag : string) (e : element) : option string :=
  find_child tag e ≫= text_of.

(** The computed minimum of [memory_check]. *)
Definition need_of {F} `{PyFloat F} (imagesize : number F) : number F :=
  num_add (num_mul (PyInt 4) imagesize) (PyInt 500).

(** "Returns the override unchanged, with a warning whenever the
    override is below the minimum". *)
Definition override_kept_and_warned {F Env} `{PyFloat F}
    (imagesize memory : number F) (verbose : bool) (w : world F Env) : Prop :=
  (memory_check imagesize (Some memory) verbose w).1 = Normal memory /\
  (num_ltb memory (need_of imagesize) = true ->
   w_stdout (memory_check imagesize (Some memory) verbose w).2 <> w_stdout w).

(** The warning of [memory_check] (line 304). *)
Definition warning_text {F} `{PyFloat F} (imagesize memory : number F) : string :=
  "Warning: you allocated " +:+ fmt_i memory
  +:+ "MB of memory for this job which is less than the prediceted minumum needed of "
  +:+ fmt_i (need_of imagesize) +:+ "MB; job may fail.".

(** The [file_ref] and [file_info] elements of the files from index [i] on. *)
Fixpoint refs_from (i : nat) (files : list packaged_file) : list element :=
  match files with
  | [] => []
  | f :: rest => file_ref_element i (open_name_of f) :: refs_from (S i) rest
  end.

Fixpoint infos_from (i : nat) (files : list packaged_file) : list element :=
  match files with
  | [] => []
  | f :: rest => file_info_element i (flags_of f) :: infos_from (S i) rest
  end.

(** ** Observations on runs *)

(** The exception an external call ended with, if any. *)
Definition raised {A} (r : outcome A) : option exn :=
  match r with Normal _ => None | Raised e => Some e end.

Definition ev_exn {F} (ev : event F) : option exn :=
  match ev with
  | EvMkdtemp r => raised r
  | EvCheckOutput _ r => raised r
  | EvLoadManifest _ r => raised r
  | EvReadFile _ r => raised r
  | EvWriteFile _ _ r => raised r
  | EvUuid r => raised r
  | EvMasterHost r => raised r
  | EvKeysInsert _ _ _ r => raised r
  | EvCreateWork _ _ _ r => raised r
  end.

(** The shell line of the image-id lookup (line 81). *)
Definition lookup_line (image : string) : string :=
  "docker inspect --format " +:+ Py.dq +:+ "{{ .Id }}" +:+ Py.dq +:+ " " +:+ image.

Definition lookup_prefix : string :=
  "docker inspect --format " +:+ Py.dq +:+ "{{ .Id".

(** An image-id lookup, of whatever image. *)
Definition is_lookup {F} (ev : event F) : bool :=
  match ev with
  | EvCheckOutput (Shell line _) _ => String.prefix lookup_prefix line
  | _ => false
  end.

Definition lookups {F} (es : list (event F)) : nat :=
  length (List.filter is_lookup es).

(** The cleanup command (line 275). *)
Definition rm_event {F} (d : string) (r : outcome string) : event F :=
  EvCheckOutput (Shell ("rm -rf " +:+ d) true) r.

(** Relations between the world before and after a computation. *)
Definition same_frame {F Env} (w w' : world F Env) : Prop :=
  w_tmpdir w' = w_tmpdir w.

Definition same_heap {F Env} (w w' : world F Env) : Prop :=
  w_heap w' = w_heap w.

Definition emits {F Env} (P : event F -> Prop) (w w' : world F Env) : Prop :=
  exists es, w_trace w' = w_trace w ++ es /\ Forall P es.

(** The list at [l] only grows, by entries satisfying [P]. *)
Definition grows_at {F Env} (l : loc) (P : input_file -> Prop) (w w' : world F Env) : Prop :=
  forall xs, w_heap w !! l = Some xs ->
  exists added, w_heap w' !! l = Some (xs ++ added) /\ Forall P added.

(** A postcondition on runs, at every result type. *)
Definition post (F Env : Type) : Type :=
  forall A : Type, world F Env -> outcome A -> world F Env -> Prop.

Definition Meets {F Env A} (Q : post F Env) (m : M F Env A) : Prop :=
  forall w, Q A w (m w).1 (m w).2.

Definition of_rel {F Env} (R : relation (world F Env)) : post F Env :=
  fun _ w _ w' => R w w'.

(** Every exception of an external call ends the computation at once:
    a call that raised is the last one, and its exception is the result. *)
Definition abrupt {F A} (es : list (event F)) (r : outcome A) : Prop :=
  forall i ev e, es !! i = Some ev -> ev_exn ev = Some e ->
  S i = length es /\ r = Raised e.

Definition strict {F Env} : post F Env :=
  fun A w r w' => exists es, w_trace w' = w_trace w ++ es /\ abrupt es r.

(** The entries the function appends to the caller's list. *)
Definition job_entry (f : input_file) : Prop :=
  f.1.1 ∈ ["vbox_job.xml"; "shared/id_rsa"; "shared/id_rsa.pub";
           "shared/authorized_keys"; "shared/boinc_app"].

(** The external calls of lines 81-90, as the environment answers them. *)
Definition resolve_events {F Env} `{System F Env} (image : string) (e : Env)
    : list (event F) :=
  let lookup := Shell (lookup_line image) true in
  let '(r1, e1) := sys_check_output lookup e in
  EvCheckOutput lookup r1 ::
  match r1 with
  | Raised (CalledProcessError o) =>
      if Py.contains "No such image" o then
        let pull := Shell ("docker pull " +:+ image) true in
        let '(rp, e2) := sys_check_output pull e1 in
        EvCheckOutput pull rp ::
        match rp with
        | Normal _ => [EvCheckOutput lookup (sys_check_output lookup e2).1]
        | Raised _ => []
        end
      else []
  | _ => []
  end.

(** What a postcondition needs in order to hold of every stage built
    from the primitives below by sequencing and branching. *)
Class Ambient {F Env} `{System F Env} (Q : post F Env) : Prop := {
  amb_ret : forall A (a : A) w, Q A w (Normal a) w;
  amb_raise : forall A e w, Q A w (Raised e) w;
  amb_seq : forall A B w (a : A) w1 (r : outcome B) w2,
    Q A w (Normal a) w1 -> Q B w1 r w2 -> Q B w r w2;
  amb_abort : forall A B w e w1, Q A w (Raised e) w1 -> Q B w (Raised e) w1;
  amb_print : forall s, Meets Q (print s);
  amb_exists : forall p, Meets Q (path_exists p);
  amb_list_read : forall l, Meets Q (list_read l);
  amb_read_tmpdir : Meets Q read_tmpdir;
  amb_external : forall A (op : Env -> outcome A * Env) ev,
    (forall r, is_lookup (ev r) = false) ->
    (forall r, ev_exn (ev r) = raised r) ->
    Meets Q (external op ev)
}.

(** The postcondition does not look at the result. *)
Class Forgetful {F Env} (Q : post F Env) : Prop :=
  forgetful : forall A B w (r : outcome A) (r' : outcome B) w', Q A w r w' -> Q B w r' w'.

(** The postcondition holds of every external call, lookups included. *)
Class Blind {F Env} (Q : post F Env) : Prop :=
  blind_external : forall A (op : Env -> outcome A * Env) ev,
    (forall r, ev_exn (ev r) = raised r) -> Meets Q (external op ev).

(** The postcondition holds of appending a job entry to the list at [l]. *)
Class Appends {F Env} (l : loc) (Q : post F Env) : Prop :=
  appends : forall x, job_entry x -> Meets Q (list_append l x).

(** The postcondition holds of every step on the [vbox_job_xml] lists. *)
Class Unaware {F Env} (Q : post F Env) : Prop :=
  unaware : forall A (op : gmap loc (list vbox_opt)
                          -> outcome A * gmap loc (list vbox_opt)),
    Meets Q (with_opts op).

(** The postcondition holds of building the job descriptor from the
    list [vbox_job_xml] (lines 110-129). *)
Class Describes {F Env} `{PyFloat F} `{System F Env} (vbox_job_xml : option loc)
    (Q : post F Env) : Prop :=
  describes : forall disable_automatic_checkpoints memory,
    Meets Q (vbox_job_xml_contents vbox_job_xml disable_automatic_checkpoints memory).

(** The suite of the outer [try] after the image id is known
    (lines 91-266). *)
Definition after_resolve {F Env} `{PyFloat F} `{System F Env} (a : arguments)
    (image prerun postrun : string) (command : command_arg) (input_files : loc)
    (create_work_args : gmap string (arg_value F)) (tmpdir image_id : string)
    : M F Env (option string) :=
  let! p := describe_job a image prerun postrun command input_files create_work_args
                         tmpdir image_id in
  let! files := package a input_files p in
  let! wu := submit (appname a) (p_tmpdir p) (verbose a) (p_create_work_args p) files in
  ret (Some wu).

(** The state in which the outer [try] is entered (lines 66-74): the
    list the local [input_files] refers to, and the world. *)
Definition enter {F Env} (input_files : option loc) (w : world F Env)
    : loc * world F Env :=
  match input_files with
  | Some l => (l, World (w_env w) (w_stdout w) (w_heap w) None (w_trace w) (w_opts w))
  | None =>
      let l := fresh (dom (w_heap w)) in
      (l, World (w_env w) (w_stdout w) (<[l := []]> (w_heap w)) None (w_trace w) (w_opts w))
  end.

(** The outer [try] with its [except] clauses, entered from [w]. *)
Definition guarded_suite {F Env} `{PyFloat F} `{System F Env} (a : arguments)
    (w : world F Env) : outcome (option string) * world F Env :=
  try_except
    (try_suite a (with_tag (image a)) (default "" (prerun a)) (default "" (postrun a))
               (default (CmdStr "") (command a)) (enter (input_files a) w).1
               (default ∅ (create_work_args a)))
    handlers (enter (input_files a) w).2.

(** "The scratch directory is absent once the invocation is over". *)
Definition scratch_absent_after {F Env} `{PyFloat F} `{System F Env} (a : arguments)
    (w : world F Env) : Prop :=
  forall d e1, sys_mkdtemp (w_env w) = (Normal d, e1) ->
  sys_exists d (w_env (boinc2docker_create_work a w).2) = false.

(** The world after [mkdtemp] has returned [d] and [tmpdir] is bound. *)
Definition bound {F Env} (w : world F Env) (d : string) (e1 : Env) : world F Env :=
  World e1 (w_stdout w) (w_heap w) (Some d) (w_trace w ++ [EvMkdtemp (Normal d)]) (w_opts w).

(** The two shell lines of lines 233-237 for a layer. *)
Definition layer_path_tar {F Env} `{System F Env} (native_unzip : bool)
    (layer : string) : string :=
  PosixPath.join (PosixPath.dirname (layer_path native_unzip layer))
                 (layer_filename_tar layer).

Definition layer_tar_line {F Env} `{System F Env} (native_unzip : bool)
    (tmpdir layer : string) : string :=
  "tar cvf " +:+ layer_path_tar native_unzip layer +:+ " -C " +:+ tmpdir +:+ " "
  +:+ (PosixPath.split layer).1.

Definition layer_gzip_line {F Env} `{System F Env} (native_unzip : bool)
    (layer : string) : string :=
  if native_unzip then "gzip -fk " +:+ layer_path_tar native_unzip layer
  else "gzip -fS .manual.gz " +:+ layer_path_tar native_unzip layer.

(** The progress messages of lines 232 and 243, as [%] builds them. *)
Definition layer_message (layer : string) : string :=
  "Creating input file for layer " +:+ Py.take 12 (PosixPath.split layer).1 +:+ "...".

Definition image_message (image_id : string) : string :=
  "Creating input file for image " +:+ Py.take 12 image_id +:+ "...".

(** What becomes of a progress message: nothing when the run is not
    verbose, the outcome of [fmt] otherwise. *)
Definition message_outcome {F Env} `{System F Env} (verbose : bool) (message : string)
    (e : Env) : outcome string :=
  if verbose then fmt_outcome message e else Normal "".

(** "The layer is skipped exactly when its file exists and the image was
    served from the cache (no forced reimport, no extraction)". *)
Definition skipped_iff_present_and_cached {F Env} `{PyFloat F} `{System F Env}
    (force_reimport need_extract verbose native_unzip : bool)
    (tmpdir layer : string) (w : world F Env) : Prop :=
  w_trace (package_layer force_reimport need_extract verbose native_unzip
                         tmpdir layer w).2 = w_trace w
  <->
  (sys_exists (layer_path native_unzip layer) (w_env w) = true /\
   force_reimport = false /\ need_extract = false).

(** The tokens that are escaped one by one (line 134). *)
Definition command_tokens (command : command_arg) : list string :=
  match command with
  | CmdStr s => Py.split_ws s
  | CmdList l => l
  end.

(** "Every external-command failure raised as a [CalledProcessError]
    during the run is printed, and the function returns [None]". *)
Definition every_failure_reported {F Env} `{PyFloat F} `{System F Env}
    (a : arguments) (w : world F Env) : Prop :=
  forall es ev o,
    w_trace (boinc2docker_create_work a w).2 = w_trace w ++ es ->
    ev ∈ es ->
    ev_exn ev = Some (CalledProcessError o) ->
    (boinc2docker_create_work a w).1 = Normal None /\
    Py.strip o ∈ w_stdout (boinc2docker_create_work a w).2.

(** ** Further observations *)

(** What the [except] clauses of lines 268-271 make of the result of
    the suite, and what they print. *)
Definition handled (r : outcome (option string)) : outcome (option string) :=
  match r with
  | Raised (CalledProcessError _) | Raised KeyboardInterrupt => Normal None
  | _ => r
  end.

Definition handler_lines (r : outcome (option string)) : list string :=
  match r with
  | Raised (CalledProcessError output) => [Py.strip output]
  | Raised KeyboardInterrupt => ["Cleaning up temporary files..."]
  | _ => []
  end.

(** The [file_info] elements of a template, in document order. *)
Definition file_infos (root : element) : list element :=
  findall "file_info" root.

(** ** A scripted system

    A second instance of [System]: the answers of [check_output] are
    given in advance and handed out in order; everything else succeeds
    with a fixed answer. *)

Module Canned.

Record env : Type := {
  answers : list (outcome string);
  present : list string
}.

#[global] Instance system : System Q env := {
  sys_mkdtemp e := (Normal "/tmp/scratch", e);
  sys_check_output _ e :=
    match answers e with
    | r :: rest => (r, {| answers := rest; present := present e |})
    | [] => (Normal "", e)
    end;
  sys_exists p e := bool_decide (p ∈ present e);
  sys_load_manifest _ e :=
    (Normal [{| Config := "0a1b.json"; RepoTags := []; Layers := ["c2d3/layer.tar"] |}], e);
  sys_read_file path e := (Normal ("contents of " +:+ path), e);
  sys_write_file _ _ e := (Normal tt, e);
  sys_uuid4 e := (Normal "0123456789abcdef0123456789abcdef", e);
  sys_master_host e := (Normal "boinc.example.org", e);
  sys_keys_insert _ _ _ e := (Normal tt, e);
  sys_create_work appname _ _ e := (Normal (appname +:+ "_0" +:+ Py.nl), e);
  dir_hier_path f := "/project/download/" +:+ f;
  xml_pretty := Sim.xml_of;
  sys_format s _ := Sim.format_text s
}.

Definition start (answers : list (outcome string)) : world Q env :=
  World {| answers := answers; present := [] |} [] ∅ None [] ∅.

End Canned.

(** The command of line 96. *)
Definition size_line (image : string) : string :=
  "docker inspect --format " +:+ Py.dq +:+ "{{ .Size }}" +:+ Py.dq +:+ " " +:+ image.

(** An empty dict among the [vbox_job_xml] options. *)
Definition is_empty_dict (i : vbox_opt) : bool :=
  match i with OptDict [] => true | _ => false end.

(** The entries that lines 111 and 112 append to the [vbox_job_xml]
    list, and the list object they are appended to: the caller's, or a
    new one. *)
Definition own_opts (disable_automatic_checkpoints : bool) (memory : Z) : list vbox_opt :=
  (if disable_automatic_checkpoints
   then [OptFlag "disable_automatic_checkpoints"] else [])
  ++ [OptDict [("memory_size_mb", Py.str_int memory)]].

Definition opts_target {F Env} (vbox_job_xml : option loc) (w : world F Env) : loc :=
  match vbox_job_xml with
  | Some l => l
  | None => fresh (dom (w_opts w))
  end.

(** The entries of lines 230 and 241. *)
Definition layer_entry {F Env} `{System F Env} (native_unzip : bool) (layer : string)
    : packaged_file :=
  ("shared/image/" +:+ layer_filename native_unzip layer,
   Staged (layer_filename native_unzip layer),
   layer_flags native_unzip).

Definition image_entry (native_unzip : bool) (image_id : string) : packaged_file :=
  ("shared/image/" +:+ ("image_" +:+ image_id +:+ ".tar") +:+ manual_gz native_unzip,
   Staged (("image_" +:+ image_id +:+ ".tar") +:+ manual_gz native_unzip),
   layer_flags native_unzip).

(** The two shell lines of lines 244-248 for the rest of the image. *)
Definition image_path_tar {F Env} `{System F Env} (native_unzip : bool)
    (image_id : string) : string :=
  PosixPath.join
    (PosixPath.dirname
       (dir_hier_path (("image_" +:+ image_id +:+ ".tar") +:+ manual_gz native_unzip)))
    ("image_" +:+ image_id +:+ ".tar").

Definition image_tar_line {F Env} `{System F Env} (native_unzip : bool)
    (tmpdir image_id : string) : string :=
  "tar cvf " +:+ image_path_tar native_unzip image_id +:+ " -C " +:+ tmpdir +:+ " "
  +:+ image_id +:+ ".json manifest.json repositories".

Definition image_gzip_line {F Env} `{System F Env} (native_unzip : bool)
    (image_id : string) : string :=
  if native_unzip then "gzip -fk " +:+ image_path_tar native_unzip image_id
  else "gzip -fS .manual.gz " +:+ image_path_tar native_unzip image_id.

(** The list at [l] is the same before and after. *)
Definition kept_at {F Env} (l : loc) (w w' : world F Env) : Prop :=
  w_heap w' !! l = w_heap w !! l.

(** The [vbox_job_xml] list at [l], if there is one, is the same after. *)
Definition kept_opts {F Env} (l : loc) (w w' : world F Env) : Prop :=
  forall os, w_opts w !! l = Some os -> w_opts w' !! l = Some os.

(** What the calls of a run tell about how far it got: whether the
    manifest of the image has been read, whether bash has failed to
    escape a token of the command, and whether the keys of an sshgrid
    job have been stored. *)
Definition manifest_read {F} (es : list (event F)) : bool :=
  existsb (fun ev => match ev with
                     | EvLoadManifest _ (Normal _) => true
                     | _ => false
                     end) es.

Definition escape_failed {F} (es : list (event F)) : bool :=
  existsb (fun ev => match ev with
                     | EvCheckOutput (Argv _) (Raised _) => true
                     | _ => false
                     end) es.

Definition keys_stored {F} (es : list (event F)) : bool :=
  existsb (fun ev => match ev with
                     | EvKeysInsert _ _ _ (Normal _) => true
                     | _ => false
                     end) es.

(** Calls that tell none of the three. *)
Definition quiet {F} (es : list (event F)) : Prop :=
  manifest_read es = false /\ escape_failed es = false /\ keys_stored es = false.

Definition calm {F Env A} (m : M F Env A) : Prop :=
  forall w, exists es, w_trace (m w).2 = w_trace w ++ es /\ quiet es.

(** The entries that a run with the calls [es] has appended to the
    caller's list: the job descriptor, once the manifest has been read
    and unless an option of the caller is an empty dict; then, unless
    a token of the command could not be escaped, in sshgrid mode the
    two client keys once they are stored, and otherwise the script. *)
Definition appended_entries {F} `{PyFloat F} (a : arguments (F := F))
    (described : bool) (es : list (event F)) (added : list input_file) : Prop :=
  if manifest_read es && described then
    exists vbox,
      if escape_failed es then added = [("vbox_job.xml", vbox, [])]
      else if sshgrid_mode a then
        if keys_stored es then
          exists client_priv client_pub,
            added = [("vbox_job.xml", vbox, []);
                     ("shared/id_rsa", client_priv, []);
                     ("shared/id_rsa.pub", client_pub, [])]
        else added = [("vbox_job.xml", vbox, [])]
      else
        exists script,
          added = [("vbox_job.xml", vbox, []); ("shared/boinc_app", script, [])]
  else added = [].

(** "After the call the caller's list has grown by the [vbox_job.xml]
    tuple, any sshgrid key-file tuples and the [shared/boinc_app]
    tuple". *)
Definition grown_by_job_entries {F Env} `{PyFloat F} `{System F Env}
    (a : arguments) (l : loc) (xs : list input_file) (w : world F Env) : Prop :=
  exists vbox keys script,
    w_heap (boinc2docker_create_work a w).2 !! l
    = Some (xs ++ [("vbox_job.xml", vbox, [])] ++ keys
               ++ [("shared/boinc_app", script, [])]).

(** The list that [vbox_job_xml] refers to holds [os]; without a list
    the options are empty. *)
Definition valid_options {F Env} (vbox_job_xml : option loc) (os : list vbox_opt)
    (w : world F Env) : Prop :=
  match vbox_job_xml with
  | Some lo => w_opts w !! lo = Some os
  | None => os = []
  end.

(** The argument vector of [escape_string] (line 315). *)
Definition escape_argv (s : string) : popen_args :=
  Argv ["bash"; "-c";
        "printf " +:+ Py.dq +:+ "%q" +:+ Py.dq +:+ " " +:+ Py.dq +:+ "$@" +:+ Py.dq;
        "_"; s].

(** ** [get_image_size] (lines 279-289)

    The function is not called by the script itself.  The exceptions
    that its own lines raise are values of [size_exn], beside the
    result; an exception of the docker call is raised as everywhere
    else. *)

(** [float(s)] of a string; [None] stands for the [ValueError]. *)
Class FloatOfStr (F : Type) : Type := float_of_str : string -> option F.

(** [s.splitlines()] of a byte string: a line ends at a line feed, at
    a carriage return or at the two in this order. *)
Fixpoint splitlines_go (cur s : string) : list string :=
  match s with
  | EmptyString =>
      match cur with
      | EmptyString => []
      | _ => [String.rev cur]
      end
  | String c s' =>
      if Ascii.eqb c "010"%char then String.rev cur :: splitlines_go "" s'
      else if Ascii.eqb c "013"%char then
        String.rev cur ::
        match s' with
        | String c' s'' =>
            if Ascii.eqb c' "010"%char then splitlines_go "" s'' else splitlines_go "" s'
        | EmptyString => []
        end
      else splitlines_go (String c cur) s'
  end.

Definition splitlines (s : string) : list string := splitlines_go "" s.

Inductive size_exn : Type :=
| SizeException (message : string)   (* Exception(...), lines 285 and 287 *)
| SizeValueError                     (* the unpacking of line 288, float(val) *)
| SizeKeyError (key : string).       (* the dict of line 289 *)

(** The command of line 283. *)
Definition images_line (image : string) : string :=
  "docker images --format '{{ .Size }}' " +:+ image.

(** The dict of line 289. *)
Definition units_exponent (units : string) : option Z :=
  if bool_decide (units = "B") then Some 0
  else if bool_decide (units = "KB") then Some 3
  else if bool_decide (units = "MB") then Some 6
  else if bool_decide (units = "GB") then Some 9
  else None.

(** Lines 284-289, on the lines of the output. *)
Definition image_size {F} `{PyFloat F} `{FloatOfStr F} (image : string)
    (output : list string) : size_exn + F :=
  match output with
  | [] => inl (SizeException ("Trying to get size of unknown image '" +:+ image +:+ "'"))
  | [line] =>
      match Py.split_ws line with
      | [val; units] =>
          match float_of_str val with
          | None => inl SizeValueError
          | Some x =>
              match units_exponent units with
              | None => inl (SizeKeyError units)
              | Some k => inr (float_div (float_mul x (float_of_int (10 ^ k))) million)
              end
          end
      | _ => inl SizeValueError
      end
  | _ => inl (SizeException ("Trying to get size of ambiguous image name '"
                             +:+ image +:+ "'"))
  end.

Definition get_image_size {F Env} `{PyFloat F} `{System F Env} `{FloatOfStr F}
    (image : string) : M F Env (size_exn + F) :=
  let! out := check_output (Shell (images_line image) true) in
  ret (image_size image (splitlines out)).

(** No white space in [s]. *)
Fixpoint no_space (s : string) : bool :=
  match s with
  | EmptyString => true
  | String a s' => negb (Ascii.is_space a) && no_space s'
  end.

(** Neither a line feed nor a carriage return in [s]. *)
Fixpoint no_break (s : string) : bool :=
  match s with
  | EmptyString => true
  | String a s' => negb (Ascii.eqb a "010"%char) && negb (Ascii.eqb a "013"%char) && no_break s'
  end.

(** A [float] of the simulated system: digits, with or without a
    fraction. *)
Definition float_of_decimal (s : string) : option Q :=
  match Py.split "." s with
  | [String a i] => inject_Z <$> Py.digits 0 (String a i)
  | [String a i; String b f] =>
      match Py.digits 0 (String a i), Py.digits 0 (String b f) with
      | Some x, Some y =>
          Some (Qred (inject_Z x + inject_Z y / inject_Z (10 ^ Z.of_nat (String.length (String b f)))))
      | _, _ => None
      end
  | _ => None
  end.

#[global] Instance Q_float_of_str : FloatOfStr Q := float_of_decimal.

(** * Properties *)

(** ** The memory estimator *)

Section MemoryCheck.
Context {F Env : Type} `{PyFloat F}.
Implicit Types (w : world F Env) (imagesize memory : number F).

Lemma memory_check_pure imagesize (override : option (number F)) verbose w :
  w_env (memory_check imagesize override verbose w).2 = w_env w /\
  w_heap (memory_check imagesize override verbose w).2 = w_heap w /\
  w_trace (memory_check imagesize override verbose w).2 = w_trace w.
Proof.
  unfold memory_check.
  destruct override as [m|]; [destruct (num_ltb m _)|]; destruct verbose; done.
Qed.

(** C2. Without an override ([memory] is [None]) [memory_check] returns
    [4*imagesize + 500], in Python's arithmetic: for an integer size
    that is the integer [4*s + 500], for a float size (what line 96
    passes) the float [4.0*x + 500.0]. *)
Theorem memory_check_default imagesize verbose w :
  (memory_check imagesize None verbose w).1
    = Normal (num_add (num_mul (PyInt 4) imagesize) (PyInt 500)) /\
  (forall s : Z,
     (memory_check (PyInt s) None verbose w).1 = Normal (PyInt (4 * s + 500))) /\
  (forall x : F,
     (memory_check (PyFlt x) None verbose w).1
     = Normal (PyFlt (float_add (float_mul (float_of_int 4) x) (float_of_int 500)))).
Proof.
  repeat split; intros; unfold memory_check; destruct verbose; reflexivity.
Qed.

(** C3, as amended. With an override [memory_check] returns the override
    itself, below the minimum as well as at or above it; the warning is
    printed exactly when the override is below the minimum and [verbose]
    is set, and nothing is printed otherwise. *)
Theorem memory_check_override imagesize memory verbose w :
  (memory_check imagesize (Some memory) verbose w).1 = Normal memory /\
  w_stdout (memory_check imagesize (Some memory) verbose w).2
    = w_stdout w ++
      (if verbose && num_ltb memory (need_of imagesize)
       then [warning_text imagesize memory] else []).
Proof.
  unfold memory_check, need_of, warning_text.
  destruct (num_ltb memory _), verbose; cbn; rewrite ?app_nil_r; done.
Qed.

End MemoryCheck.

(** C3, as stated, fails: with [verbose] off an override of 10 MB for an
    image of 100 MB is below the minimum of 900 MB and is returned
    without any warning. *)
Lemma memory_check_silent_below_minimum :
  ~ override_kept_and_warned (PyInt 100) (PyInt 10) false (Sim.start Sim.fresh_server).
Proof.
  intros [_ Hwarn]. apply Hwarn; reflexivity.
Qed.

(** ** The input template *)

Section Template.

Lemma template_loop_shape files : forall i tag text refs infos,
  template_loop i files (Element tag text (Element "workunit" None refs :: infos))
  = Element tag text
      (Element "workunit" None (refs ++ refs_from i files)
       :: infos ++ infos_from i files).
Proof.
  induction files as [|[[open_name src] flags] rest IH]; intros i tag text refs infos.
  - cbn. by rewrite !app_nil_r.
  - cbn [template_loop template_step append_child in_workunit app].
    rewrite IH. cbn [refs_from infos_from open_name_of flags_of fst snd].
    by rewrite <- !app_assoc.
Qed.

Lemma input_template_shape files :
  input_template files
  = Element "input_template" None
      (Element "workunit" None (refs_from 0 files) :: infos_from 0 files).
Proof. unfold input_template. cbn [append_child app]. apply template_loop_shape. Qed.

Lemma findall_refs_from files : forall i,
  List.filter (fun c => bool_decide (tag_of c = "file_ref")) (refs_from i files)
  = refs_from i files.
Proof.
  induction files as [|f rest IH]; intros i; [done|].
  cbn [refs_from List.filter]. cbn [file_ref_element tag_of].
  rewrite bool_decide_true by done. by rewrite IH.
Qed.

Lemma file_refs_input_template files :
  file_refs (input_template files) = refs_from 0 files.
Proof.
  rewrite input_template_shape. unfold file_refs, find_child, findall.
  cbn [children_of List.find tag_of]. rewrite bool_decide_true by done.
  cbn [children_of]. apply findall_refs_from.
Qed.

Lemma refs_from_lookup files : forall i k f,
  files !! k = Some f ->
  refs_from i files !! k = Some (file_ref_element (i + k) (open_name_of f)).
Proof.
  induction files as [|g rest IH]; intros i k f Hk; [done|].
  destruct k as [|k]; cbn [refs_from].
  - injection Hk as ->. by rewrite Nat.add_0_r.
  - change ((g :: rest) !! S k) with (rest !! k) in Hk.
    change (refs_from (S i) rest !! k
            = Some (file_ref_element (i + S k) (open_name_of f))).
    rewrite (IH (S i) k f Hk). by rewrite Nat.add_succ_r.
Qed.

Lemma refs_from_length files : forall i, length (refs_from i files) = length files.
Proof. induction files as [|f rest IH]; intros i; cbn; [done|]. by rewrite IH. Qed.



(** Distinct indices are written as distinct texts. *)
Lemma str_nat_inj (i j : nat) : Py.str_nat i = Py.str_nat j -> i = j.
Proof. apply pretty_nat_inj. Qed.

End Template.

(** ** Composing postconditions *)

Section Framework.
Context {F Env : Type} `{PyFloat F} `{System F Env}.
Local Abbreviation M := (M F Env).

Lemma bind_unfold {A B} (m : M A) (k : A -> M B) w :
  bind m k w = match m w with
               | (Normal a, w') => k a w'
               | (Raised e, w') => (Raised e, w')
               end.
Proof. reflexivity. Qed.

Lemma bind_normal_inv {A B} (m : M A) (k : A -> M B) w b w' :
  bind m k w = (Normal b, w') ->
  exists a w1, m w = (Normal a, w1) /\ k a w1 = (Normal b, w').
Proof.
  rewrite bind_unfold. destruct (m w) as [[a|e] w1]; [eauto | discriminate].
Qed.

Section Closure.
Context (Q : post F Env) `{!Ambient Q}.

Lemma meets_ret {A} (a : A) : Meets Q (ret a).
Proof. intros w. apply amb_ret. Qed.

Lemma meets_raise {A} e : Meets Q (raise (A := A) e).
Proof. intros w. apply amb_raise. Qed.

Lemma meets_bind {A B} (m : M A) (k : A -> M B) :
  Meets Q m -> (forall a, Meets Q (k a)) -> Meets Q (bind m k).
Proof.
  intros Hm Hk w. rewrite bind_unfold. specialize (Hm w).
  destruct (m w) as [[a|e] w1]; cbn in *.
  - eapply amb_seq; [exact Hm | apply Hk].
  - by apply (amb_abort A B).
Qed.

Lemma meets_fmt_text s : Meets Q (fmt_text s).
Proof.
  intros w. unfold fmt_text. cbn [fst snd].
  destruct (fmt_outcome s (w_env w)); [apply amb_ret | apply amb_raise].
Qed.

Lemma meets_when b (m : M unit) : Meets Q m -> Meets Q (when b m).
Proof. intros Hm. destruct b; [done | apply meets_ret]. Qed.

Lemma meets_mapM {A B} (f : A -> M B) l :
  (forall x, Meets Q (f x)) -> Meets Q (mapM f l).
Proof.
  intros Hf. induction l as [|x l IH]; cbn [mapM]; [apply meets_ret|].
  apply meets_bind; [done | intros y].
  apply meets_bind; [done | intros ys]. apply meets_ret.
Qed.

Lemma meets_try_except `{!Forgetful Q} {A} (m : M A) h :
  Meets Q m -> (forall e k, h e = Some k -> Meets Q k) ->
  Meets Q (try_except m h).
Proof.
  intros Hm Hh w. unfold try_except. specialize (Hm w).
  destruct (m w) as [[a|e] w1]; cbn in *; [done|].
  destruct (h e) as [k|] eqn:E; [|done].
  eapply amb_seq; [eapply (forgetful _ unit _ _ (Normal tt)), Hm | by apply (Hh e k)].
Qed.

Lemma meets_try_finally `{!Forgetful Q} {A} (m : M A) fin :
  Meets Q m -> Meets Q fin -> Meets Q (try_finally m fin).
Proof.
  intros Hm Hf w. unfold try_finally. specialize (Hm w).
  destruct (m w) as [r w1]; cbn in *. specialize (Hf w1).
  destruct (fin w1) as [[[]|e] w2]; cbn in *;
    (eapply amb_seq; [eapply (forgetful _ unit _ _ (Normal tt)), Hm|]);
    by eapply forgetful.
Qed.

End Closure.

(** The relations on worlds, as postconditions. *)

Ltac prim :=
  intros; intros w;
  repeat match goal with
         | |- context [external ?op _ w] =>
             unfold external; destruct (op (w_env w)) as [? ?]
         | |- context [read_tmpdir w] => unfold read_tmpdir; destruct (w_tmpdir w) eqn:?
         | |- context [with_opts ?op w] =>
             unfold with_opts; destruct (op (w_opts w)) as [? ?]
         | |- context [list_append _ _ w] => unfold list_append; destruct (w_heap w !! _)
         | |- context [list_read _ w] => unfold list_read; destruct (w_heap w !! _)
         | |- context [read_tmpdir w] => unfold read_tmpdir; destruct (w_tmpdir w) eqn:?
         end;
  cbn.

#[global] Instance same_frame_ambient : Ambient (F := F) (of_rel same_frame).
Proof.
  split; unfold of_rel, same_frame; try (by prim); try done.
  intros; congruence.
Qed.

#[global] Instance same_heap_ambient : Ambient (F := F) (of_rel same_heap).
Proof.
  split; unfold of_rel, same_heap; try (by prim); try done.
  intros; congruence.
Qed.

Lemma emits_nothing (P : event F -> Prop) (w w' : world F Env) :
  w_trace w' = w_trace w -> emits P w w'.
Proof. intros E. exists []. by rewrite app_nil_r. Qed.

Lemma emits_refl (P : event F -> Prop) (w : world F Env) : emits P w w.
Proof. by apply emits_nothing. Qed.

Lemma emits_trans (P : event F -> Prop) (w1 w2 w3 : world F Env) :
  emits P w1 w2 -> emits P w2 w3 -> emits P w1 w3.
Proof.
  intros (es1 & E1 & P1) (es2 & E2 & P2). exists (es1 ++ es2).
  rewrite E2, E1, app_assoc. split; [done | by apply Forall_app].
Qed.

#[global] Instance emits_ambient :
  Ambient (F := F) (of_rel (emits (fun ev => is_lookup ev = false))).
Proof.
  split; unfold of_rel; try (by prim; apply emits_nothing); eauto using emits_refl, emits_trans.
  intros A op ev Hev _ w. unfold external. destruct (op (w_env w)) as [r e]. cbn.
  exists [ev r]. split; [done | by constructor].
Qed.

Lemma grows_at_same_heap l (P : input_file -> Prop) (w w' : world F Env) :
  w_heap w' = w_heap w -> grows_at l P w w'.
Proof. intros E xs Hxs. exists []. by rewrite app_nil_r, E. Qed.

Lemma grows_at_refl l (P : input_file -> Prop) (w : world F Env) : grows_at l P w w.
Proof. by apply grows_at_same_heap. Qed.

Lemma grows_at_trans l (P : input_file -> Prop) (w1 w2 w3 : world F Env) :
  grows_at l P w1 w2 -> grows_at l P w2 w3 -> grows_at l P w1 w3.
Proof.
  intros H12 H23 xs Hxs.
  destruct (H12 xs Hxs) as (a1 & E1 & P1). destruct (H23 _ E1) as (a2 & E2 & P2).
  exists (a1 ++ a2). rewrite app_assoc. split; [done | by apply Forall_app].
Qed.

#[global] Instance grows_at_ambient l :
  Ambient (F := F) (of_rel (grows_at l job_entry)).
Proof.
  split; unfold of_rel; try (by prim; apply grows_at_same_heap);
    eauto using grows_at_refl, grows_at_trans.
Qed.

#[global] Instance of_rel_forgetful (R : relation (world F Env)) : Forgetful (of_rel R).
Proof. by intros A B w r r' w' HR. Qed.

#[global] Instance same_frame_blind : Blind (F := F) (Env := Env) (of_rel same_frame).
Proof. unfold Blind, Appends. by prim. Qed.

#[global] Instance same_heap_blind : Blind (F := F) (Env := Env) (of_rel same_heap).
Proof. unfold Blind. by prim. Qed.

#[global] Instance grows_at_blind l :
  Blind (F := F) (Env := Env) (of_rel (grows_at l job_entry)).
Proof. unfold Blind. by prim; apply grows_at_same_heap. Qed.

#[global] Instance same_frame_appends l :
  Appends (F := F) (Env := Env) l (of_rel same_frame).
Proof. unfold Blind, Appends. by prim. Qed.

#[global] Instance emits_appends l :
  Appends (F := F) (Env := Env) l (of_rel (emits (fun ev => is_lookup ev = false))).
Proof. unfold Appends. by prim; apply emits_nothing. Qed.

#[global] Instance grows_at_appends l :
  Appends (F := F) (Env := Env) l (of_rel (grows_at l job_entry)).
Proof.
  intros x Hx w. unfold of_rel, list_append.
  destruct (w_heap w !! l) as [xs|] eqn:E; cbn; [|apply grows_at_refl].
  intros ys Hys. rewrite E in Hys. injection Hys as <-.
  exists [x]. cbn. rewrite lookup_insert_eq. split; [done | by constructor].
Qed.



Lemma abrupt_nil {A} (r : outcome A) : abrupt (F := F) [] r.
Proof. intros i ev e Hi. by rewrite lookup_nil in Hi. Qed.

Lemma strict_nothing {A} (w w' : world F Env) (r : outcome A) :
  w_trace w' = w_trace w -> strict A w r w'.
Proof. intros E. exists []. rewrite app_nil_r. split; [done | apply abrupt_nil]. Qed.

Lemma abrupt_normal {A} (es : list (event F)) (a : A) ev :
  abrupt es (Normal a) -> ev ∈ es -> ev_exn ev = None.
Proof.
  intros Hes [i Hi]%list_elem_of_lookup.
  destruct (ev_exn ev) as [e|] eqn:E; [|done].
  by destruct (Hes i ev e Hi E) as [_ ?].
Qed.

Lemma abrupt_app {A B} (es1 es2 : list (event F)) (a : A) (r : outcome B) :
  abrupt es1 (Normal a) -> abrupt es2 r -> abrupt (es1 ++ es2) r.
Proof.
  intros H1 H2 i ev e Hi Hev. rewrite length_app.
  apply lookup_app_Some in Hi as [Hi | [Hle Hi]].
  - by destruct (H1 i ev e Hi Hev).
  - destruct (H2 _ ev e Hi Hev) as [Hlen ->]. split; [lia | done].
Qed.

#[global] Instance strict_ambient : Ambient (F := F) (Env := Env) strict.
Proof.
  split; try (by prim; apply strict_nothing).
  - intros. by apply strict_nothing.
  - intros. by apply strict_nothing.
  - intros A B w a w1 r w2 (es1 & E1 & H1) (es2 & E2 & H2).
    exists (es1 ++ es2). rewrite E2, E1, app_assoc. eauto using abrupt_app.
  - intros A B w e w1 (es & E & Hes). exists es. split; [done|].
    intros i ev e' Hi Hev. destruct (Hes i ev e' Hi Hev) as [? [= ->]]. done.
  - intros A op ev _ Hev w. unfold external. destruct (op (w_env w)) as [r e]. cbn.
    exists [ev r]. split; [done|]. intros [|i] ev' e' Hi Hx; [|done].
    injection Hi as <-. rewrite Hev in Hx. destruct r; by simplify_eq/=.
Qed.

#[global] Instance strict_appends l : Appends (F := F) (Env := Env) l strict.
Proof. unfold Appends. by prim; apply strict_nothing. Qed.

#[global] Instance same_frame_unaware :
  Unaware (F := F) (Env := Env) (of_rel same_frame).
Proof. unfold Unaware. by prim. Qed.

#[global] Instance same_heap_unaware :
  Unaware (F := F) (Env := Env) (of_rel same_heap).
Proof. unfold Unaware. by prim. Qed.

#[global] Instance emits_unaware (P : event F -> Prop) :
  Unaware (F := F) (Env := Env) (of_rel (emits P)).
Proof. unfold Unaware. prim. by apply emits_nothing. Qed.

#[global] Instance grows_at_unaware l (P : input_file -> Prop) :
  Unaware (F := F) (Env := Env) (of_rel (grows_at l P)).
Proof. unfold Unaware. prim. by apply grows_at_same_heap. Qed.

#[global] Instance strict_unaware : Unaware (F := F) (Env := Env) strict.
Proof. unfold Unaware. prim. by apply strict_nothing. Qed.

Ltac side := intros; first [reflexivity | done | vm_compute; reflexivity].

Ltac meets_step :=
  first
    [ apply meets_ret; solve [eauto with typeclass_instances]
    | apply meets_raise; solve [eauto with typeclass_instances]
    | apply meets_when; [solve [eauto with typeclass_instances]|]
    | apply amb_print
    | apply amb_exists
    | apply amb_list_read
    | apply unaware
    | apply meets_fmt_text; solve [eauto with typeclass_instances]
    | apply amb_external; [side | side]
    | apply appends; vm_compute; set_solver
    | apply meets_mapM; [solve [eauto with typeclass_instances] | intros ?]
    | apply meets_bind; [solve [eauto with typeclass_instances] | | intros ?]
    | match goal with
      | |- Meets _ (match ?x with _ => _ end) => destruct x
      | |- Meets _ (if ?b then _ else _) => destruct b
      end ].

Ltac meets := repeat (cbv zeta; meets_step).

Section Generic.
Context (Q : post F Env) `{!Ambient Q}.

Lemma sh_meets line :
  String.prefix lookup_prefix line = false -> Meets Q (sh line).
Proof.
  intros Hline. unfold sh, check_output.
  apply meets_bind; [done | by apply amb_external | intros; by apply meets_ret].
Qed.

Lemma memory_check_meets imagesize memory verbose :
  Meets Q (memory_check imagesize memory verbose).
Proof. unfold memory_check. meets. Qed.

Lemma escape_string_meets s : Meets Q (escape_string s).
Proof. unfold escape_string, check_output. meets. Qed.

Lemma ssh_keygen_meets tmpdir : Meets Q (ssh_keygen tmpdir).
Proof. unfold ssh_keygen, check_output, read_file. meets. Qed.

Lemma job_memory_meets image memory verbose : Meets Q (job_memory image memory verbose).
Proof.
  unfold job_memory.
  apply meets_bind; [done | by apply sh_meets | intros out].
  apply meets_bind; [done | meets | intros size].
  apply meets_bind; [done | apply memory_check_meets | intros m]. meets.
Qed.

Lemma export_image_meets image tmpdir image_path force_reimport verbose :
  Meets Q (export_image image tmpdir image_path force_reimport verbose).
Proof.
  unfold export_image, load_manifest.
  apply meets_bind; [done | meets | intros [|]].
  - meets.
  - apply meets_bind; [done | meets | intros _].
    apply meets_bind; [done | by apply sh_meets | intros _]. meets.
Qed.

Lemma extra_opt_line_meets i : Meets Q (extra_opt_line i).
Proof. unfold extra_opt_line. destruct i as [name|[|[k v] items]]; meets. Qed.

Lemma vbox_job_xml_contents_meets `{!Unaware Q} opts dac memory :
  Meets Q (vbox_job_xml_contents opts dac memory).
Proof.
  unfold vbox_job_xml_contents, new_opts, opts_append, opts_read. cbv zeta.
  apply meets_bind; [done | destruct opts; meets | intros l].
  apply meets_bind; [done | meets | intros _].
  apply meets_bind; [done | meets | intros _].
  apply meets_bind; [done | meets | intros os].
  apply meets_bind; [done | | intros lines; meets].
  apply meets_mapM; [done | apply extra_opt_line_meets].
Qed.

#[global] Instance unaware_describes `{!Unaware Q} vbox : Describes vbox Q.
Proof. intros dac memory. apply vbox_job_xml_contents_meets. Qed.

Lemma escaped_command_meets command : Meets Q (escaped_command command).
Proof.
  unfold escaped_command. cbv zeta.
  apply meets_bind; [done | | intros lines; meets].
  apply meets_mapM; [done | apply escape_string_meets].
Qed.

Lemma configure_sshgrid_meets l `{!Appends l Q} sshgrid_mode verbose tmpdir args :
  Meets Q (configure_sshgrid sshgrid_mode verbose tmpdir l args).
Proof.
  unfold configure_sshgrid, master_host, uuid_hex, keys_insert, load_global.
  destruct sshgrid_mode; [|meets].
  apply meets_bind; [done | meets | intros _].
  apply meets_bind; [done | meets | intros server].
  apply meets_bind; [done | meets | intros u]. cbv zeta.
  apply meets_bind; [done | apply ssh_keygen_meets | intros [client_pub client_priv]].
  apply meets_bind; [done | apply ssh_keygen_meets | intros [? server_priv]].
  meets.
Qed.

Lemma tar_and_gzip_meets native_unzip tar_line path_tar :
  String.prefix lookup_prefix tar_line = false ->
  Meets Q (tar_and_gzip native_unzip tar_line path_tar).
Proof.
  intros Htar. unfold tar_and_gzip.
  apply meets_bind; [done | by apply sh_meets | intros _].
  apply meets_bind; [done | | intros _; meets].
  destruct native_unzip; by apply sh_meets.
Qed.

Lemma package_layer_meets force_reimport need_extract verbose native_unzip tmpdir layer :
  Meets Q (package_layer force_reimport need_extract verbose native_unzip tmpdir layer).
Proof.
  unfold package_layer. cbv zeta.
  apply meets_bind; [done | meets | intros archive].
  apply meets_bind; [done | | intros _; meets].
  destruct archive; [|meets].
  apply meets_bind; [done | meets | intros _]. by apply tar_and_gzip_meets.
Qed.

Lemma package_image_meets force_reimport need_extract verbose native_unzip tmpdir image_id :
  Meets Q (package_image force_reimport need_extract verbose native_unzip tmpdir image_id).
Proof.
  unfold package_image. cbv zeta.
  apply meets_bind; [done | | intros _; meets].
  destruct (force_reimport || need_extract); [|meets].
  apply meets_bind; [done | meets | intros _]. by apply tar_and_gzip_meets.
Qed.

Lemma submit_meets appname tmpdir verbose args files :
  Meets Q (submit appname tmpdir verbose args files).
Proof. unfold submit, uuid_hex, write_file, create_work. meets. Qed.

Lemma describe_job_meets l `{!Appends l Q} a `{!Describes (vbox_job_xml a) Q}
    image prerun postrun command args tmpdir image_id :
  Meets Q (describe_job a image prerun postrun command l args tmpdir image_id).
Proof.
  unfold describe_job. cbv zeta.
  apply meets_bind; [done | apply job_memory_meets | intros memory].
  apply meets_bind; [done | apply export_image_meets | intros [need_extract manifest]].
  apply meets_bind; [done | apply describes | intros contents].
  apply meets_bind; [done | meets | intros _].
  apply meets_bind; [done | apply escaped_command_meets | intros cmd].
  apply meets_bind; [done | by apply configure_sshgrid_meets | intros [sshgrid args']].
  meets.
Qed.

Lemma package_meets a l p : Meets Q (package a l p).
Proof.
  unfold package.
  apply meets_bind; [done | meets | intros old]. cbv zeta.
  apply meets_bind; [done | meets | intros layers].
  apply meets_bind; [done | | intros entries].
  { apply meets_mapM; [done | intros layer; apply package_layer_meets]. }
  apply meets_bind; [done | apply package_image_meets | intros image_entry]. meets.
Qed.

Lemma after_resolve_meets l `{!Appends l Q} a `{!Describes (vbox_job_xml a) Q}
    image prerun postrun command args tmpdir id :
  Meets Q (after_resolve a image prerun postrun command l args tmpdir id).
Proof.
  unfold after_resolve.
  apply meets_bind; [done | by apply describe_job_meets | intros p].
  apply meets_bind; [done | apply package_meets | intros files].
  apply meets_bind; [done | apply submit_meets | intros wu]. meets.
Qed.

Lemma handlers_meets e k : handlers e = Some k -> Meets Q k.
Proof. destruct e; intros [= <-]; meets. Qed.

Lemma rm_is_no_lookup d : String.prefix lookup_prefix ("rm -rf " +:+ d) = false.
Proof. reflexivity. Qed.

Lemma cleanup_meets `{!Forgetful Q} : Meets Q cleanup.
Proof.
  unfold cleanup. apply meets_try_except; [done | done | |].
  - apply meets_bind; [done | apply amb_read_tmpdir | intros d].
    apply meets_bind; [done | apply sh_meets, rm_is_no_lookup | intros _]. meets.
  - intros e k [= <-]. meets.
Qed.

Lemma get_image_id_meets `{!Blind Q} image : Meets Q (get_image_id image).
Proof.
  unfold get_image_id, sh, check_output.
  apply meets_bind; [done | | intros out; meets].
  apply meets_bind; [done | by apply blind_external | intros; meets].
Qed.

Lemma resolve_image_meets `{!Blind Q} `{!Forgetful Q} image verbose :
  Meets Q (resolve_image image verbose).
Proof.
  unfold resolve_image. apply meets_try_except; [done | done | apply get_image_id_meets |].
  intros e k Hk. destruct e; try discriminate. injection Hk as <-.
  destruct (Py.contains _ _); [|meets].
  apply meets_bind; [done | meets | intros _].
  apply meets_bind; [done | by apply sh_meets | intros _].
  apply get_image_id_meets.
Qed.

End Generic.

(** The suite of the outer [try], call by call. *)
Lemma try_suite_unfold a image prerun postrun command l args w :
  try_suite a image prerun postrun command l args w
  = (let! tmpdir := mkdtemp in
     bind_tmpdir tmpdir ;;;
     let! image_id := resolve_image image (verbose a) in
     after_resolve a image prerun postrun command l args tmpdir image_id) w.
Proof.
  unfold try_suite, prepare, after_resolve. rewrite !bind_unfold.
  destruct (mkdtemp w) as [[d|e] w1]; [|done].
  rewrite !bind_unfold. destruct (bind_tmpdir d w1) as [[[]|e] w2]; [|done].
  rewrite !bind_unfold. destruct (resolve_image _ _ w2) as [[id|e] w3]; [|done].
  reflexivity.
Qed.

Lemma cleanup_unbound (w : world F Env) :
  w_tmpdir w = None -> cleanup w = (Normal tt, w).
Proof. intros E. unfold cleanup, try_except, read_tmpdir. rewrite bind_unfold, E. done. Qed.

Lemma cleanup_bound (w : world F Env) d :
  w_tmpdir w = Some d ->
  cleanup w
  = (Normal tt,
     World (sys_check_output (Shell ("rm -rf " +:+ d) true) (w_env w)).2
           (w_stdout w) (w_heap w) (Some d)
           (w_trace w ++
            [rm_event d (sys_check_output (Shell ("rm -rf " +:+ d) true) (w_env w)).1])
           (w_opts w)).
Proof.
  intros E. unfold cleanup, try_except, read_tmpdir, sh, check_output, external, bind, ret.
  rewrite E. destruct (sys_check_output _ (w_env w)) as [[out|e] env']; cbn; by rewrite E.
Qed.

End Framework.

(** ** Whole runs *)

Section Runs.
Context {F Env : Type} `{PyFloat F} `{System F Env}.
Implicit Types (a : arguments (F := F)) (w : world F Env).

Lemma run_unfold a w :
  boinc2docker_create_work a w
  = match cleanup (guarded_suite a w).2 with
    | (Normal _, w') => ((guarded_suite a w).1, w')
    | (Raised e, w') => (Raised e, w')
    end.
Proof.
  unfold boinc2docker_create_work, guarded_suite, enter. rewrite !bind_unfold.
  unfold unbind_tmpdir. destruct (input_files a) as [l|]; cbn -[try_suite cleanup handlers].
  - unfold try_finally. by destruct (try_except _ _ _) as [r w1].
  - unfold try_finally. by destruct (try_except _ _ _) as [r w1].
Qed.

Lemma enter_env a w : w_env (enter (input_files a) w).2 = w_env w.
Proof. unfold enter. by destruct (input_files a). Qed.

Lemma enter_trace a w : w_trace (enter (input_files a) w).2 = w_trace w.
Proof. unfold enter. by destruct (input_files a). Qed.

Lemma enter_stdout a w : w_stdout (enter (input_files a) w).2 = w_stdout w.
Proof. unfold enter. by destruct (input_files a). Qed.

Lemma enter_tmpdir a w : w_tmpdir (enter (input_files a) w).2 = None.
Proof. unfold enter. by destruct (input_files a). Qed.

Lemma try_suite_bound a image prerun postrun command l args w d e1 :
  sys_mkdtemp (w_env w) = (Normal d, e1) ->
  try_suite a image prerun postrun command l args w
  = (let! image_id := resolve_image image (verbose a) in
     after_resolve a image prerun postrun command l args d image_id) (bound w d e1).
Proof.
  intros E. rewrite try_suite_unfold. unfold mkdtemp, external, bind_tmpdir.
  rewrite bind_unfold, E. reflexivity.
Qed.

Lemma try_suite_unbound a image prerun postrun command l args w e e1 :
  sys_mkdtemp (w_env w) = (Raised e, e1) ->
  try_suite a image prerun postrun command l args w
  = (Raised e,
     World e1 (w_stdout w) (w_heap w) (w_tmpdir w) (w_trace w ++ [EvMkdtemp (Raised e)]) (w_opts w)).
Proof.
  intros E. rewrite try_suite_unfold. unfold mkdtemp, external.
  rewrite bind_unfold, E. reflexivity.
Qed.

Lemma guarded_suite_frame a w d e1 :
  sys_mkdtemp (w_env w) = (Normal d, e1) ->
  w_tmpdir (guarded_suite a w).2 = Some d.
Proof.
  intros E. unfold guarded_suite.
  unfold try_except.
  rewrite <- (enter_env a w) in E.
  rewrite (try_suite_bound _ _ _ _ _ _ _ _ d e1 E).
  set (rest := bind _ _).
  assert (Hrest : Meets (of_rel same_frame) rest).
  { apply meets_bind; [apply _ | apply resolve_image_meets; apply _ | intros id].
    apply after_resolve_meets; apply _. }
  specialize (Hrest (bound (enter (input_files a) w).2 d e1)).
  unfold of_rel, same_frame in Hrest. cbn in Hrest.
  destruct (rest _) as [[v|e] w1]; cbn in *; [done|].
  destruct (handlers e) as [k|] eqn:Hk; [|done].
  pose proof (handlers_meets (of_rel same_frame) e k Hk w1) as Hh.
  unfold of_rel, same_frame in Hh. congruence.
Qed.

Lemma guarded_suite_unbound a w e e1 :
  sys_mkdtemp (w_env w) = (Raised e, e1) ->
  w_tmpdir (guarded_suite a w).2 = None.
Proof.
  intros E. unfold guarded_suite, try_except.
  rewrite <- (enter_env a w) in E.
  rewrite (try_suite_unbound _ _ _ _ _ _ _ _ e e1 E), enter_tmpdir.
  destruct (handlers e) as [k|] eqn:Hk; [|done].
  pose proof (handlers_meets (of_rel same_frame) e k Hk) as Hh.
  unfold Meets, of_rel, same_frame in Hh. by rewrite Hh.
Qed.

(** C7, as amended.  In every invocation in which [mkdtemp] has
    returned the scratch directory [d], whether the body succeeds,
    fails or is interrupted, the last external call is the cleanup
    command [rm -rf d], with [d] inserted as it is.  The removal is
    best effort: whatever the command returns or raises, the result of
    the invocation is that of the body, and the environment the
    invocation leaves is the one the command leaves, so the directory
    is absent afterwards exactly if that command left it absent. *)
Theorem cleanup_is_last_call a w d e1 :
  sys_mkdtemp (w_env w) = (Normal d, e1) ->
  exists rr,
    last (w_trace (boinc2docker_create_work a w).2) = Some (rm_event d rr) /\
    (boinc2docker_create_work a w).1 = (guarded_suite a w).1 /\
    sys_check_output (Shell ("rm -rf " +:+ d) true) (w_env (guarded_suite a w).2)
    = (rr, w_env (boinc2docker_create_work a w).2).
Proof.
  intros E. rewrite run_unfold.
  rewrite (cleanup_bound _ d (guarded_suite_frame a w d e1 E)). cbn.
  destruct (sys_check_output _ _) as [rr e'] eqn:Erm. exists rr. cbn.
  split; [apply last_snoc | done].
Qed.

(** When [mkdtemp] itself fails there is no directory and no cleanup
    command. *)
Lemma no_cleanup_without_tmpdir a w e e1 :
  sys_mkdtemp (w_env w) = (Raised e, e1) ->
  w_trace (boinc2docker_create_work a w).2 = w_trace w ++ [EvMkdtemp (Raised e)].
Proof.
  intros E. rewrite run_unfold, (cleanup_unbound _ (guarded_suite_unbound a w e e1 E)).
  unfold guarded_suite, try_except. rewrite <- (enter_env a w) in E.
  rewrite (try_suite_unbound _ _ _ _ _ _ _ _ e e1 E), enter_trace.
  destruct (handlers e) as [k|] eqn:Hk; [|done].
  destruct e; simplify_eq/=; done.
Qed.

End Runs.

Lemma cleanup_is_last_call_witness :
  exists rr,
    last (w_trace (boinc2docker_create_work (Sim.job "alpine")
                     (Sim.start Sim.fresh_server)).2)
      = Some (rm_event "/tmp/tmp0" rr) /\
    (boinc2docker_create_work (Sim.job "alpine") (Sim.start Sim.fresh_server)).1
      = (guarded_suite (Sim.job "alpine") (Sim.start Sim.fresh_server)).1 /\
    sys_check_output (Shell ("rm -rf " +:+ "/tmp/tmp0") true)
      (w_env (guarded_suite (Sim.job "alpine") (Sim.start Sim.fresh_server)).2)
    = (rr, w_env (boinc2docker_create_work (Sim.job "alpine")
                    (Sim.start Sim.fresh_server)).2).
Proof.
  apply (cleanup_is_last_call (Sim.job "alpine") (Sim.start Sim.fresh_server)
           "/tmp/tmp0"
           (sys_mkdtemp (w_env (Sim.start Sim.fresh_server))).2).
  reflexivity.
Defined.

(** C7, as stated, fails: on a server where [rm] may not remove the
    scratch directory the job is submitted, the failure of the cleanup
    command is swallowed, and the directory is still there. *)
Lemma scratch_directory_left_behind :
  ~ scratch_absent_after (Sim.job "alpine") (Sim.start Sim.locked_server).
Proof.
  intros Habsent.
  specialize (Habsent "/tmp/tmp0" _ eq_refl). vm_compute in Habsent. discriminate.
Qed.

(** ** The image resolver *)

Section Resolver.
Context {F Env : Type} `{PyFloat F} `{System F Env}.
Implicit Types (a : arguments (F := F)) (w : world F Env).

Lemma get_image_id_run image w :
  get_image_id image w
  = let '(r, e) := sys_check_output (Shell (lookup_line image) true) (w_env w) in
    let w' := World e (w_stdout w) (w_heap w) (w_tmpdir w)
                    (w_trace w ++ [EvCheckOutput (Shell (lookup_line image) true) r]) (w_opts w) in
    match r with
    | Normal out =>
        match Py.split ":"%char (Py.strip (Py.strip out)) !! 1%nat with
        | Some id => (Normal id, w')
        | None => (Raised IndexError, w')
        end
    | Raised e => (Raised e, w')
    end.
Proof.
  unfold get_image_id, sh, check_output, external, bind, ret, raise.
  change ("docker inspect --format " +:+ Py.dq +:+ "{{ .Id }}" +:+ Py.dq +:+ " " +:+ image)
    with (lookup_line image).
  destruct (sys_check_output _ _) as [[out|e] e1]; [|done].
  by destruct (_ !! _).
Qed.

Lemma sh_run line w :
  sh line w
  = let '(r, e) := sys_check_output (Shell line true) (w_env w) in
    let w' := World e (w_stdout w) (w_heap w) (w_tmpdir w)
                    (w_trace w ++ [EvCheckOutput (Shell line true) r]) (w_opts w) in
    match r with
    | Normal out => (Normal (Py.strip out), w')
    | Raised e => (Raised e, w')
    end.
Proof.
  unfold sh, check_output, external, bind, ret.
  by destruct (sys_check_output _ _) as [[out|e] e1].
Qed.

Ltac proj := cbn [w_trace w_env w_stdout w_heap w_tmpdir fst snd].

Lemma resolve_image_trace image verbose w :
  w_trace (resolve_image image verbose w).2
  = w_trace w ++ resolve_events image (w_env w).
Proof.
  unfold resolve_image, try_except, resolve_events. rewrite get_image_id_run.
  destruct (sys_check_output _ (w_env w)) as [[out|e] e1]; proj.
  - by destruct (_ !! _).
  - destruct e; try done.
    destruct (Py.contains _ _); [|done].
    unfold bind at 1.
    assert (Hw : exists s, when verbose (print ("Pulling '" +:+ image +:+ "'..."))
      (World e1 (w_stdout w) (w_heap w) (w_tmpdir w)
         (w_trace w ++ [EvCheckOutput (Shell (lookup_line image) true)
                          (Raised (CalledProcessError output))]) (w_opts w))
      = (Normal tt, World e1 s (w_heap w) (w_tmpdir w)
         (w_trace w ++ [EvCheckOutput (Shell (lookup_line image) true)
                          (Raised (CalledProcessError output))]) (w_opts w))).
    { destruct verbose; eexists; reflexivity. }
    destruct Hw as [s ->]. rewrite bind_unfold, sh_run. proj.
    destruct (sys_check_output _ e1) as [[out|e] e2]; proj; [|by rewrite <- app_assoc].
    rewrite get_image_id_run. proj.
    destruct (sys_check_output _ e2) as [[out2|e] e3]; proj;
      [destruct (_ !! _)|]; proj; by rewrite <- !app_assoc.
Qed.

Lemma resolve_image_fatal image verbose w o e1 :
  sys_check_output (Shell (lookup_line image) true) (w_env w)
    = (Raised (CalledProcessError o), e1) ->
  Py.contains "No such image" o = false ->
  resolve_image image verbose w
  = (Raised (CalledProcessError o),
     World e1 (w_stdout w) (w_heap w) (w_tmpdir w)
           (w_trace w ++ [EvCheckOutput (Shell (lookup_line image) true)
                            (Raised (CalledProcessError o))]) (w_opts w)).
Proof.
  intros E Hc. unfold resolve_image, try_except. rewrite get_image_id_run, E. proj. by rewrite Hc.
Qed.

(** Within the resolver only the failure of the first lookup with
    "No such image" is recovered from; any other exception of a call is
    the result of the resolver, and that call is its last. *)
Lemma resolve_image_abrupt image verbose w i ev e :
  resolve_events image (w_env w) !! i = Some ev -> ev_exn ev = Some e ->
  (i = 0%nat /\
   exists o, e = CalledProcessError o /\ Py.contains "No such image" o = true /\
             ev = EvCheckOutput (Shell (lookup_line image) true) (Raised e)) \/
  (S i = length (resolve_events image (w_env w)) /\
   (resolve_image image verbose w).1 = Raised e).
Proof.
  unfold resolve_image, try_except, resolve_events. rewrite get_image_id_run.
  destruct (sys_check_output _ (w_env w)) as [[out|e0] e1]; proj.
  - destruct i; [intros [= <-] [=] | done].
  - destruct e0 as [o| | | | | |];
      try (destruct i; [intros [= <-] [= <-]; by right | done]).
    destruct (Py.contains _ _) eqn:Hc;
      [|destruct i; [intros [= <-] [= <-]; by right | done]].
    unfold bind at 1.
    assert (Hw : exists s, when verbose (print ("Pulling '" +:+ image +:+ "'..."))
      (World e1 (w_stdout w) (w_heap w) (w_tmpdir w)
         (w_trace w ++ [EvCheckOutput (Shell (lookup_line image) true)
                          (Raised (CalledProcessError o))]) (w_opts w))
      = (Normal tt, World e1 s (w_heap w) (w_tmpdir w)
         (w_trace w ++ [EvCheckOutput (Shell (lookup_line image) true)
                          (Raised (CalledProcessError o))]) (w_opts w))).
    { destruct verbose; eexists; reflexivity. }
    destruct Hw as [s ->]. rewrite bind_unfold, sh_run. proj.
    destruct i as [|i]; [intros [= <-] [= <-]; left; eauto|].
    destruct (sys_check_output _ e1) as [[out|ep] e2]; proj.
    + rewrite get_image_id_run. proj.
      destruct i as [|i]; [intros [= <-] [=]|].
      destruct i as [|i]; [|done]. intros [= <-] Hev. right. split; [done|].
      destruct (sys_check_output _ e2) as [[out2|e2'] e3]; proj; [done|].
      by injection Hev as ->.
    + destruct i as [|i]; [|done]. intros [= <-] [= <-]. by right.
Qed.

Lemma lookups_cons (ev : event F) es :
  lookups (ev :: es) = ((if is_lookup ev then 1 else 0) + lookups es)%nat.
Proof. unfold lookups. cbn [List.filter]. by destruct (is_lookup ev). Qed.

Lemma lookups_app (es1 es2 : list (event F)) :
  lookups (es1 ++ es2) = (lookups es1 + lookups es2)%nat.
Proof. unfold lookups. by rewrite List.filter_app, length_app. Qed.

Lemma lookups_none (es : list (event F)) :
  Forall (fun ev => is_lookup ev = false) es -> lookups es = 0%nat.
Proof.
  induction 1 as [|ev es Hev _ IH]; [done|]. by rewrite lookups_cons, Hev, IH.
Qed.

Lemma is_lookup_lookup image (r : outcome string) :
  is_lookup (F := F) (EvCheckOutput (Shell (lookup_line image) true) r) = true.
Proof. reflexivity. Qed.

Lemma is_lookup_pull image (r : outcome string) :
  is_lookup (F := F) (EvCheckOutput (Shell ("docker pull " +:+ image) true) r) = false.
Proof. reflexivity. Qed.

(** The resolver looks the image up once, or twice around a pull. *)
Lemma resolve_events_lookups image (e : Env) :
  (1 <= lookups (resolve_events (F := F) image e) <= 2)%nat.
Proof.
  unfold resolve_events.
  destruct (sys_check_output (Shell (lookup_line image) true) e)
    as [[out|[o| | | | | |]] e1];
    rewrite lookups_cons, is_lookup_lookup; try (cbn; lia).
  destruct (Py.contains _ _); [|cbn; lia].
  destruct (sys_check_output (Shell ("docker pull " +:+ image) true) e1)
    as [[out|ep] e2];
    rewrite lookups_cons, is_lookup_pull; [|cbn; lia].
  rewrite lookups_cons, is_lookup_lookup. cbn. lia.
Qed.

End Resolver.

(** ** The calls of a whole run *)

Section Calls.
Context {F Env : Type} `{PyFloat F} `{System F Env}.
Implicit Types (a : arguments (F := F)) (w : world F Env).

(** After [mkdtemp] has returned [d], the suite makes the calls of the
    resolver and then calls among which there is no lookup and none
    whose exception is survived. *)
Lemma suite_calls a image prerun postrun command l args w d e1 :
  sys_mkdtemp (w_env w) = (Normal d, e1) ->
  exists es_after,
    w_trace (try_suite a image prerun postrun command l args w).2
      = w_trace w ++ EvMkdtemp (Normal d) :: resolve_events image e1 ++ es_after /\
    Forall (fun ev => is_lookup ev = false) es_after /\
    forall i ev e,
      (resolve_events image e1 ++ es_after) !! i = Some ev -> ev_exn ev = Some e ->
      (i = 0%nat /\
       exists o, e = CalledProcessError o /\ Py.contains "No such image" o = true /\
                 ev = EvCheckOutput (Shell (lookup_line image) true) (Raised e)) \/
      (S i = length (resolve_events image e1 ++ es_after) /\
       (try_suite a image prerun postrun command l args w).1 = Raised e).
Proof.
  intros E. rewrite (try_suite_bound _ _ _ _ _ _ _ _ d e1 E), bind_unfold.
  pose proof (resolve_image_trace image (verbose a) (bound w d e1)) as Htr.
  pose proof (resolve_image_abrupt image (verbose a) (bound w d e1)) as Hab.
  cbn [bound w_env w_trace] in Htr, Hab.
  destruct (resolve_image image (verbose a) (bound w d e1)) as [[id|e0] w1];
    cbn [fst snd] in *.
  - pose proof (after_resolve_meets (of_rel (emits (fun ev => is_lookup ev = false)))
                  l a image prerun postrun command args d id w1) as (es & Hes & Hno).
    pose proof (after_resolve_meets strict
                  l a image prerun postrun command args d id w1) as (es' & Hes' & Hstrict).
    assert (es' = es) as -> by (rewrite Hes in Hes'; by apply app_inv_head in Hes').
    exists es. rewrite Hes, Htr, <- !app_assoc. split; [done | split; [done|]].
    intros i ev e Hi Hev. apply lookup_app_Some in Hi as [Hi | [Hle Hi]].
    + destruct (Hab i ev e Hi Hev) as [?|[_ [=]]]. by left.
    + right. destruct (Hstrict _ ev e Hi Hev) as [Hlen ->].
      rewrite length_app. split; [lia | done].
  - exists []. rewrite Htr, <- !app_assoc, !app_nil_r. split; [done | split; [done|]].
    intros i ev e Hi Hev. destruct (Hab i ev e Hi Hev) as [?|[? [= ->]]]; [by left | by right].
Qed.

(** What the [except] clauses do with the result of the suite. *)
Lemma handlers_run (m : M F Env (option string)) w :
  try_except m handlers w
  = match m w with
    | (Raised (CalledProcessError o), w') =>
        (Normal None,
         World (w_env w') (w_stdout w' ++ [Py.strip o]) (w_heap w') (w_tmpdir w')
               (w_trace w') (w_opts w'))
    | (Raised KeyboardInterrupt, w') =>
        (Normal None,
         World (w_env w') (w_stdout w' ++ ["Cleaning up temporary files..."])
               (w_heap w') (w_tmpdir w') (w_trace w') (w_opts w'))
    | rw => rw
    end.
Proof.
  unfold try_except. destruct (m w) as [[v|[]] w']; done.
Qed.

(** The shape of every run in which [mkdtemp] has returned [d]. *)
Lemma run_shape a w d e1 :
  sys_mkdtemp (w_env w) = (Normal d, e1) ->
  exists es_after rr (r_s : outcome (option string)),
    w_trace (boinc2docker_create_work a w).2
      = w_trace w ++
        EvMkdtemp (Normal d) ::
        (resolve_events (with_tag (image a)) e1 ++ es_after) ++ [rm_event d rr] /\
    Forall (fun ev => is_lookup ev = false) es_after /\
    (forall i ev e,
       (resolve_events (with_tag (image a)) e1 ++ es_after) !! i = Some ev ->
       ev_exn ev = Some e ->
       (i = 0%nat /\
        exists o, e = CalledProcessError o /\ Py.contains "No such image" o = true /\
                  ev = EvCheckOutput (Shell (lookup_line (with_tag (image a))) true)
                         (Raised e)) \/
       (S i = length (resolve_events (with_tag (image a)) e1 ++ es_after) /\
        r_s = Raised e)) /\
    (forall o, r_s = Raised (CalledProcessError o) ->
       (boinc2docker_create_work a w).1 = Normal None /\
       last (w_stdout (boinc2docker_create_work a w).2) = Some (Py.strip o)) /\
    (forall v, r_s = Normal v -> (boinc2docker_create_work a w).1 = Normal v).
Proof.
  intros E. rewrite run_unfold.
  rewrite (cleanup_bound _ d (guarded_suite_frame a w d e1 E)).
  cbn [fst snd w_trace w_stdout]. unfold guarded_suite. rewrite handlers_run.
  pose proof E as E'. rewrite <- (enter_env a w) in E'.
  destruct (suite_calls a (with_tag (image a)) (default "" (prerun a))
              (default "" (postrun a)) (default (CmdStr "") (command a))
              (enter (input_files a) w).1 (default ∅ (create_work_args a))
              (enter (input_files a) w).2 d e1 E') as (es_after & Htr & Hno & Hab).
  rewrite enter_trace in Htr.
  destruct (try_suite _ _ _ _ _ _ _ _) as [r_s w_s]. cbn [fst snd] in *.
  exists es_after, (sys_check_output (Shell ("rm -rf " +:+ d) true) (w_env w_s)).1, r_s.
  destruct r_s as [v|[o| | | | | |]]; cbn [fst snd w_trace w_stdout w_env];
    (split; [rewrite Htr, <- (app_assoc (w_trace w)); reflexivity|]);
    (split; [exact Hno|]); (split; [exact Hab|]);
    (split; [intros o' [=] | intros v' [=]]); subst; try done.
  split; [done | apply last_snoc].
Qed.

End Calls.

(** ** External-command failures *)

Section Failures.
Context {F Env : Type} `{PyFloat F} `{System F Env}.
Implicit Types (a : arguments (F := F)) (w : world F Env).

Lemma run_mkdtemp_failed a w o e1 :
  sys_mkdtemp (w_env w) = (Raised (CalledProcessError o), e1) ->
  (boinc2docker_create_work a w).1 = Normal None /\
  last (w_stdout (boinc2docker_create_work a w).2) = Some (Py.strip o).
Proof.
  intros E. rewrite run_unfold.
  rewrite (cleanup_unbound _ (guarded_suite_unbound a w _ e1 E)).
  unfold guarded_suite. rewrite handlers_run.
  rewrite <- (enter_env a w) in E.
  rewrite (try_suite_unbound _ _ _ _ _ _ _ _ _ e1 E). cbn.
  split; [done | apply last_snoc].
Qed.

(** C8, as amended. Take any external call of a run that ended with a
    [CalledProcessError].  Unless it is the first image-id lookup
    failing with "No such image" (which is followed by a pull and a
    retry), or the cleanup command itself (whose failure is ignored),
    the captured output, stripped, is the last line printed, the only
    call after it is the cleanup command, and the function returns
    [None] instead of raising. *)
Theorem called_process_error_reported a w :
  exists es,
    w_trace (boinc2docker_create_work a w).2 = w_trace w ++ es /\
    forall i ev o,
      es !! i = Some ev -> ev_exn ev = Some (CalledProcessError o) ->
      (i = 1%nat /\ Py.contains "No such image" o = true /\
       ev = EvCheckOutput (Shell (lookup_line (with_tag (image a))) true)
              (Raised (CalledProcessError o))) \/
      (S i = length es /\ exists d, ev = rm_event d (Raised (CalledProcessError o))) \/
      ((boinc2docker_create_work a w).1 = Normal None /\
       last (w_stdout (boinc2docker_create_work a w).2) = Some (Py.strip o) /\
       forall ev', es !! S i = Some ev' ->
         S (S i) = length es /\ exists d rr, ev' = rm_event d rr).
Proof.
  destruct (sys_mkdtemp (w_env w)) as [[d|e0] e1] eqn:E.
  - destruct (run_shape a w d e1 E) as (es_after & rr & r_s & Htr & _ & Hab & Hcpe & _).
    eexists. split; [exact Htr|].
    set (mid := resolve_events (with_tag (image a)) e1 ++ es_after) in *.
    intros [|j] ev o Hi Hev; [by injection Hi as <-|].
    cbn [lookup list_lookup] in Hi.
    change ((mid ++ [rm_event d rr]) !! j = Some ev) in Hi.
    apply lookup_app_Some in Hi as [Hi | [Hle Hi]].
    + destruct (Hab j ev _ Hi Hev) as [(-> & o' & [= <-] & Hc & ->) | [Hlen ->]].
      * left. done.
      * right; right. destruct (Hcpe o eq_refl) as [Hr Hs].
        split; [done | split; [done|]]. intros ev' Hev'.
        cbn [lookup list_lookup] in Hev'.
        change ((mid ++ [rm_event d rr]) !! S j = Some ev') in Hev'.
        rewrite lookup_app_r in Hev' by lia.
        rewrite Hlen, Nat.sub_diag in Hev'. injection Hev' as <-.
        split; [cbn; rewrite length_app; cbn; lia | eauto].
    + right; left. destruct (j - length mid)%nat as [|k] eqn:Hk; [|done].
      injection Hi as <-. split; [cbn; rewrite length_app; cbn; lia|].
      exists d. cbn in Hev. destruct rr; by simplify_eq/=.
  - exists [EvMkdtemp (Raised e0)].
    split; [by apply (no_cleanup_without_tmpdir a w e0 e1)|].
    intros [|i] ev o Hi Hev; [|done]. injection Hi as <-. cbn in Hev.
    injection Hev as ->. right; right.
    destruct (run_mkdtemp_failed a w o e1 E) as [Hr Hs]. by repeat split.
Qed.

End Failures.

(** C8, as stated, fails: the daemon does not have the image, the first
    lookup fails with a [CalledProcessError], the image is pulled and
    the job is submitted; the function returns the work unit and the
    output of the failed lookup is not printed. *)
Lemma missing_image_failure_not_reported :
  ~ every_failure_reported (Sim.job "alpine") (Sim.start Sim.server_without_image).
Proof.
  intros Hall.
  set (run := boinc2docker_create_work (Sim.job "alpine")
                (Sim.start Sim.server_without_image)).
  set (o := "Error: No such image: alpine:latest" +:+ Py.nl).
  set (ev := EvCheckOutput (F := Q) (Shell (lookup_line "alpine:latest") true)
               (Raised (CalledProcessError o))).
  assert (Hin : ev ∈ w_trace run.2).
  { vm_compute. apply list_elem_of_further, list_elem_of_here. }
  assert (Hsome : run.1 = Normal (Some "boinc2docker_1")) by (vm_compute; reflexivity).
  destruct (Hall (w_trace run.2) ev o eq_refl Hin eq_refl) as [Hnone _].
  fold run in Hnone. rewrite Hsome in Hnone. discriminate.
Qed.

(** ** Missing images *)

Section MissingImage.
Context {F Env : Type} `{PyFloat F} `{System F Env}.
Implicit Types (a : arguments (F := F)) (w : world F Env).

Lemma is_lookup_rm d (rr : outcome string) : is_lookup (F := F) (rm_event d rr) = false.
Proof. reflexivity. Qed.

Lemma lookups_after (es : list (event F)) d rr :
  Forall (fun ev => is_lookup ev = false) es -> lookups (es ++ [rm_event d rr]) = 0%nat.
Proof.
  intros Hes. rewrite lookups_app, (lookups_none es Hes), lookups_cons, is_lookup_rm. done.
Qed.

(** C5. Let the first image-id lookup fail with a [CalledProcessError]
    whose output is [o].  If [o] contains "No such image", the next
    call is [docker pull] of the image; if the pull succeeds the lookup
    is made again, exactly once more in the whole run, and if the pull
    fails no further lookup is made.  If [o] does not contain
    "No such image", nothing is pulled or retried: the only further
    call is the cleanup command, [o] is printed and the function
    returns [None]. *)
Theorem missing_image_pulled_once a w d e1 o e2 :
  sys_mkdtemp (w_env w) = (Normal d, e1) ->
  sys_check_output (Shell (lookup_line (with_tag (image a))) true) e1
    = (Raised (CalledProcessError o), e2) ->
  let lookup := Shell (lookup_line (with_tag (image a))) true in
  let pull := Shell ("docker pull " +:+ with_tag (image a)) true in
  exists es,
    w_trace (boinc2docker_create_work a w).2
      = w_trace w ++
        EvMkdtemp (Normal d) ::
        EvCheckOutput lookup (Raised (CalledProcessError o)) :: es /\
    if Py.contains "No such image" o then
      exists rest,
        es = EvCheckOutput pull (sys_check_output pull e2).1 :: rest /\
        match (sys_check_output pull e2).1 with
        | Normal _ =>
            exists r2 rest', rest = EvCheckOutput lookup r2 :: rest' /\
                             lookups rest' = 0%nat
        | Raised _ => lookups rest = 0%nat
        end
    else
      (exists rr, es = [rm_event d rr]) /\
      (boinc2docker_create_work a w).1 = Normal None /\
      last (w_stdout (boinc2docker_create_work a w).2) = Some (Py.strip o).
Proof.
  intros E E2 lookup pull. subst lookup pull.
  destruct (run_shape a w d e1 E) as (es_after & rr & r_s & Htr & Hno & Hab & Hcpe & _).
  revert Htr Hab. unfold resolve_events. rewrite E2.
  destruct (Py.contains "No such image" o) eqn:Hc.
  - destruct (sys_check_output _ e2) as [[out|ep] e3] eqn:Ep;
      cbn [fst snd]; intros Htr Hab.
    + eexists. split; [exact Htr|]. eexists. split; [reflexivity|].
      eexists _, _. split; [reflexivity|]. by apply lookups_after.
    + destruct (Hab 1%nat _ ep eq_refl eq_refl) as [[[=] _] | [Hlen _]].
      cbn in Hlen. destruct es_after; [|done].
      eexists. split; [exact Htr|]. eexists. split; [reflexivity|]. reflexivity.
  - intros Htr Hab.
    destruct (Hab 0%nat _ (CalledProcessError o) eq_refl eq_refl)
      as [(_ & o' & [= <-] & Hc' & _) | [Hlen Hr]]; [congruence|].
    cbn in Hlen. destruct es_after; [|done].
    eexists. split; [exact Htr|]. split; [by eexists|]. by apply Hcpe.
Qed.

End MissingImage.

Lemma missing_image_pulled_once_witness :
  let a := Sim.job "alpine" in
  let w := Sim.start Sim.server_without_image in
  let lookup := Shell (lookup_line "alpine:latest") true in
  let pull := Shell "docker pull alpine:latest" true in
  exists es,
    w_trace (boinc2docker_create_work a w).2
      = EvMkdtemp (Normal "/tmp/tmp0") ::
        EvCheckOutput lookup
          (Raised (CalledProcessError ("Error: No such image: alpine:latest" +:+ Py.nl)))
        :: es /\
    exists rest,
      es = EvCheckOutput pull
             (Normal ("Status: Downloaded newer image for alpine:latest" +:+ Py.nl))
           :: rest /\
      exists r2 rest', rest = EvCheckOutput lookup r2 :: rest' /\ lookups rest' = 0%nat.
Proof.
  exact (missing_image_pulled_once (Sim.job "alpine")
           (Sim.start Sim.server_without_image) "/tmp/tmp0"
           (sys_mkdtemp Sim.server_without_image).2
           ("Error: No such image: alpine:latest" +:+ Py.nl)
           (sys_mkdtemp Sim.server_without_image).2
           eq_refl eq_refl).
Defined.

(** ** The caller's list *)

Section CallerList.
Context {F Env : Type} `{PyFloat F} `{System F Env}.
Implicit Types (a : arguments (F := F)) (w : world F Env).

Lemma list_append_normal l x w v w' :
  list_append l x w = (Normal v, w') ->
  exists xs, w_heap w !! l = Some xs /\
             w_heap w' = <[l := xs ++ [x]]> (w_heap w) /\
             w_trace w' = w_trace w.
Proof.
  unfold list_append. destruct (w_heap w !! l) as [xs|]; [|done].
  intros [= _ <-]. eauto.
Qed.

Lemma same_heap_run {A} (m : M F Env A) w r w' :
  Meets (of_rel same_heap) m -> m w = (r, w') -> w_heap w' = w_heap w.
Proof. intros Hm E. specialize (Hm w). by rewrite E in Hm. Qed.

(** In sshgrid mode line 173 is never passed. *)
Lemma configure_sshgrid_never_returns verbose tmpdir l args w v w' :
  configure_sshgrid true verbose tmpdir l args w <> (Normal v, w').
Proof.
  unfold configure_sshgrid. intros Hrun.
  apply bind_normal_inv in Hrun as (? & ? & _ & Hrun).
  apply bind_normal_inv in Hrun as (server & ? & _ & Hrun).
  apply bind_normal_inv in Hrun as (u & ? & _ & Hrun).
  apply bind_normal_inv in Hrun as ([client_pub client_priv] & ? & _ & Hrun).
  apply bind_normal_inv in Hrun as ([? server_priv] & ? & _ & Hrun).
  apply bind_normal_inv in Hrun as (? & ? & _ & Hrun).
  apply bind_normal_inv in Hrun as (? & ? & _ & Hrun).
  apply bind_normal_inv in Hrun as (? & ? & _ & Hrun).
  apply bind_normal_inv in Hrun as (server_pub & ? & Hglobal & _).
  discriminate.
Qed.

Lemma describe_job_normal a image prerun postrun command l args d id w p w'
    (xs : list input_file) :
  describe_job a image prerun postrun command l args d id w = (Normal p, w') ->
  w_heap w !! l = Some xs ->
  sshgrid_mode a = false /\
  exists vbox script,
    w_heap w' = <[l := xs ++ [("vbox_job.xml", vbox, []);
                              ("shared/boinc_app", script, [])]]> (w_heap w).
Proof.
  unfold describe_job. intros Hrun Hxs.
  apply bind_normal_inv in Hrun as (mem & w1 & H1 & Hrun).
  apply bind_normal_inv in Hrun as ([need_extract manifest] & w2 & H2 & Hrun).
  apply bind_normal_inv in Hrun as (contents & w3 & H3 & Hrun).
  apply bind_normal_inv in Hrun as ([] & w4 & H4 & Hrun).
  apply bind_normal_inv in Hrun as (cmd & w5 & H5 & Hrun).
  apply bind_normal_inv in Hrun as ([sshgrid args'] & w6 & H6 & Hrun).
  apply bind_normal_inv in Hrun as ([] & w7 & H7 & Hrun).
  injection Hrun as <- <-.
  pose proof (same_heap_run _ _ _ _ (job_memory_meets _ _ _ _) H1) as S1.
  pose proof (same_heap_run _ _ _ _ (export_image_meets _ _ _ _ _ _) H2) as S2.
  pose proof (same_heap_run _ _ _ _ (vbox_job_xml_contents_meets _ _ _ _) H3) as S3.
  pose proof (same_heap_run _ _ _ _ (escaped_command_meets _ _) H5) as S5.
  destruct (sshgrid_mode a).
  { by apply configure_sshgrid_never_returns in H6. }
  unfold configure_sshgrid, ret in H6. injection H6 as <- <- <-.
  apply list_append_normal in H4 as (ys & Hys & Hw4 & _).
  apply list_append_normal in H7 as (zs & Hzs & Hw7 & _).
  assert (ys = xs) as -> by (rewrite S3, S2, S1 in Hys; congruence).
  rewrite S5, Hw4, lookup_insert_eq in Hzs. injection Hzs as <-.
  split; [done|]. eexists _, _.
  rewrite Hw7, S5, Hw4, insert_insert_eq, <- app_assoc, S3, S2, S1. reflexivity.
Qed.

Lemma package_layer_normal force_reimport need_extract verbose native_unzip tmpdir layer
    w entry w' :
  package_layer force_reimport need_extract verbose native_unzip tmpdir layer w
    = (Normal entry, w') ->
  exists name, source_of entry = Staged name.
Proof.
  unfold package_layer. intros Hrun.
  apply bind_normal_inv in Hrun as (archive & w1 & _ & Hrun).
  apply bind_normal_inv in Hrun as ([] & w2 & _ & Hrun).
  injection Hrun as <- _. by eexists.
Qed.

Lemma package_image_normal force_reimport need_extract verbose native_unzip tmpdir id
    w entry w' :
  package_image force_reimport need_extract verbose native_unzip tmpdir id w
    = (Normal entry, w') ->
  exists name, source_of entry = Staged name.
Proof.
  unfold package_image. intros Hrun.
  apply bind_normal_inv in Hrun as ([] & w2 & _ & Hrun).
  injection Hrun as <- _. by eexists.
Qed.

Lemma mapM_normal {A B} (P : B -> Prop) (f : A -> M F Env B) l :
  (forall x w y w', f x w = (Normal y, w') -> P y) ->
  forall w ys w', mapM f l w = (Normal ys, w') -> Forall P ys.
Proof.
  intros Hf. induction l as [|x l IH]; intros w ys w' Hrun.
  - injection Hrun as <- _. constructor.
  - cbn [mapM] in Hrun.
    apply bind_normal_inv in Hrun as (y & w1 & Hy & Hrun).
    apply bind_normal_inv in Hrun as (ys' & w2 & Hys & Hrun).
    injection Hrun as <- _. constructor; eauto.
Qed.

Lemma package_normal a l p w files w' (xs : list input_file) :
  package a l p w = (Normal files, w') ->
  w_heap w !! l = Some xs ->
  exists extra,
    files = map repackage xs ++ extra /\ extra <> [] /\
    Forall (fun f => exists name, source_of f = Staged name) extra.
Proof.
  unfold package. intros Hrun Hxs.
  apply bind_normal_inv in Hrun as (old & w1 & Hold & Hrun).
  apply bind_normal_inv in Hrun as (layers & w2 & _ & Hrun).
  apply bind_normal_inv in Hrun as (entries & w3 & Hentries & Hrun).
  apply bind_normal_inv in Hrun as (image_entry & w4 & Himage & Hrun).
  injection Hrun as <- _.
  unfold list_read in Hold. rewrite Hxs in Hold. injection Hold as <- <-.
  exists (entries ++ [image_entry]). split; [done|]. split; [by destruct entries|].
  apply Forall_app. split.
  - eapply mapM_normal; [|exact Hentries].
    intros layer wa entry wb. apply package_layer_normal.
  - constructor; [|constructor]. by eapply package_image_normal.
Qed.

Lemma submit_normal appname tmpdir verbose args files w wu w' :
  submit appname tmpdir verbose args files w = (Normal wu, w') ->
  exists args' wu',
    EvCreateWork (F := F) appname args' (map source_of files) (Normal wu') ∈ w_trace w'.
Proof.
  unfold submit. intros Hrun.
  apply bind_normal_inv in Hrun as ([] & w1 & _ & Hrun).
  apply bind_normal_inv in Hrun as (u & w2 & _ & Hrun).
  apply bind_normal_inv in Hrun as ([] & w3 & _ & Hrun).
  apply bind_normal_inv in Hrun as (out & w4 & Hcw & Hrun).
  injection Hrun as _ <-.
  unfold create_work, external in Hcw.
  destruct (sys_create_work _ _ _ _) as [r e]. injection Hcw as -> <-.
  eexists _, out. cbn. apply elem_of_app. right. by apply list_elem_of_singleton.
Qed.

(** A suite that returns has appended exactly the job descriptor and
    the script to the list it was given, and has submitted that list
    followed by staged files. *)
Lemma try_suite_normal a image prerun postrun command l args w v w'
    (xs : list input_file) :
  try_suite a image prerun postrun command l args w = (Normal v, w') ->
  w_heap w !! l = Some xs ->
  exists vbox script extra args' wu',
    w_heap w' !! l = Some (xs ++ [("vbox_job.xml", vbox, []);
                                  ("shared/boinc_app", script, [])]) /\
    EvCreateWork (F := F) (appname a) args'
      (map source_of
         (map repackage (xs ++ [("vbox_job.xml", vbox, []);
                                ("shared/boinc_app", script, [])])) ++
       map source_of extra)
      (Normal wu') ∈ w_trace w' /\
    extra <> [] /\
    Forall (fun f => exists name, source_of f = Staged name) extra /\
    sshgrid_mode a = false.
Proof.
  unfold try_suite, prepare. intros Hrun Hxs.
  apply bind_normal_inv in Hrun as (p & w4 & Hprep & Hrun).
  apply bind_normal_inv in Hprep as (d & w1 & Hmk & Hprep).
  apply bind_normal_inv in Hprep as ([] & w2 & Hbind & Hprep).
  apply bind_normal_inv in Hprep as (id & w3 & Hres & Hdesc).
  apply bind_normal_inv in Hrun as (files & w5 & Hpack & Hrun).
  apply bind_normal_inv in Hrun as (wu & w6 & Hsub & Hrun).
  injection Hrun as <- <-.
  assert (Hw3 : w_heap w3 = w_heap w).
  { rewrite (same_heap_run _ _ _ _ (resolve_image_meets _ _ _) Hres).
    injection Hbind as <-. cbn.
    unfold mkdtemp, external in Hmk. destruct (sys_mkdtemp _) as [r e].
    by injection Hmk as _ <-. }
  rewrite <- Hw3 in Hxs.
  destruct (describe_job_normal _ _ _ _ _ _ _ _ _ _ _ _ xs Hdesc Hxs)
    as (Hssh & vbox & script & Hw4).
  assert (Hl4 : w_heap w4 !! l
                = Some (xs ++ [("vbox_job.xml", vbox, []);
                               ("shared/boinc_app", script, [])]))
    by (by rewrite Hw4, lookup_insert_eq).
  destruct (package_normal _ _ _ _ _ _ _ Hpack Hl4) as (extra & -> & Hne & Hst).
  destruct (submit_normal _ _ _ _ _ _ _ _ Hsub) as (args' & wu' & Hev).
  rewrite map_app in Hev.
  exists vbox, script, extra, args', wu'.
  rewrite (same_heap_run _ _ _ _ (submit_meets _ _ _ _ _ _) Hsub).
  rewrite (same_heap_run _ _ _ _ (package_meets _ _ _ _) Hpack).
  done.
Qed.

Lemma cleanup_total w :
  exists w', cleanup w = (Normal tt, w') /\ w_heap w' = w_heap w /\
             exists es, w_trace w' = w_trace w ++ es.
Proof.
  destruct (w_tmpdir w) as [d|] eqn:E.
  - rewrite (cleanup_bound w d E). eexists. split; [done|]. split; [done | by eexists].
  - rewrite (cleanup_unbound w E). exists w. split; [done|]. split; [done|].
    exists []. by rewrite app_nil_r.
Qed.

Lemma try_suite_grows a image prerun postrun command l args :
  Meets (of_rel (grows_at l job_entry))
        (try_suite a image prerun postrun command l args).
Proof.
  intros w. rewrite try_suite_unfold. revert w.
  change (Meets (of_rel (grows_at l job_entry))
            (let! tmpdir := mkdtemp in
             bind_tmpdir tmpdir ;;;
             let! image_id := resolve_image image (verbose a) in
             after_resolve a image prerun postrun command l args tmpdir image_id)).
  apply meets_bind; [apply _ | by apply blind_external | intros d].
  apply meets_bind; [apply _ | | intros _].
  { intros w. by apply grows_at_same_heap. }
  apply meets_bind; [apply _ | apply resolve_image_meets; apply _ | intros id].
  apply after_resolve_meets; apply _.
Qed.

End CallerList.

(** ** sshgrid mode *)

Section Sshgrid.
Context {F Env : Type} `{PyFloat F} `{System F Env}.
Implicit Types (a : arguments (F := F)) (w : world F Env).

Lemma describe_job_sshgrid a image prerun postrun command l args d id w p w' :
  sshgrid_mode a = true ->
  describe_job a image prerun postrun command l args d id w <> (Normal p, w').
Proof.
  unfold describe_job. intros Hssh Hrun.
  apply bind_normal_inv in Hrun as (mem & w1 & _ & Hrun).
  apply bind_normal_inv in Hrun as ([need_extract manifest] & w2 & _ & Hrun).
  apply bind_normal_inv in Hrun as (contents & w3 & _ & Hrun).
  apply bind_normal_inv in Hrun as ([] & w4 & _ & Hrun).
  apply bind_normal_inv in Hrun as (cmd & w5 & _ & Hrun).
  apply bind_normal_inv in Hrun as ([sshgrid args'] & w6 & H6 & _).
  rewrite Hssh in H6. by apply configure_sshgrid_never_returns in H6.
Qed.

(** In sshgrid mode no call returns a work unit: the reference to
    [server_pub] at line 173 is in the way of every submission. *)
Lemma sshgrid_never_submits a w wu :
  sshgrid_mode a = true ->
  (boinc2docker_create_work a w).1 <> Normal (Some wu).
Proof.
  intros Hssh. rewrite run_unfold.
  destruct (cleanup_total (guarded_suite a w).2) as (wc & -> & _).
  unfold guarded_suite. rewrite handlers_run.
  destruct (try_suite _ _ _ _ _ _ _ _) as [[v|ex] ws] eqn:Hsuite; [|by destruct ex].
  unfold try_suite, prepare in Hsuite.
  apply bind_normal_inv in Hsuite as (p & w4 & Hprep & _).
  apply bind_normal_inv in Hprep as (d & w1 & _ & Hprep).
  apply bind_normal_inv in Hprep as ([] & w2 & _ & Hprep).
  apply bind_normal_inv in Hprep as (id & w3 & _ & Hdesc).
  by apply describe_job_sshgrid in Hdesc.
Qed.

End Sshgrid.

(** C6, evaluated. On a server where Docker, [ssh-keygen] and the key
    database all work, a job in sshgrid mode ends in the [NameError]
    for [server_pub]: the caller's list has received the job
    descriptor and the two client key files, [shared/authorized_keys]
    is never added, and nothing is submitted. *)
Theorem sshgrid_run_raises_name_error :
  let run := boinc2docker_create_work (Sim.sshgrid_job "alpine" 1%positive)
               (Sim.start_with Sim.fresh_server 1%positive []) in
  run.1 = Raised (NameError "server_pub") /\
  (map (fun f : input_file => f.1.1) <$> w_heap run.2 !! 1%positive)
    = Some ["vbox_job.xml"; "shared/id_rsa"; "shared/id_rsa.pub"] /\
  Forall (fun ev => match ev with EvCreateWork _ _ _ _ => False | _ => True end)
         (w_trace run.2).
Proof.
  vm_compute. split; [reflexivity | split; [reflexivity|]].
  repeat constructor.
Qed.

(** ** The layers *)

Section Layers.
Context {F Env : Type} `{PyFloat F} `{System F Env}.
Implicit Types (a : arguments (F := F)) (w : world F Env).

Lemma export_image_need_extract image tmpdir image_path force_reimport verbose w
    need_extract manifest w' :
  export_image image tmpdir image_path force_reimport verbose w
    = (Normal (need_extract, manifest), w') ->
  need_extract = force_reimport || negb (sys_exists image_path (w_env w)).
Proof.
  unfold export_image. intros Hrun.
  apply bind_normal_inv in Hrun as (cached & w1 & Hc & Hrun).
  assert (cached = negb force_reimport && sys_exists image_path (w_env w)) as ->.
  { destruct force_reimport; cbn in Hc; by injection Hc as <- _. }
  destruct force_reimport, (sys_exists image_path (w_env w)); cbn in Hrun.
  all: repeat (apply bind_normal_inv in Hrun as (? & ? & _ & Hrun)).
  all: by injection Hrun as <- _ _.
Qed.

(** The progress message of a step that archives: printed when it can
    be formatted, raised otherwise, and nothing else happens. *)
Lemma progress_message_run verbose message w :
  match message_outcome verbose message (w_env w) with
  | Raised e =>
      when verbose (let! m := fmt_text message in print m) w = (Raised e, w)
  | Normal _ =>
      exists s,
        when verbose (let! m := fmt_text message in print m) w
        = (Normal tt,
           World (w_env w) s (w_heap w) (w_tmpdir w) (w_trace w) (w_opts w))
  end.
Proof.
  unfold message_outcome. destruct verbose; cbn [when].
  - rewrite bind_unfold. unfold fmt_text.
    destruct (fmt_outcome message (w_env w)) as [m|e]; [by eexists | done].
  - exists (w_stdout w). by destruct w.
Qed.

(** C9, as amended. A layer is skipped (no call is made for it) exactly
    when reimport is not forced and either nothing was extracted
    (the image was served from the cache) or the layer file already
    exists in the download hierarchy.  Otherwise the layer is archived
    with [tar] and, when that succeeds, compressed with [gzip]; in a
    verbose run the progress message of line 232 is formatted first,
    and a message that cannot be formatted (a layer id that holds a
    brace) is raised before [tar] is called. *)
Theorem layer_archived_unless_cached_or_present
    force_reimport need_extract verbose native_unzip tmpdir layer w :
  let run := package_layer force_reimport need_extract verbose native_unzip
                           tmpdir layer w in
  let there := sys_exists (layer_path native_unzip layer) (w_env w) in
  if negb force_reimport && (negb need_extract || there) then
    w_trace run.2 = w_trace w /\ w_env run.2 = w_env w /\
    run.1 = Normal ("shared/image/" +:+ layer_filename native_unzip layer,
                    Staged (layer_filename native_unzip layer),
                    layer_flags native_unzip)
  else
    match message_outcome verbose (layer_message layer) (w_env w) with
    | Raised e => w_trace run.2 = w_trace w /\ run.1 = Raised e
    | Normal _ =>
        exists rt rest,
          w_trace run.2
            = w_trace w ++
              EvCheckOutput (Shell (layer_tar_line native_unzip tmpdir layer) true) rt
              :: rest /\
          match rt with
          | Normal _ =>
              exists rg,
                rest = [EvCheckOutput (Shell (layer_gzip_line native_unzip layer) true) rg] /\
                run.1 = match rg with
                        | Normal _ =>
                            Normal ("shared/image/" +:+ layer_filename native_unzip layer,
                                    Staged (layer_filename native_unzip layer),
                                    layer_flags native_unzip)
                        | Raised e => Raised e
                        end
          | Raised e => rest = [] /\ run.1 = Raised e
          end
    end.
Proof.
  intros run there. subst run there.
  unfold package_layer, tar_and_gzip, layer_tar_line, layer_gzip_line, layer_path_tar.
  rewrite !bind_unfold.
  set (there := sys_exists _ _).
  assert (Harch :
    (if force_reimport then ret true
     else if need_extract
          then (let! t := path_exists (layer_path native_unzip layer) in ret (negb t))
          else ret false) w
    = (Normal (negb (negb force_reimport && (negb need_extract || there))), w)).
  { by destruct force_reimport, need_extract. }
  rewrite Harch. destruct (negb force_reimport && (negb need_extract || there)).
  - cbn. done.
  - cbn [negb]. rewrite !bind_unfold. fold (layer_message layer).
    pose proof (progress_message_run verbose (layer_message layer) w) as Hp.
    destruct (message_outcome verbose (layer_message layer) (w_env w)) as [m|e].
    2: { by rewrite Hp. }
    destruct Hp as [s ->]. rewrite !bind_unfold, sh_run. cbn [w_env w_trace].
    destruct (sys_check_output _ (w_env w)) as [[out|e] e1]; cbn [fst snd w_trace].
    + exists (Normal out).
      exists [EvCheckOutput
                (Shell (if native_unzip
                        then "gzip -fk " +:+
                             PosixPath.join
                               (PosixPath.dirname (layer_path native_unzip layer))
                               (layer_filename_tar layer)
                        else "gzip -fS .manual.gz " +:+
                             PosixPath.join
                               (PosixPath.dirname (layer_path native_unzip layer))
                               (layer_filename_tar layer)) true)
                (sys_check_output
                   (Shell (if native_unzip
                           then "gzip -fk " +:+
                                PosixPath.join
                                  (PosixPath.dirname (layer_path native_unzip layer))
                                  (layer_filename_tar layer)
                           else "gzip -fS .manual.gz " +:+
                                PosixPath.join
                                  (PosixPath.dirname (layer_path native_unzip layer))
                                  (layer_filename_tar layer)) true) e1).1].
      rewrite !bind_unfold.
      destruct native_unzip; rewrite sh_run; cbn [w_env w_trace];
        destruct (sys_check_output _ e1) as [[out2|e2] e3]; unfold ret;
        cbn [fst snd w_trace]; (split; [by rewrite <- app_assoc|]); by eexists.
    + by exists (Raised e), [].
Qed.

End Layers.

(** C9, as stated, fails: the image has not been imported, so it is
    extracted, but the file of its layer is already in the download
    hierarchy (another image shares the layer); the layer is skipped
    although the image was not served from the cache. *)
Lemma layer_skipped_after_extraction :
  ~ skipped_iff_present_and_cached false true true false
      "/tmp/tmp0" "50644c29ef5a/layer.tar" (Sim.start Sim.server_with_layer).
Proof.
  intros [Hskip _]. by destruct (Hskip eq_refl) as (_ & _ & [=]).
Qed.

(** A layer id that holds a field: in a verbose run the progress
    message of line 232 cannot be formatted and [tar] is not called; in
    a quiet run the layer is archived. *)
Example layer_id_with_a_brace :
  let verbose_run := package_layer (F := Q) false true true false "/tmp/tmp0"
                       "50644c{29}ef5a/layer.tar" (Sim.start Sim.fresh_server) in
  let quiet_run := package_layer (F := Q) false true false false "/tmp/tmp0"
                     "50644c{29}ef5a/layer.tar" (Sim.start Sim.fresh_server) in
  verbose_run.1 = Raised IndexError /\ w_trace verbose_run.2 = [] /\
  quiet_run.1 = Normal ("shared/image/layer_50644c{29}ef5a.tar.manual.gz",
                        Staged "layer_50644c{29}ef5a.tar.manual.gz",
                        ["sticky"; "no_delete"]) /\
  length (w_trace quiet_run.2) = 2%nat.
Proof. vm_compute. repeat split; reflexivity. Qed.

(** ** The submission *)

Section Submission.
Context {F Env : Type} `{PyFloat F} `{System F Env}.
Implicit Types (w : world F Env).

(** The template written at line 263 is the one generated from the
    list whose files are submitted at line 266. *)
Lemma submit_writes_template appname tmpdir verbose args files w u e1 :
  sys_uuid4 (w_env w) = (Normal u, e1) ->
  let template_file := PosixPath.join tmpdir ("boinc2docker_in_" +:+ u) in
  exists rw rest,
    w_trace (submit appname tmpdir verbose args files w).2
      = w_trace w ++
        EvUuid (Normal u) ::
        EvWriteFile template_file (xml_pretty (input_template files)) rw :: rest /\
    match rw with
    | Normal _ =>
        exists rc,
          rest = [EvCreateWork appname (<["wu_template" := ArgStr template_file]> args)
                               (map source_of files) rc]
    | Raised _ => rest = []
    end.
Proof.
  intros E template_file. subst template_file. unfold submit.
  rewrite bind_unfold.
  assert (Hp : exists s, when verbose (print "Creating input template for job...") w
             = (Normal tt, World (w_env w) s (w_heap w) (w_tmpdir w) (w_trace w) (w_opts w))).
  { destruct verbose; [by eexists | exists (w_stdout w); by destruct w]. }
  destruct Hp as [s ->]. cbv zeta.
  unfold uuid_hex, write_file, create_work, external, bind, ret.
  cbn [w_env w_trace w_stdout w_heap w_tmpdir]. rewrite E.
  cbn [w_env w_trace w_stdout w_heap w_tmpdir].
  destruct (sys_write_file _ _ e1) as [[[]|ew] e2]; cbn [w_env w_trace fst snd].
  - destruct (sys_create_work _ _ _ e2) as [rc e3] eqn:Ec.
    exists (Normal tt). eexists. split; [|by exists rc].
    destruct rc; cbn [fst snd w_trace]; by rewrite <- !app_assoc.
  - exists (Raised ew), []. split; [|done]. by rewrite <- !app_assoc.
Qed.

End Submission.

(** A run on the simulated server: the caller's list has grown by the
    job descriptor and the script, and the layer and the image follow
    in the submitted files only. *)
Example caller_list_after_a_run :
  let run := boinc2docker_create_work (Sim.job_with_files "alpine" 1%positive)
               (Sim.start_with Sim.fresh_server 1%positive
                  [("shared/foo", "bar", ["gzip"])]) in
  run.1 = Normal (Some "boinc2docker_1") /\
  (map (fun f : input_file => f.1.1) <$> w_heap run.2 !! 1%positive)
    = Some ["shared/foo"; "vbox_job.xml"; "shared/boinc_app"] /\
  omap (fun ev => match ev with
                  | EvCreateWork _ _ files _ =>
                      Some (map (fun s => match s with
                                          | Inline name _ => name
                                          | Staged name => name
                                          end) files)
                  | _ => None
                  end) (w_trace run.2)
    = [["foo"; "vbox_job.xml"; "boinc_app";
        "layer_50644c29ef5a.tar.manual.gz"; "image_a24bb4013296.tar.manual.gz"]].
Proof. vm_compute. repeat split; reflexivity. Qed.

(** A run on a server that has the layer but not the image: the layer
    is not archived again, the image is. *)
Example shared_layer_is_not_archived_again :
  let run := boinc2docker_create_work (Sim.job "alpine")
               (Sim.start Sim.server_with_layer) in
  run.1 = Normal (Some "boinc2docker_1") /\
  omap (fun ev => match ev with
                  | EvCheckOutput (Shell line _) _ =>
                      if String.prefix "tar cvf" line then Some line else None
                  | _ => None
                  end) (w_trace run.2)
    = ["tar cvf /project/download/2e/image_a24bb4013296.tar -C /tmp/tmp0 a24bb4013296.json manifest.json repositories"].
Proof. vm_compute. split; reflexivity. Qed.

(** ** The command line of the container *)

Section Command.
Context {F Env : Type} `{PyFloat F} `{System F Env}.
Implicit Types (w : world F Env).

(** If bash answers every [printf "%q"] call with [quote] of its
    argument, the command of the script is the quoted tokens joined by
    single spaces (line 135). *)
Lemma escaped_command_joins (quote : string -> string) command :
  (forall s e, exists e',
     sys_check_output
       (Argv ["bash"; "-c";
              "printf " +:+ Py.dq +:+ "%q" +:+ Py.dq +:+ " " +:+ Py.dq +:+ "$@" +:+ Py.dq;
              "_"; s]) e = (Normal (quote s), e')) ->
  forall w,
    (escaped_command command w).1
    = Normal (Py.join " " (map quote (command_tokens command))).
Proof.
  intros Hq w. unfold escaped_command. fold (command_tokens command).
  rewrite bind_unfold.
  assert (Hmap : forall l w0, exists w1,
            mapM escape_string l w0 = (Normal (map quote l), w1)).
  { induction l as [|s l IH]; intros w0; [by eexists|].
    cbn [mapM map]. rewrite bind_unfold.
    unfold escape_string at 1, check_output, external.
    destruct (Hq s (w_env w0)) as [e' ->].
    rewrite bind_unfold. edestruct IH as [w1 ->]. by eexists. }
  by destruct (Hmap (command_tokens command) w) as [w1 ->].
Qed.

End Command.

(** "echo hello world" is three tokens. *)
Example command_string_is_split :
  command_tokens (CmdStr "echo hello world") = ["echo"; "hello"; "world"].
Proof. reflexivity. Qed.

(** An image without a tag gets [:latest]; a tagged one is kept. *)
Example with_tag_examples :
  with_tag "alpine" = "alpine:latest" /\ with_tag "alpine:3.4" = "alpine:3.4".
Proof. split; reflexivity. Qed.

(** * Further properties of the script *)

(** ** Exceptions of external calls *)

Section Outcomes.
Context {F Env : Type} `{PyFloat F} `{System F Env}.
Implicit Types (a : arguments (F := F)) (w : world F Env).

(** Every run in which [mkdtemp] has returned [d]: its calls, its
    result and its last lines of output, in terms of the result [r_s]
    of the suite of the outer [try]. *)
Lemma run_outcome a w d e1 :
  sys_mkdtemp (w_env w) = (Normal d, e1) ->
  exists es_after rr (r_s : outcome (option string)) printed,
    w_trace (boinc2docker_create_work a w).2
      = w_trace w ++
        EvMkdtemp (Normal d) ::
        (resolve_events (with_tag (image a)) e1 ++ es_after) ++ [rm_event d rr] /\
    (forall i ev e,
       (resolve_events (with_tag (image a)) e1 ++ es_after) !! i = Some ev ->
       ev_exn ev = Some e ->
       (i = 0%nat /\
        exists o, e = CalledProcessError o /\ Py.contains "No such image" o = true /\
                  ev = EvCheckOutput (Shell (lookup_line (with_tag (image a))) true)
                         (Raised e)) \/
       (S i = length (resolve_events (with_tag (image a)) e1 ++ es_after) /\
        r_s = Raised e)) /\
    (boinc2docker_create_work a w).1 = handled r_s /\
    w_stdout (boinc2docker_create_work a w).2 = printed ++ handler_lines r_s.
Proof.
  intros E. rewrite run_unfold.
  rewrite (cleanup_bound _ d (guarded_suite_frame a w d e1 E)).
  cbn [fst snd w_trace w_stdout]. unfold guarded_suite. rewrite handlers_run.
  pose proof E as E'. rewrite <- (enter_env a w) in E'.
  destruct (suite_calls a (with_tag (image a)) (default "" (prerun a))
              (default "" (postrun a)) (default (CmdStr "") (command a))
              (enter (input_files a) w).1 (default ∅ (create_work_args a))
              (enter (input_files a) w).2 d e1 E') as (es_after & Htr & _ & Hab).
  rewrite enter_trace in Htr.
  destruct (try_suite _ _ _ _ _ _ _ _) as [r_s w_s]. cbn [fst snd] in *.
  exists es_after, (sys_check_output (Shell ("rm -rf " +:+ d) true) (w_env w_s)).1, r_s,
         (w_stdout w_s).
  destruct r_s as [v|[o| | | | | |]]; cbn [fst snd w_trace w_stdout w_env handled handler_lines];
    (split; [rewrite Htr, <- (app_assoc (w_trace w)); reflexivity|]);
    (split; [exact Hab|]); rewrite ?app_nil_r; done.
Qed.

Lemma run_outcome_unbound a w e e1 :
  sys_mkdtemp (w_env w) = (Raised e, e1) ->
  w_trace (boinc2docker_create_work a w).2 = w_trace w ++ [EvMkdtemp (Raised e)] /\
  (boinc2docker_create_work a w).1 = handled (Raised e) /\
  w_stdout (boinc2docker_create_work a w).2 = w_stdout w ++ handler_lines (Raised e).
Proof.
  intros E. split; [by apply (no_cleanup_without_tmpdir a w e e1)|].
  rewrite run_unfold, (cleanup_unbound _ (guarded_suite_unbound a w e e1 E)).
  unfold guarded_suite. rewrite handlers_run.
  rewrite <- (enter_env a w) in E.
  rewrite (try_suite_unbound _ _ _ _ _ _ _ _ e e1 E), enter_stdout.
  destruct e; cbn; rewrite ?app_nil_r; done.
Qed.

(** What becomes of the exception [e] of any external call of a run:
    unless the call is the first lookup failing with "No such image"
    or the cleanup command, the [except] clauses decide the result and
    the last lines printed, and only the cleanup command follows. *)
Lemma exception_outcome a w :
  exists es printed,
    w_trace (boinc2docker_create_work a w).2 = w_trace w ++ es /\
    forall i ev e,
      es !! i = Some ev -> ev_exn ev = Some e ->
      (i = 1%nat /\
       exists o, e = CalledProcessError o /\ Py.contains "No such image" o = true /\
                 ev = EvCheckOutput (Shell (lookup_line (with_tag (image a))) true)
                        (Raised e)) \/
      (S i = length es /\ exists d, ev = rm_event d (Raised e)) \/
      ((boinc2docker_create_work a w).1 = handled (Raised e) /\
       w_stdout (boinc2docker_create_work a w).2 = printed ++ handler_lines (Raised e) /\
       forall ev', es !! S i = Some ev' ->
         S (S i) = length es /\ exists d rr, ev' = rm_event d rr).
Proof.
  destruct (sys_mkdtemp (w_env w)) as [[d|e0] e1] eqn:E.
  - destruct (run_outcome a w d e1 E) as (es_after & rr & r_s & printed & Htr & Hab & Hr & Hs).
    eexists _, printed. split; [exact Htr|].
    set (mid := resolve_events (with_tag (image a)) e1 ++ es_after) in *.
    intros [|j] ev e Hi Hev; [by injection Hi as <-|].
    cbn [lookup list_lookup] in Hi.
    change ((mid ++ [rm_event d rr]) !! j = Some ev) in Hi.
    apply lookup_app_Some in Hi as [Hi | [Hle Hi]].
    + destruct (Hab j ev _ Hi Hev) as [(-> & Hex) | [Hlen ->]]; [by left|].
      right; right. split; [done | split; [done|]]. intros ev' Hev'.
      cbn [lookup list_lookup] in Hev'.
      change ((mid ++ [rm_event d rr]) !! S j = Some ev') in Hev'.
      rewrite lookup_app_r in Hev' by lia.
      rewrite Hlen, Nat.sub_diag in Hev'. injection Hev' as <-.
      split; [cbn; rewrite length_app; cbn; lia | eauto].
    + right; left. destruct (j - length mid)%nat as [|k] eqn:Hk; [|done].
      injection Hi as <-. split; [cbn; rewrite length_app; cbn; lia|].
      exists d. cbn in Hev. destruct rr; by simplify_eq/=.
  - destruct (run_outcome_unbound a w e0 e1 E) as (Htr & Hr & Hs).
    exists [EvMkdtemp (Raised e0)], (w_stdout w). split; [done|].
    intros [|i] ev e Hi Hev; [|done]. injection Hi as <-. cbn in Hev.
    injection Hev as ->. right; right. by repeat split.
Qed.

(** X1. A user interrupt during any external call other than the
    cleanup command ends the run in the [KeyboardInterrupt] clause:
    "Cleaning up temporary files..." is the last line printed, only the
    cleanup command follows, and the function returns [None].  An
    interrupt during the cleanup command is swallowed. *)
Theorem interrupt_is_handled a w :
  exists es,
    w_trace (boinc2docker_create_work a w).2 = w_trace w ++ es /\
    forall i ev,
      es !! i = Some ev -> ev_exn ev = Some KeyboardInterrupt ->
      (S i = length es /\ exists d, ev = rm_event d (Raised KeyboardInterrupt)) \/
      ((boinc2docker_create_work a w).1 = Normal None /\
       last (w_stdout (boinc2docker_create_work a w).2)
         = Some "Cleaning up temporary files..." /\
       forall ev', es !! S i = Some ev' ->
         S (S i) = length es /\ exists d rr, ev' = rm_event d rr).
Proof.
  destruct (exception_outcome a w) as (es & printed & Htr & Hall).
  exists es. split; [done|]. intros i ev Hi Hev.
  destruct (Hall i ev _ Hi Hev) as [(_ & o & [=] & _) | [?|(Hr & Hs & Hnext)]];
    [by left|].
  right. split; [done|]. split; [|done]. rewrite Hs. apply last_snoc.
Qed.

(** X2. An exception of an external call that is neither a
    [CalledProcessError] nor a [KeyboardInterrupt] (an [OSError] of
    [mkdtemp], an [IOError] of a file, an error of the submission) is
    not caught: the function raises it to its caller, after the cleanup
    command has run as the only further call.  Such an exception of the
    cleanup command itself is swallowed. *)
Theorem other_exceptions_propagate a w :
  exists es,
    w_trace (boinc2docker_create_work a w).2 = w_trace w ++ es /\
    forall i ev e,
      es !! i = Some ev -> ev_exn ev = Some e ->
      (forall o, e <> CalledProcessError o) -> e <> KeyboardInterrupt ->
      (S i = length es /\ exists d, ev = rm_event d (Raised e)) \/
      ((boinc2docker_create_work a w).1 = Raised e /\
       forall ev', es !! S i = Some ev' ->
         S (S i) = length es /\ exists d rr, ev' = rm_event d rr).
Proof.
  destruct (exception_outcome a w) as (es & printed & Htr & Hall).
  exists es. split; [done|]. intros i ev e Hi Hev Hcpe Hki.
  destruct (Hall i ev _ Hi Hev) as [(_ & o & -> & _) | [?|(Hr & Hs & Hnext)]];
    [by destruct (Hcpe o) | by left |].
  right. split; [|done]. rewrite Hr. destruct e; try done. by destruct (Hcpe output).
Qed.

(** X3. The function never raises a [CalledProcessError] or a
    [KeyboardInterrupt] to its caller. *)
Theorem never_raises_handled_exceptions a w :
  (forall o, (boinc2docker_create_work a w).1 <> Raised (CalledProcessError o)) /\
  (boinc2docker_create_work a w).1 <> Raised KeyboardInterrupt.
Proof.
  assert (Hh : forall r : outcome (option string),
            (forall o, handled r <> Raised (CalledProcessError o)) /\
            handled r <> Raised KeyboardInterrupt).
  { intros [v|[]]; cbn; split; try intros ?; discriminate. }
  destruct (sys_mkdtemp (w_env w)) as [[d|e0] e1] eqn:E.
  - destruct (run_outcome a w d e1 E) as (_ & _ & r_s & _ & _ & _ & -> & _). apply Hh.
  - destruct (run_outcome_unbound a w e0 e1 E) as (_ & -> & _). apply Hh.
Qed.

End Outcomes.

(** ** What is never called *)

Section Never.
Context {F Env : Type} `{PyFloat F} `{System F Env}.
Implicit Types (a : arguments (F := F)) (w : world F Env).

(** X4. The job is never submitted after a failure: when [create_work]
    is called, every earlier external call has returned normally,
    except possibly the first image-id lookup, failed with
    "No such image" and made good by the pull. *)
Theorem no_submission_after_failure a w :
  exists es,
    w_trace (boinc2docker_create_work a w).2 = w_trace w ++ es /\
    forall i j appname args files r evj e,
      es !! i = Some (EvCreateWork appname args files r) ->
      (j < i)%nat -> es !! j = Some evj -> ev_exn evj = Some e ->
      j = 1%nat /\
      exists o, e = CalledProcessError o /\ Py.contains "No such image" o = true.
Proof.
  destruct (exception_outcome a w) as (es & printed & Htr & Hall).
  exists es. split; [done|]. intros i j appname args files r evj e Hi Hlt Hj Hev.
  pose proof (lookup_lt_Some _ _ _ Hi) as Hlen.
  destruct (Hall j evj e Hj Hev)
    as [(-> & o & -> & Hc & _) | [[Hlast _] | (_ & _ & Hnext)]].
  - eauto.
  - lia.
  - destruct (es !! S j) as [ev'|] eqn:Hs.
    + destruct (Hnext ev' eq_refl) as (Hl & d & rr & ->).
      assert (i = S j) as -> by lia. rewrite Hs in Hi. discriminate.
    + apply lookup_ge_None in Hs. lia.
Qed.

(** X5. No run looks the image id up more than twice. *)
Theorem at_most_two_lookups a w :
  exists es,
    w_trace (boinc2docker_create_work a w).2 = w_trace w ++ es /\
    (lookups es <= 2)%nat.
Proof.
  destruct (sys_mkdtemp (w_env w)) as [[d|e0] e1] eqn:E.
  - destruct (run_shape a w d e1 E) as (es_after & rr & r_s & Htr & Hno & _).
    eexists. split; [exact Htr|].
    rewrite lookups_cons, <- app_assoc, lookups_app, (lookups_after es_after d rr Hno).
    pose proof (resolve_events_lookups (with_tag (image a)) e1). cbn. lia.
  - exists [EvMkdtemp (Raised e0)].
    split; [by apply (no_cleanup_without_tmpdir a w e0 e1)|]. cbn. lia.
Qed.

End Never.

(** ** The tag of the image *)

Lemma contains_app_r needle a b :
  Py.contains needle b = true -> Py.contains needle (a +:+ b) = true.
Proof.
  intros Hb. induction a as [|c a IH]; [done|].
  change (String c a +:+ b) with (String c (a +:+ b)).
  cbn [Py.contains]. rewrite IH. apply orb_true_r.
Qed.

(** X6. After line 71 the image name always contains a colon: a name
    without one gets the tag [:latest], a name with one (a tag, but
    also the port of a registry) is left as it is; normalising twice
    changes nothing. *)
Theorem with_tag_normalises image :
  Py.contains ":" (with_tag image) = true /\
  with_tag (with_tag image) = with_tag image /\
  (Py.contains ":" image = false -> with_tag image = image +:+ ":latest") /\
  (Py.contains ":" image = true -> with_tag image = image).
Proof.
  assert (Htag : Py.contains ":" (with_tag image) = true).
  { unfold with_tag. destruct (Py.contains ":" image) eqn:Hc; [done|].
    by apply contains_app_r. }
  split; [done|]. split.
  - unfold with_tag at 1. by rewrite Htag.
  - unfold with_tag. split; intros ->; done.
Qed.

(** ** The [file_info] elements of the template *)

Section FileInfo.

Lemma findall_infos_from files : forall i,
  List.filter (fun c => bool_decide (tag_of c = "file_info")) (infos_from i files)
  = infos_from i files.
Proof.
  induction files as [|f rest IH]; intros i; [done|].
  cbn [infos_from List.filter]. cbn [file_info_element tag_of].
  rewrite bool_decide_true by done. by rewrite IH.
Qed.

Lemma file_infos_input_template files :
  file_infos (input_template files) = infos_from 0 files.
Proof.
  rewrite input_template_shape. unfold file_infos, findall.
  cbn [children_of List.filter tag_of]. rewrite bool_decide_false by done.
  apply findall_infos_from.
Qed.

Lemma infos_from_lookup files : forall i k f,
  files !! k = Some f ->
  infos_from i files !! k = Some (file_info_element (i + k) (flags_of f)).
Proof.
  induction files as [|g rest IH]; intros i k f Hk; [done|].
  destruct k as [|k]; cbn [infos_from].
  - injection Hk as ->. by rewrite Nat.add_0_r.
  - change ((g :: rest) !! S k) with (rest !! k) in Hk.
    change (infos_from (S i) rest !! k
            = Some (file_info_element (i + S k) (flags_of f))).
    rewrite (IH (S i) k f Hk). by rewrite Nat.add_succ_r.
Qed.

Lemma infos_from_length files : forall i, length (infos_from i files) = length files.
Proof. induction files as [|f rest IH]; intros i; cbn; [done|]. by rewrite IH. Qed.

(** X7. The template has one [file_info] element per input file, after
    the single [workunit] element that comes first; the [i]-th
    [file_info] has [str(i)] as the text of its [number] and, after the
    [number], one empty child per flag of the [i]-th file, in the order
    of the flags. *)
Theorem template_file_infos_match (files : list packaged_file) (i : nat) (f : packaged_file) :
  files !! i = Some f ->
  tag_of (input_template files) = "input_template" /\
  (tag_of <$> children_of (input_template files) !! 0%nat) = Some "workunit" /\
  length (children_of (input_template files)) = S (length files) /\
  length (file_infos (input_template files)) = length files /\
  exists e,
    file_infos (input_template files) !! i = Some e /\
    child_text "number" e = Some (Py.str_nat i) /\
    children_of e
    = Element "number" (Some (Py.str_nat i)) []
      :: map (fun flag => Element flag None []) (flags_of f).
Proof.
  intros Hi. rewrite file_infos_input_template, input_template_shape.
  cbn [tag_of children_of length]. rewrite infos_from_length.
  repeat (split; [done|]).
  exists (file_info_element i (flags_of f)).
  by rewrite (infos_from_lookup files 0 i f Hi).
Qed.

End FileInfo.

Lemma template_file_infos_match_witness :
  let files : list packaged_file :=
    [("vbox_job.xml", Inline "vbox_job.xml" "<vbox_job/>", []);
     ("shared/image/layer_50644c29ef5a.tar", Staged "layer_50644c29ef5a.tar",
      ["sticky"; "no_delete"; "gzip"])] in
  tag_of (input_template files) = "input_template" /\
  (tag_of <$> children_of (input_template files) !! 0%nat) = Some "workunit" /\
  length (children_of (input_template files)) = 3%nat /\
  length (file_infos (input_template files)) = 2%nat /\
  exists e,
    file_infos (input_template files) !! 1%nat = Some e /\
    child_text "number" e = Some "1" /\
    children_of e
    = [Element "number" (Some "1") []; Element "sticky" None [];
       Element "no_delete" None []; Element "gzip" None []].
Proof.
  intros files.
  apply (template_file_infos_match files 1
           ("shared/image/layer_50644c29ef5a.tar", Staged "layer_50644c29ef5a.tar",
            ["sticky"; "no_delete"; "gzip"])).
  reflexivity.
Defined.

(** ** Splitting at a separator *)

Lemma rev_rev_app (s t : string) : String.rev (String.rev_app s t) = String.rev_app t s.
Proof.
  revert t. induction s as [|a s IH]; intros t; [done|].
  cbn [String.rev_app]. by rewrite IH.
Qed.

Lemma contains_colon_cons c s :
  Py.contains ":" (String c s) = Ascii.eqb c ":" || Py.contains ":" s.
Proof.
  cbn [Py.contains String.prefix].
  destruct (Ascii.ascii_dec ":" c) as [<-|Hne].
  - by destruct s.
  - destruct (Ascii.eqb_spec c ":") as [->|_]; [done|]. done.
Qed.

Lemma split_go_no_colon s : forall cur,
  Py.contains ":" s = false ->
  Py.split_go ":" cur s = [String.rev_app cur s].
Proof.
  induction s as [|a s IH]; intros cur Hs; [done|].
  rewrite contains_colon_cons in Hs. apply orb_false_elim in Hs as [Ha Hs].
  cbn [Py.split_go]. rewrite Ha. by rewrite IH.
Qed.

Lemma split_no_colon s : Py.contains ":" s = false -> Py.split ":" s = [s].
Proof. intros Hs. unfold Py.split. by rewrite split_go_no_colon. Qed.

Lemma split_go_colon a : forall cur b,
  Py.contains ":" a = false ->
  Py.split_go ":" cur (a +:+ String ":" b)
  = String.rev_app cur a :: Py.split_go ":" "" b.
Proof.
  induction a as [|c a IH]; intros cur b Ha.
  - cbn. done.
  - rewrite contains_colon_cons in Ha. apply orb_false_elim in Ha as [Hc Ha].
    change (String c a +:+ String ":" b) with (String c (a +:+ String ":" b)).
    cbn [Py.split_go]. rewrite Hc. by rewrite IH.
Qed.

Lemma split_one_colon a b :
  Py.contains ":" a = false -> Py.contains ":" b = false ->
  Py.split ":" (a +:+ ":" +:+ b) = [a; b].
Proof.
  intros Ha Hb. unfold Py.split.
  change (a +:+ ":" +:+ b) with (a +:+ String ":" b).
  rewrite split_go_colon by done. by rewrite split_go_no_colon.
Qed.

(** ** The image id and the memory of the job *)

Section Inspect.
Context {F Env : Type} `{PyFloat F} `{System F Env}.
Implicit Types (w : world F Env).

(** X8. When [docker inspect] prints the id, the image id is what
    follows the colon of the (stripped) output, as in
    [sha256:<id>]; when the output has no colon, as with Docker
    versions that print the bare id, line 81 raises an [IndexError]. *)
Theorem get_image_id_after_colon image w out e' :
  sys_check_output (Shell (lookup_line image) true) (w_env w) = (Normal out, e') ->
  (Py.contains ":" (Py.strip (Py.strip out)) = false ->
   (get_image_id image w).1 = Raised IndexError) /\
  (forall algo id,
     Py.strip (Py.strip out) = algo +:+ ":" +:+ id ->
     Py.contains ":" algo = false -> Py.contains ":" id = false ->
     (get_image_id image w).1 = Normal id).
Proof.
  intros E. rewrite get_image_id_run, E. split.
  - intros Hno. by rewrite (split_no_colon _ Hno).
  - intros algo id -> Ha Hid. by rewrite (split_one_colon _ _ Ha Hid).
Qed.

Lemma job_memory_run image memory verbose w :
  (job_memory image memory verbose w).1
  = match (sys_check_output (Shell (size_line image) true) (w_env w)).1 with
    | Raised e => Raised e
    | Normal out =>
        match Py.int_of_str (Py.strip out) with
        | None => Raised ValueError
        | Some size =>
            match memory with
            | Some m => Normal (num_int m)
            | None =>
                Normal (num_int
                          (need_of (PyFlt (float_div (float_of_int size) million))))
            end
        end
    end.
Proof.
  unfold job_memory. rewrite bind_unfold.
  change ("docker inspect --format " +:+ Py.dq +:+ "{{ .Size }}" +:+ Py.dq +:+ " " +:+ image)
    with (size_line image).
  rewrite sh_run. destruct (sys_check_output _ (w_env w)) as [[out|e] e1]; [|done].
  cbn [fst]. rewrite bind_unfold.
  destruct (Py.int_of_str (Py.strip out)) as [size|]; [|done].
  unfold ret at 1. rewrite bind_unfold.
  unfold memory_check, need_of, num_div_float, to_float.
  destruct memory as [m|]; [destruct (num_ltb m _)|]; destruct verbose; reflexivity.
Qed.

(** X9. The memory of the job (line 96).  A failure of the size query
    is raised as it is; an output that is not an integer raises a
    [ValueError]; otherwise an override, when given, is the memory of
    the job whatever the size, and without an override it is
    [4*size/1e6 + 500] cut to an integer. *)
Theorem job_memory_cases image memory verbose w :
  (job_memory image memory verbose w).1
  = match (sys_check_output (Shell (size_line image) true) (w_env w)).1 with
    | Raised e => Raised e
    | Normal out =>
        match Py.int_of_str (Py.strip out) with
        | None => Raised ValueError
        | Some size =>
            match memory with
            | Some m => Normal (num_int m)
            | None =>
                Normal (num_int
                          (need_of (PyFlt (float_div (float_of_int size) million))))
            end
        end
    end.
Proof. apply job_memory_run. Qed.

Lemma extra_opt_lines_run l w :
  (mapM extra_opt_line l w).2 = w /\
  if existsb is_empty_dict l
  then (mapM extra_opt_line l w).1 = Raised IndexError
  else exists lines, (mapM extra_opt_line l w).1 = Normal lines.
Proof.
  induction l as [|i l [IHw IH]]; [split; [done | by eexists]|].
  cbn [mapM existsb]. rewrite bind_unfold.
  assert (Hrest : forall line,
    ((let! ys := mapM extra_opt_line l in ret (line :: ys)) w).2 = w /\
    if existsb is_empty_dict l
    then ((let! ys := mapM extra_opt_line l in ret (line :: ys)) w).1
         = Raised IndexError
    else exists lines,
         ((let! ys := mapM extra_opt_line l in ret (line :: ys)) w).1 = Normal lines).
  { intros line. rewrite bind_unfold.
    destruct (mapM extra_opt_line l w) as [[lines|e] w1]; cbn [fst snd] in *; subst.
    - split; [done|]. destruct (existsb is_empty_dict l); [done | by eexists].
    - split; [done|].
      destruct (existsb is_empty_dict l); [by injection IH as -> | by destruct IH]. }
  destruct i as [name|[|[k v] items]]; cbn [extra_opt_line is_empty_dict orb].
  - apply Hrest.
  - done.
  - apply Hrest.
Qed.

(** Lines 110-112: the list the descriptor is built from. *)
Lemma vbox_opts_run vbox dc memory w (os : list vbox_opt) :
  match vbox with
  | Some l => w_opts w !! l = Some os
  | None => os = []
  end ->
  (let! l := match vbox with
             | Some l => ret l
             | None => new_opts []
             end in
   when dc (opts_append l (OptFlag "disable_automatic_checkpoints")) ;;;
   opts_append l (OptDict [("memory_size_mb", Py.str_int memory)]) ;;;
   opts_read l) w
  = (Normal (os ++ own_opts dc memory),
     World (w_env w) (w_stdout w) (w_heap w) (w_tmpdir w) (w_trace w)
           (<[opts_target vbox w := os ++ own_opts dc memory]> (w_opts w))).
Proof.
  intros Hos. unfold own_opts, opts_target.
  assert (Happ : forall l (xs : list vbox_opt) x (w0 : world F Env),
            w_opts w0 !! l = Some xs ->
            opts_append l x w0
            = (Normal tt,
               World (w_env w0) (w_stdout w0) (w_heap w0) (w_tmpdir w0) (w_trace w0)
                     (<[l := xs ++ [x]]> (w_opts w0)))).
  { intros l xs x w0 E. unfold opts_append, with_opts. by rewrite E. }
  assert (Hread : forall l (xs : list vbox_opt) (w0 : world F Env),
            w_opts w0 !! l = Some xs -> opts_read l w0 = (Normal xs, w0)).
  { intros l xs w0 E. unfold opts_read, with_opts. rewrite E. by destruct w0. }
  set (l := match vbox with Some l => l | None => fresh (dom (w_opts w)) end).
  set (w1 := World (w_env w) (w_stdout w) (w_heap w) (w_tmpdir w) (w_trace w)
                   (<[l := os]> (w_opts w))).
  assert (H1 : (match vbox with Some l => ret l | None => new_opts [] end) w
               = (Normal l, w1)).
  { subst l w1. destruct vbox as [l|].
    - unfold ret. rewrite insert_id by done. by destruct w.
    - subst os. reflexivity. }
  rewrite bind_unfold, H1.
  assert (Hl1 : w_opts w1 !! l = Some os) by apply lookup_insert_eq.
  rewrite bind_unfold. destruct dc; cbn [when].
  - rewrite (Happ l os _ w1 Hl1). cbn [w_env w_stdout w_heap w_tmpdir w_trace w_opts].
    rewrite bind_unfold.
    erewrite Happ by apply lookup_insert_eq.
    cbn [w_env w_stdout w_heap w_tmpdir w_trace w_opts].
    erewrite Hread by apply lookup_insert_eq.
    subst w1. cbn [w_env w_stdout w_heap w_tmpdir w_trace w_opts].
    by rewrite !insert_insert_eq, <- app_assoc.
  - unfold ret at 1. rewrite bind_unfold.
    rewrite (Happ l os _ w1 Hl1). cbn [w_env w_stdout w_heap w_tmpdir w_trace w_opts].
    erewrite Hread by apply lookup_insert_eq.
    subst w1. cbn [w_env w_stdout w_heap w_tmpdir w_trace w_opts].
    by rewrite !insert_insert_eq.
Qed.

Lemma vbox_job_xml_contents_run vbox dc memory w (os : list vbox_opt) :
  match vbox with
  | Some l => w_opts w !! l = Some os
  | None => os = []
  end ->
  (vbox_job_xml_contents vbox dc memory w).2
  = World (w_env w) (w_stdout w) (w_heap w) (w_tmpdir w) (w_trace w)
          (<[opts_target vbox w := os ++ own_opts dc memory]> (w_opts w)) /\
  if existsb is_empty_dict os
  then (vbox_job_xml_contents vbox dc memory w).1 = Raised IndexError
  else exists contents, (vbox_job_xml_contents vbox dc memory w).1 = Normal contents.
Proof.
  intros Hos. pose proof (vbox_opts_run vbox dc memory w os Hos) as Hrun.
  unfold vbox_job_xml_contents.
  assert (Hshape : forall (k : list vbox_opt -> M F Env string),
    (let! l := match vbox with Some l => ret l | None => new_opts [] end in
     when dc (opts_append l (OptFlag "disable_automatic_checkpoints")) ;;;
     opts_append l (OptDict [("memory_size_mb", Py.str_int memory)]) ;;;
     let! opts := opts_read l in k opts) w
    = (let! opts :=
         (let! l := match vbox with Some l => ret l | None => new_opts [] end in
          when dc (opts_append l (OptFlag "disable_automatic_checkpoints")) ;;;
          opts_append l (OptDict [("memory_size_mb", Py.str_int memory)]) ;;;
          opts_read l) in
       k opts) w).
  { intros k. rewrite !bind_unfold.
    destruct (match vbox with Some l => ret l | None => new_opts [] end w) as [[l|e] w1];
      [|done].
    rewrite !bind_unfold.
    destruct (when dc _ w1) as [[[]|e] w2]; [|done].
    rewrite !bind_unfold.
    by destruct (opts_append l _ w2) as [[[]|e] w3]. }
  rewrite Hshape, bind_unfold, Hrun. rewrite bind_unfold.
  set (w1 := World _ _ _ _ _ _).
  assert (Hall : existsb is_empty_dict (os ++ own_opts dc memory)
                 = existsb is_empty_dict os).
  { unfold own_opts. rewrite !existsb_app. destruct dc; cbn; by rewrite !orb_false_r. }
  destruct (extra_opt_lines_run (os ++ own_opts dc memory) w1) as [Hw Hr].
  rewrite Hall in Hr.
  destruct (mapM extra_opt_line _ w1) as [[lines|e] w2]; cbn [fst snd] in *; subst w2.
  - split; [done|]. destruct (existsb is_empty_dict os); [done | by eexists].
  - split; [done|].
    destruct (existsb is_empty_dict os); [by injection Hr as -> | by destruct Hr].
Qed.

(** X10. The job descriptor (lines 110-129) is built without any
    external call or output.  The entries of lines 111 and 112 are
    appended to the caller's [vbox_job_xml] list itself, or to a new
    list when none was passed, and to no other.  The descriptor fails,
    with an [IndexError], exactly when the caller's list holds an empty
    dict, and by then the list has been extended; the memory and, if
    asked for, [disable_automatic_checkpoints] never fail. *)
Theorem vbox_job_xml_contents_cases vbox disable_checkpoints memory w
    (os : list vbox_opt) :
  match vbox with
  | Some l => w_opts w !! l = Some os
  | None => os = []
  end ->
  (vbox_job_xml_contents vbox disable_checkpoints memory w).2
  = World (w_env w) (w_stdout w) (w_heap w) (w_tmpdir w) (w_trace w)
          (<[opts_target vbox w := os ++ own_opts disable_checkpoints memory]> (w_opts w)) /\
  if existsb is_empty_dict os
  then (vbox_job_xml_contents vbox disable_checkpoints memory w).1 = Raised IndexError
  else exists contents,
         (vbox_job_xml_contents vbox disable_checkpoints memory w).1 = Normal contents.
Proof. apply vbox_job_xml_contents_run. Qed.

End Inspect.

Lemma vbox_job_xml_contents_cases_witness :
  (vbox_job_xml_contents (F := Q) (Some 1%positive) true 2728
     (World Sim.fresh_server [] ∅ None [] {[1%positive := [OptFlag "enable_remote_desktop"]]})).2
  = World Sim.fresh_server [] ∅ None []
      (<[1%positive := [OptFlag "enable_remote_desktop"] ++ own_opts true 2728]>
         {[1%positive := [OptFlag "enable_remote_desktop"]]}) /\
  exists contents,
    (vbox_job_xml_contents (F := Q) (Some 1%positive) true 2728
       (World Sim.fresh_server [] ∅ None []
          {[1%positive := [OptFlag "enable_remote_desktop"]]})).1 = Normal contents.
Proof.
  exact (vbox_job_xml_contents_cases (F := Q) (Some 1%positive) true 2728
           (World Sim.fresh_server [] ∅ None []
              {[1%positive := [OptFlag "enable_remote_desktop"]]})
           [OptFlag "enable_remote_desktop"] eq_refl).
Defined.

Lemma get_image_id_after_colon_witness :
  (Py.contains ":" "sha256:a24bb4013296" = false ->
   (get_image_id "alpine:latest" (Sim.start Sim.fresh_server)).1 = Raised IndexError) /\
  (forall algo id,
     "sha256:a24bb4013296" = algo +:+ ":" +:+ id ->
     Py.contains ":" algo = false -> Py.contains ":" id = false ->
     (get_image_id "alpine:latest" (Sim.start Sim.fresh_server)).1 = Normal id).
Proof.
  apply (get_image_id_after_colon "alpine:latest" (Sim.start Sim.fresh_server)
           ("sha256:a24bb4013296" +:+ Py.nl) Sim.fresh_server).
  reflexivity.
Defined.

(** A Docker that prints the bare id, and one that prints the digest. *)
Example get_image_id_examples :
  (get_image_id "alpine:latest" (Canned.start [Normal "a24bb4013296"])).1
    = Raised IndexError /\
  (get_image_id "alpine:latest" (Canned.start [Normal "sha256:a24bb4013296"])).1
    = Normal "a24bb4013296".
Proof. split; reflexivity. Qed.

(** ** Exporting and packaging the image *)

Section Exporting.
Context {F Env : Type} `{PyFloat F} `{System F Env}.
Implicit Types (a : arguments (F := F)) (w : world F Env).

Lemma when_print_run verbose s w :
  exists out,
    when verbose (print s) w
    = (Normal tt, World (w_env w) out (w_heap w) (w_tmpdir w) (w_trace w) (w_opts w)).
Proof. destruct verbose; [by eexists | exists (w_stdout w); by destruct w]. Qed.

Lemma load_manifest_run src w :
  load_manifest src w
  = ((sys_load_manifest src (w_env w)).1,
     World (sys_load_manifest src (w_env w)).2 (w_stdout w) (w_heap w) (w_tmpdir w)
           (w_trace w ++ [EvLoadManifest src (sys_load_manifest src (w_env w)).1])
           (w_opts w)).
Proof. unfold load_manifest, external. by destruct (sys_load_manifest _ _). Qed.

Lemma export_image_run image tmpdir image_path force_reimport verbose w :
  let run := export_image image tmpdir image_path force_reimport verbose w in
  if negb force_reimport && sys_exists image_path (w_env w) then
    exists rm,
      w_trace run.2 = w_trace w ++ [EvLoadManifest (FromTar image_path) rm] /\
      run.1 = match rm with
              | Normal manifest => Normal (false, manifest)
              | Raised e => Raised e
              end
  else
    exists rs rest,
      w_trace run.2
        = w_trace w ++
          EvCheckOutput
            (Shell ("docker save " +:+ image +:+ " | tar xf - -C " +:+ tmpdir) true) rs
          :: rest /\
      match rs with
      | Raised e => rest = [] /\ run.1 = Raised e
      | Normal _ =>
          exists rm,
            rest = [EvLoadManifest (FromFile (PosixPath.join tmpdir "manifest.json")) rm] /\
            run.1 = match rm with
                    | Normal manifest => Normal (true, manifest)
                    | Raised e => Raised e
                    end
      end.
Proof.
  intros run. subst run. unfold export_image. rewrite bind_unfold.
  assert (Hc : (if negb force_reimport then path_exists image_path else ret false) w
               = (Normal (negb force_reimport && sys_exists image_path (w_env w)), w))
    by (by destruct force_reimport).
  rewrite Hc. destruct (negb force_reimport && sys_exists image_path (w_env w)).
  - rewrite bind_unfold.
    destruct (when_print_run verbose
                "Image already imported into BOINC. Reading existing info..." w) as [out ->].
    rewrite bind_unfold, load_manifest_run. cbn [w_env w_trace fst snd].
    exists (sys_load_manifest (FromTar image_path) (w_env w)).1.
    by destruct (sys_load_manifest _ _) as [[m|e] e1].
  - rewrite bind_unfold.
    destruct (when_print_run verbose ("Exporting '" +:+ image +:+ "' to tar file...") w)
      as [out ->].
    rewrite bind_unfold, sh_run. cbn [w_env w_trace].
    destruct (sys_check_output _ (w_env w)) as [[o|e] e1].
    + exists (Normal o).
      exists [EvLoadManifest (FromFile (PosixPath.join tmpdir "manifest.json"))
                (sys_load_manifest (FromFile (PosixPath.join tmpdir "manifest.json")) e1).1].
      rewrite bind_unfold, load_manifest_run. cbn [w_env w_trace fst snd].
      split; [|eexists; split; [reflexivity|]];
        destruct (sys_load_manifest _ _) as [[m|e] e2]; cbn [fst snd w_trace];
        rewrite <- ?app_assoc; done.
    + by exists (Raised e), [].
Qed.

(** X11. The exporter (lines 99-106).  When reimport is not forced and
    the image file exists in the download hierarchy, the only call is
    the reading of the manifest from that file and nothing is marked
    for extraction.  Otherwise the image is saved and unpacked into the
    scratch directory and, if that succeeds, the manifest is read from
    there and extraction is marked as needed. *)
Theorem export_image_cases image tmpdir image_path force_reimport verbose w :
  let run := export_image image tmpdir image_path force_reimport verbose w in
  if negb force_reimport && sys_exists image_path (w_env w) then
    exists rm,
      w_trace run.2 = w_trace w ++ [EvLoadManifest (FromTar image_path) rm] /\
      run.1 = match rm with
              | Normal manifest => Normal (false, manifest)
              | Raised e => Raised e
              end
  else
    exists rs rest,
      w_trace run.2
        = w_trace w ++
          EvCheckOutput
            (Shell ("docker save " +:+ image +:+ " | tar xf - -C " +:+ tmpdir) true) rs
          :: rest /\
      match rs with
      | Raised e => rest = [] /\ run.1 = Raised e
      | Normal _ =>
          exists rm,
            rest = [EvLoadManifest (FromFile (PosixPath.join tmpdir "manifest.json")) rm] /\
            run.1 = match rm with
                    | Normal manifest => Normal (true, manifest)
                    | Raised e => Raised e
                    end
      end.
Proof. apply export_image_run. Qed.

(** X12. The rest of the image (lines 241-248) is archived and
    compressed exactly when reimport is forced or the image has just
    been extracted; for an image served from the cache no call is made
    and the entry of the existing file is used.  In a verbose run the
    progress message of line 243 is formatted before the archive is
    made: a message that cannot be formatted (an image id that holds a
    brace) is raised and [tar] is not called. *)
Theorem image_archived_when_extracted
    force_reimport need_extract verbose native_unzip tmpdir image_id w :
  let run := package_image force_reimport need_extract verbose native_unzip
                           tmpdir image_id w in
  if force_reimport || need_extract then
    match message_outcome verbose (image_message image_id) (w_env w) with
    | Raised e => w_trace run.2 = w_trace w /\ run.1 = Raised e
    | Normal _ =>
        exists rt rest,
          w_trace run.2
            = w_trace w ++
              EvCheckOutput (Shell (image_tar_line native_unzip tmpdir image_id) true) rt
              :: rest /\
          match rt with
          | Normal _ =>
              exists rg,
                rest = [EvCheckOutput (Shell (image_gzip_line native_unzip image_id) true) rg] /\
                run.1 = match rg with
                        | Normal _ => Normal (image_entry native_unzip image_id)
                        | Raised e => Raised e
                        end
          | Raised e => rest = [] /\ run.1 = Raised e
          end
    end
  else
    w_trace run.2 = w_trace w /\ w_env run.2 = w_env w /\
    run.1 = Normal (image_entry native_unzip image_id).
Proof.
  intros run. subst run.
  unfold package_image, tar_and_gzip. cbv zeta. rewrite bind_unfold.
  destruct (force_reimport || need_extract); [|done].
  rewrite bind_unfold. fold (image_message image_id).
  pose proof (progress_message_run verbose (image_message image_id) w) as Hp.
  destruct (message_outcome verbose (image_message image_id) (w_env w)) as [m|e].
  2: { by rewrite Hp. }
  destruct Hp as [out ->].
  rewrite !bind_unfold, sh_run. cbn [w_env w_trace].
  change ("tar cvf " +:+ _ +:+ " -C " +:+ tmpdir +:+ " " +:+ image_id
          +:+ ".json manifest.json repositories")
    with (image_tar_line native_unzip tmpdir image_id).
  destruct (sys_check_output _ (w_env w)) as [[o|e] e1]; cbn [fst snd w_trace].
  - exists (Normal o).
    exists [EvCheckOutput (Shell (image_gzip_line native_unzip image_id) true)
              (sys_check_output (Shell (image_gzip_line native_unzip image_id) true) e1).1].
    rewrite !bind_unfold. unfold image_gzip_line, image_path_tar, image_entry.
    destruct native_unzip; rewrite sh_run; cbn [w_env w_trace];
      (split; [|eexists; split; [reflexivity|]]);
      destruct (sys_check_output _ e1) as [[o2|e2] e3]; unfold ret;
      cbn [fst snd w_trace]; rewrite <- ?app_assoc; done.
  - by exists (Raised e), [].
Qed.

Lemma mapM_normal_map {A B} (f : A -> M F Env B) (g : A -> B) l :
  (forall x w y w', f x w = (Normal y, w') -> y = g x) ->
  forall w ys w', mapM f l w = (Normal ys, w') -> ys = map g l.
Proof.
  intros Hf. induction l as [|x l IH]; intros w ys w' Hrun.
  - by injection Hrun as <- _.
  - cbn [mapM] in Hrun.
    apply bind_normal_inv in Hrun as (y & w1 & Hy & Hrun).
    apply bind_normal_inv in Hrun as (ys' & w2 & Hys & Hrun).
    injection Hrun as <- _. cbn [map]. f_equal; eauto.
Qed.

Lemma package_layer_entry force_reimport need_extract verbose native_unzip tmpdir layer
    w entry w' :
  package_layer force_reimport need_extract verbose native_unzip tmpdir layer w
    = (Normal entry, w') ->
  entry = layer_entry native_unzip layer.
Proof.
  unfold package_layer. intros Hrun.
  apply bind_normal_inv in Hrun as (archive & w1 & _ & Hrun).
  apply bind_normal_inv in Hrun as ([] & w2 & _ & Hrun).
  by injection Hrun as <- _.
Qed.

Lemma package_image_entry force_reimport need_extract verbose native_unzip tmpdir id
    w entry w' :
  package_image force_reimport need_extract verbose native_unzip tmpdir id w
    = (Normal entry, w') ->
  entry = image_entry native_unzip id.
Proof.
  unfold package_image. intros Hrun.
  apply bind_normal_inv in Hrun as ([] & w2 & _ & Hrun).
  by injection Hrun as <- _.
Qed.

(** X13. The final input-file sequence (lines 217-241), whenever it is
    built: the files of the list at [l] in their order, each under the
    base name of its open name; then one staged file per layer of the
    first entry of the manifest, in the order of the manifest; then the
    staged file of the image.  An empty manifest raises an
    [IndexError]. *)
Theorem final_sequence_order a l p w (xs : list input_file) :
  w_heap w !! l = Some xs ->
  match p_manifest p with
  | [] => (package a l p w).1 = Raised IndexError
  | m :: _ =>
      forall files,
        (package a l p w).1 = Normal files ->
        files = map repackage xs
                ++ map (layer_entry (native_unzip a)) (Layers m)
                ++ [image_entry (native_unzip a) (p_image_id p)]
  end.
Proof.
  intros Hxs. unfold package. rewrite bind_unfold. unfold list_read. rewrite Hxs.
  cbv zeta. rewrite bind_unfold.
  destruct (p_manifest p) as [|m rest]; [done|].
  unfold ret at 1. rewrite bind_unfold.
  intros files Hfiles.
  destruct (mapM _ (Layers m) w) as [[entries|e] w1] eqn:Hentries; [|done].
  rewrite bind_unfold in Hfiles.
  destruct (package_image _ _ _ _ _ _ w1) as [[entry|e] w2] eqn:Himage; [|done].
  injection Hfiles as <-.
  rewrite (package_image_entry _ _ _ _ _ _ _ _ _ Himage).
  rewrite (mapM_normal_map _ (layer_entry (native_unzip a)) _
             (fun layer wa y wb => package_layer_entry _ _ _ _ _ layer wa y wb)
             _ _ _ Hentries).
  done.
Qed.

End Exporting.

Lemma final_sequence_order_witness :
  [("shared/data/foo", Inline "foo" "bar", ["gzip"]);
   ("shared/image/layer_50644c29ef5a.tar.manual.gz",
    Staged "layer_50644c29ef5a.tar.manual.gz", ["sticky"; "no_delete"]);
   ("shared/image/image_a24bb4013296.tar.manual.gz",
    Staged "image_a24bb4013296.tar.manual.gz", ["sticky"; "no_delete"])]
  = map repackage [("shared/data/foo", "bar", ["gzip"])]
    ++ map (layer_entry (F := Q) (Env := Sim.env) false)
           ["50644c29ef5a/layer.tar"]
    ++ [image_entry false "a24bb4013296"].
Proof.
  apply (final_sequence_order (Sim.job_with_files "alpine" 1%positive) 1%positive
           {| p_tmpdir := "/tmp/tmp0"; p_image_id := "a24bb4013296";
              p_need_extract := true; p_manifest := Sim.manifest_of Sim.alpine;
              p_create_work_args := ∅ |}
           (Sim.start_with Sim.fresh_server 1%positive
              [("shared/data/foo", "bar", ["gzip"])])
           [("shared/data/foo", "bar", ["gzip"])] eq_refl).
  vm_compute. reflexivity.
Defined.

(** ** Lists the function was not given *)

Section Frame.
Context {F Env : Type} `{PyFloat F} `{System F Env}.
Implicit Types (a : arguments (F := F)) (w : world F Env).

#[global] Instance kept_at_ambient l : Ambient (F := F) (of_rel (kept_at l)).
Proof.
  split; unfold of_rel, kept_at.
  - done.
  - done.
  - intros; congruence.
  - done.
  - by intros s w.
  - by intros p w.
  - intros l' w. unfold list_read. by destruct (w_heap w !! l').
  - intros w. unfold read_tmpdir. by destruct (w_tmpdir w).
  - intros A op ev _ _ w. unfold external. by destruct (op (w_env w)).
Qed.

#[global] Instance kept_at_blind l : Blind (F := F) (Env := Env) (of_rel (kept_at l)).
Proof. intros A op ev _ w. unfold of_rel, kept_at, external. by destruct (op (w_env w)). Qed.

#[global] Instance kept_at_unaware l : Unaware (F := F) (Env := Env) (of_rel (kept_at l)).
Proof. intros A op w. unfold of_rel, kept_at, with_opts. by destruct (op (w_opts w)). Qed.

Lemma kept_at_appends l l0 :
  l <> l0 -> Appends (F := F) (Env := Env) l0 (of_rel (kept_at l)).
Proof.
  intros Hne x _ w. unfold of_rel, kept_at, list_append.
  destruct (w_heap w !! l0); cbn; [|done]. by rewrite lookup_insert_ne.
Qed.

#[global] Instance kept_opts_ambient l : Ambient (F := F) (of_rel (kept_opts l)).
Proof.
  split; unfold of_rel, kept_opts.
  - done.
  - done.
  - intros A B w x w1 r w2 H1 H2 os Hos. by apply H2, H1.
  - done.
  - by intros s w.
  - by intros p w.
  - intros l' w. unfold list_read. by destruct (w_heap w !! l').
  - intros w. unfold read_tmpdir. by destruct (w_tmpdir w).
  - intros A op ev _ _ w. unfold external. by destruct (op (w_env w)).
Qed.

#[global] Instance kept_opts_blind l : Blind (F := F) (Env := Env) (of_rel (kept_opts l)).
Proof. intros A op ev _ w. unfold of_rel, kept_opts, external. by destruct (op (w_env w)). Qed.

#[global] Instance kept_opts_appends l l0 :
  Appends (F := F) (Env := Env) l0 (of_rel (kept_opts l)).
Proof.
  intros x _ w. unfold of_rel, kept_opts, list_append. by destruct (w_heap w !! l0).
Qed.

(** The descriptor is built from the list it is given, or from a new
    one: any other list is left as it is. *)
Lemma kept_opts_describes l vbox :
  vbox <> Some l -> Describes (F := F) (Env := Env) vbox (of_rel (kept_opts l)).
Proof.
  intros Hne dac memory.
  assert (Happ : forall l0 x, l0 <> l ->
            Meets (F := F) (Env := Env) (of_rel (kept_opts l)) (opts_append l0 x)).
  { intros l0 x Hl0 w os Hos. unfold opts_append, with_opts.
    destruct (w_opts w !! l0); cbn; [|done]. by rewrite lookup_insert_ne. }
  assert (Hread : forall l0,
            Meets (F := F) (Env := Env) (of_rel (kept_opts l)) (opts_read l0)).
  { intros l0 w os Hos. unfold opts_read, with_opts. by destruct (w_opts w !! l0). }
  assert (Hrest : forall l0, l0 <> l ->
    Meets (F := F) (Env := Env) (of_rel (kept_opts l))
      (when dac (opts_append l0 (OptFlag "disable_automatic_checkpoints")) ;;;
       opts_append l0 (OptDict [("memory_size_mb", Py.str_int memory)]) ;;;
       let! os := opts_read l0 in
       let! lines := mapM extra_opt_line os in
       ret (Py.join Py.nl
              [""; "<vbox_job>"; "";
               "    <os_name>Linux26_64</os_name>";
               "    <enable_isocontextualization>1</enable_isocontextualization>";
               "    <enable_shared_directory/>";
               "    <enable_network/>";
               "    <completion_trigger_file>completion_trigger_file</completion_trigger_file>";
               "";
               Py.join Py.nl lines;
               "";
               "</vbox_job>"; ""]))).
  { intros l0 Hl0.
    apply meets_bind; [apply _ | apply meets_when; [apply _ | by apply Happ] | intros _].
    apply meets_bind; [apply _ | by apply Happ | intros _].
    apply meets_bind; [apply _ | apply Hread | intros os].
    apply meets_bind; [apply _ | | intros lines; apply meets_ret, _].
    apply meets_mapM; [apply _ | apply extra_opt_line_meets, _]. }
  intros w. unfold vbox_job_xml_contents. cbv zeta. rewrite bind_unfold.
  destruct vbox as [l0|].
  - unfold ret at 1. apply Hrest. congruence.
  - unfold new_opts, with_opts. cbn [fst snd].
    set (l0 := fresh (dom (w_opts w))). set (w1 := World _ _ _ _ _ _).
    intros os Hos.
    assert (Hl0 : l0 <> l).
    { intros <-. apply (is_fresh (dom (w_opts w))). apply elem_of_dom. by eexists. }
    apply (Hrest l0 Hl0 w1). subst w1. cbn. by rewrite lookup_insert_ne.
Qed.

(** The suite of the outer [try] meets every postcondition that its
    primitives meet. *)
Lemma try_suite_meets (Q : post F Env) `{!Ambient Q} `{!Blind Q} `{!Forgetful Q}
    l0 `{!Appends l0 Q} a `{!Describes (vbox_job_xml a) Q}
    image prerun postrun command args :
  (forall d, Meets Q (bind_tmpdir d)) ->
  Meets Q (try_suite a image prerun postrun command l0 args).
Proof.
  intros Hbind w. rewrite try_suite_unfold. revert w.
  change (Meets Q
            (let! tmpdir := mkdtemp in
             bind_tmpdir tmpdir ;;;
             let! image_id := resolve_image image (verbose a) in
             after_resolve a image prerun postrun command l0 args tmpdir image_id)).
  apply meets_bind; [done | by apply blind_external | intros d].
  apply meets_bind; [done | apply Hbind | intros _].
  apply meets_bind; [done | by apply resolve_image_meets | intros id].
  by apply after_resolve_meets.
Qed.

(** The whole call meets a postcondition that its suite, the handlers
    and the cleanup meet from the world in which the [try] is entered. *)
Lemma run_meets (R : relation (world F Env)) `{!Ambient (of_rel R)}
    `{!Blind (of_rel R)} a w :
  Appends (enter (input_files a) w).1 (of_rel R) ->
  Describes (vbox_job_xml a) (of_rel R) ->
  (forall d, Meets (of_rel R) (bind_tmpdir d)) ->
  R (enter (input_files a) w).2 (boinc2docker_create_work a w).2.
Proof.
  intros Happ Hdesc Hbind.
  assert (Hg : Meets (of_rel R)
                 (try_finally
                    (try_except
                       (try_suite a (with_tag (image a)) (default "" (prerun a))
                          (default "" (postrun a)) (default (CmdStr "") (command a))
                          (enter (input_files a) w).1
                          (default ∅ (create_work_args a)))
                       handlers)
                    cleanup)).
  { apply meets_try_finally; [apply _ | apply _ | | apply cleanup_meets; apply _].
    apply meets_try_except; [apply _ | apply _ | |].
    - by apply try_suite_meets; try apply _.
    - intros e k. apply handlers_meets, _. }
  specialize (Hg (enter (input_files a) w).2). unfold of_rel in Hg.
  assert (Hrun : boinc2docker_create_work a w
                 = try_finally
                     (try_except
                        (try_suite a (with_tag (image a)) (default "" (prerun a))
                           (default "" (postrun a)) (default (CmdStr "") (command a))
                           (enter (input_files a) w).1
                           (default ∅ (create_work_args a)))
                        handlers)
                     cleanup (enter (input_files a) w).2).
  { unfold boinc2docker_create_work, enter. rewrite !bind_unfold. unfold unbind_tmpdir.
    destruct (input_files a) as [l|]; reflexivity. }
  by rewrite Hrun.
Qed.

Lemma run_keeps_other_lists a w l (xs : list input_file) :
  w_heap w !! l = Some xs ->
  input_files a <> Some l ->
  w_heap (boinc2docker_create_work a w).2 !! l = Some xs.
Proof.
  intros Hxs Hne.
  assert (Hl0 : l <> (enter (input_files a) w).1).
  { unfold enter. destruct (input_files a) as [l0|]; cbn; [congruence|].
    intros ->. apply (is_fresh (dom (w_heap w))). apply elem_of_dom. by eexists. }
  assert (Hw0 : w_heap (enter (input_files a) w).2 !! l = Some xs).
  { unfold enter in *. destruct (input_files a) as [l0|]; cbn in *; [done|].
    by rewrite lookup_insert_ne. }
  pose proof (run_meets (kept_at l) a w (kept_at_appends l _ Hl0) _
                (fun d w1 => eq_refl)) as Hrun.
  unfold kept_at in Hrun. by rewrite Hrun.
Qed.

Lemma run_keeps_other_options a w l (os : list vbox_opt) :
  w_opts w !! l = Some os ->
  vbox_job_xml a <> Some l ->
  w_opts (boinc2docker_create_work a w).2 !! l = Some os.
Proof.
  intros Hos Hne.
  assert (Hw0 : w_opts (enter (input_files a) w).2 !! l = Some os).
  { unfold enter. by destruct (input_files a). }
  apply (run_meets (kept_opts l) a w _ (kept_opts_describes l _ Hne)); [|done].
  intros d w1 os1 Hos1. done.
Qed.

(** X14. The function changes no list object but the ones it is given:
    every list of input files other than [input_files], and every list
    of options other than [vbox_job_xml], is the same after the call
    as before, whatever the outcome; for an argument that is [None]
    this is every such list there was. *)
Theorem other_lists_untouched a w :
  (forall l (xs : list input_file),
     w_heap w !! l = Some xs -> input_files a <> Some l ->
     w_heap (boinc2docker_create_work a w).2 !! l = Some xs) /\
  (forall l (os : list vbox_opt),
     w_opts w !! l = Some os -> vbox_job_xml a <> Some l ->
     w_opts (boinc2docker_create_work a w).2 !! l = Some os).
Proof.
  split; intros l ?; [apply run_keeps_other_lists | apply run_keeps_other_options].
Qed.

End Frame.

(** A caller that passes its own list of options finds the two entries
    of lines 111 and 112 in it after the call. *)
Example caller_options_after_a_run :
  let run := boinc2docker_create_work (Sim.job_with_options "alpine" 1%positive)
               (Sim.start_with_options Sim.fresh_server 1%positive
                  [OptFlag "enable_remote_desktop"]) in
  run.1 = Normal (Some "boinc2docker_1") /\
  w_opts run.2 !! 1%positive
  = Some [OptFlag "enable_remote_desktop"; OptFlag "disable_automatic_checkpoints";
          OptDict [("memory_size_mb", "522")]].
Proof. vm_compute. split; reflexivity. Qed.

(** ** A run that returns a work unit *)

Section Success.
Context {F Env : Type} `{PyFloat F} `{System F Env}.
Implicit Types (a : arguments (F := F)) (w : world F Env).

Lemma strict_run {A} (m : M F Env A) w r w' :
  Meets strict m -> m w = (r, w') -> exists es, w_trace w' = w_trace w ++ es.
Proof.
  intros Hm E. specialize (Hm w). rewrite E in Hm. destruct Hm as (es & Hes & _).
  by exists es.
Qed.

Lemma external_normal {A} (op : Env -> outcome A * Env) ev w (v : A) w' :
  external op ev w = (Normal v, w') ->
  w_trace w' = w_trace w ++ [ev (Normal v)] /\ w_heap w' = w_heap w /\
  w_tmpdir w' = w_tmpdir w /\ (op (w_env w)).1 = Normal v.
Proof.
  unfold external. destruct (op (w_env w)) as [r e]. intros [= -> <-]. done.
Qed.

Lemma submit_normal_full appname tmpdir verbose args files w wu w' :
  submit appname tmpdir verbose args files w = (Normal wu, w') ->
  exists u out,
    wu = Py.strip out /\
    w_trace w'
    = w_trace w ++
      [EvUuid (Normal u);
       EvWriteFile (PosixPath.join tmpdir ("boinc2docker_in_" +:+ u))
                   (xml_pretty (input_template files)) (Normal tt);
       EvCreateWork appname
         (<["wu_template" := ArgStr (PosixPath.join tmpdir ("boinc2docker_in_" +:+ u))]> args)
         (map source_of files) (Normal out)].
Proof.
  unfold submit. intros Hrun.
  apply bind_normal_inv in Hrun as ([] & w1 & Hp & Hrun).
  apply bind_normal_inv in Hrun as (u & w2 & Hu & Hrun).
  apply bind_normal_inv in Hrun as ([] & w3 & Hw & Hrun).
  apply bind_normal_inv in Hrun as (out & w4 & Hcw & Hrun).
  injection Hrun as <- <-.
  apply external_normal in Hu as (Hu & _). apply external_normal in Hw as (Hw & _).
  apply external_normal in Hcw as (Hcw & _).
  assert (Hp' : w_trace w1 = w_trace w).
  { destruct verbose; cbn in Hp; by injection Hp as <-. }
  exists u, out. split; [done|].
  rewrite Hcw, Hw, Hu, Hp', <- !app_assoc. reflexivity.
Qed.

Lemma job_memory_normal image memory verbose w mem w' :
  job_memory image memory verbose w = (Normal mem, w') ->
  forall m, memory = Some m -> mem = num_int m.
Proof.
  intros Hrun m ->. pose proof (job_memory_run image (Some m) verbose w) as Hm.
  rewrite Hrun in Hm. cbn [fst] in Hm.
  destruct (sys_check_output _ _).1; [|done].
  destruct (Py.int_of_str _); [|done]. by injection Hm.
Qed.

Lemma describe_job_fields a image prerun postrun command l args d id w p w' :
  describe_job a image prerun postrun command l args d id w = (Normal p, w') ->
  p_tmpdir p = d /\ p_image_id p = id /\ sshgrid_mode a = false /\
  exists mem,
    p_create_work_args p
    = <["rsc_memory_bound" := ArgNum (num_mul (PyInt mem) (PyFlt million))]> args /\
    forall m, memory a = Some m -> mem = num_int m.
Proof.
  unfold describe_job. intros Hrun.
  apply bind_normal_inv in Hrun as (mem & w1 & H1 & Hrun).
  apply bind_normal_inv in Hrun as ([need_extract manifest] & w2 & H2 & Hrun).
  apply bind_normal_inv in Hrun as (contents & w3 & H3 & Hrun).
  apply bind_normal_inv in Hrun as ([] & w4 & H4 & Hrun).
  apply bind_normal_inv in Hrun as (cmd & w5 & H5 & Hrun).
  apply bind_normal_inv in Hrun as ([sshgrid args'] & w6 & H6 & Hrun).
  apply bind_normal_inv in Hrun as ([] & w7 & H7 & Hrun).
  injection Hrun as <- <-.
  destruct (sshgrid_mode a).
  { by apply configure_sshgrid_never_returns in H6. }
  unfold configure_sshgrid, ret in H6. injection H6 as <- <- <-.
  cbn. repeat split. exists mem. split; [done|].
  by apply (job_memory_normal _ _ _ _ _ _ H1).
Qed.

(** A suite that returns: the calls it made and the value it returns. *)
Lemma try_suite_success a image prerun postrun command l args w v w' :
  try_suite a image prerun postrun command l args w = (Normal v, w') ->
  exists d e1 u mem files out es0,
    sys_mkdtemp (w_env w) = (Normal d, e1) /\
    v = Some (Py.strip out) /\
    w_trace w'
    = w_trace w ++
      EvMkdtemp (Normal d) :: es0 ++
      [EvCreateWork (appname a)
         (<["wu_template" := ArgStr (PosixPath.join d ("boinc2docker_in_" +:+ u))]>
            (<["rsc_memory_bound" := ArgNum (num_mul (PyInt mem) (PyFlt million))]> args))
         (map source_of files) (Normal out)] /\
    (forall m, memory a = Some m -> mem = num_int m) /\
    sshgrid_mode a = false.
Proof.
  unfold try_suite, prepare. intros Hrun.
  apply bind_normal_inv in Hrun as (p & w4 & Hprep & Hrun).
  apply bind_normal_inv in Hprep as (d & w1 & Hmk & Hprep).
  apply bind_normal_inv in Hprep as ([] & w2 & Hbind & Hprep).
  apply bind_normal_inv in Hprep as (id & w3 & Hres & Hdesc).
  apply bind_normal_inv in Hrun as (files & w5 & Hpack & Hrun).
  apply bind_normal_inv in Hrun as (wu & w6 & Hsub & Hrun).
  injection Hrun as <- <-.
  destruct (describe_job_fields _ _ _ _ _ _ _ _ _ _ _ _ Hdesc)
    as (Hd & _ & Hssh & mem & Hargs & Hmem).
  rewrite Hd, Hargs in Hsub.
  apply submit_normal_full in Hsub as (u & out & -> & Hsub).
  destruct (strict_run _ _ _ _ (package_meets strict _ _ _) Hpack) as [es_p Hp].
  destruct (strict_run _ _ _ _ (describe_job_meets strict _ _ _ _ _ _ _ _ _) Hdesc)
    as [es_d Hdj].
  pose proof (resolve_image_trace image (verbose a) w2) as Hr. rewrite Hres in Hr.
  cbn [snd] in Hr. injection Hbind as <-. cbn [w_trace w_env] in Hr.
  assert (Hmk' : exists e1, sys_mkdtemp (w_env w) = (Normal d, e1)).
  { unfold mkdtemp, external in Hmk. destruct (sys_mkdtemp (w_env w)) as [r e1].
    injection Hmk as -> _. by exists e1. }
  destruct Hmk' as [e1 He1].
  apply external_normal in Hmk as (Hmk & _).
  exists d, e1, u, mem, files, out,
    (resolve_events image (w_env w1) ++ es_d ++
     es_p ++ [EvUuid (Normal u);
              EvWriteFile (PosixPath.join d ("boinc2docker_in_" +:+ u))
                          (xml_pretty (input_template files)) (Normal tt)]).
  split; [done|]. split; [done|]. split; [|done].
  rewrite Hsub, Hp, Hdj, Hr, Hmk. by repeat (rewrite <- ?app_assoc; cbn [app]).
Qed.

Lemma run_success a w wu :
  (boinc2docker_create_work a w).1 = Normal (Some wu) ->
  exists d u mem files out es0 rr,
    wu = Py.strip out /\
    w_trace (boinc2docker_create_work a w).2
    = w_trace w ++
      EvMkdtemp (Normal d) :: es0 ++
      [EvCreateWork (appname a)
         (<["wu_template" := ArgStr (PosixPath.join d ("boinc2docker_in_" +:+ u))]>
            (<["rsc_memory_bound" := ArgNum (num_mul (PyInt mem) (PyFlt million))]>
               (default ∅ (create_work_args a))))
         (map source_of files) (Normal out);
       rm_event d rr] /\
    (forall m, memory a = Some m -> mem = num_int m) /\
    sshgrid_mode a = false.
Proof.
  intros Hrun.
  assert (Hs : exists w', try_suite a (with_tag (image a)) (default "" (prerun a))
                 (default "" (postrun a)) (default (CmdStr "") (command a))
                 (enter (input_files a) w).1 (default ∅ (create_work_args a))
                 (enter (input_files a) w).2 = (Normal (Some wu), w')).
  { rewrite run_unfold in Hrun.
    destruct (cleanup_total (guarded_suite a w).2) as (wc & Hc & _).
    rewrite Hc in Hrun. cbn [fst] in Hrun. unfold guarded_suite in Hrun.
    rewrite handlers_run in Hrun.
    destruct (try_suite _ _ _ _ _ _ _ _) as [[v|[]] w']; cbn in Hrun; try done.
    injection Hrun as ->. by exists w'. }
  destruct Hs as [w' Hs].
  destruct (try_suite_success _ _ _ _ _ _ _ _ _ _ Hs)
    as (d & e1 & u & mem & files & out & es0 & Hmk & [= ->] & Htr & Hmem & Hssh).
  rewrite enter_env in Hmk. rewrite enter_trace in Htr.
  exists d, u, mem, files, out, es0.
  rewrite run_unfold, (cleanup_bound _ d (guarded_suite_frame a w d e1 Hmk)).
  unfold guarded_suite. rewrite handlers_run, Hs. cbn [fst snd w_trace w_env].
  eexists. split; [done|]. split; [|done].
  rewrite Htr. by repeat (rewrite <- ?app_assoc; cbn [app]).
Qed.

(** X15. When the function returns a work-unit id, the id is the
    output of [create_work] with the white space around it stripped;
    that submission succeeded and is the last call of the suite, with
    only the removal of the scratch directory after it. *)
Theorem returned_id_is_stripped_output a w wu :
  (boinc2docker_create_work a w).1 = Normal (Some wu) ->
  exists d es args files out rr,
    wu = Py.strip out /\
    w_trace (boinc2docker_create_work a w).2
    = w_trace w ++ es ++
      [EvCreateWork (appname a) args files (Normal out); rm_event d rr] /\
    In (EvMkdtemp (Normal d)) es.
Proof.
  intros Hrun.
  destruct (run_success a w wu Hrun)
    as (d & u & mem & files & out & es0 & rr & -> & Htr & _).
  exists d, (EvMkdtemp (Normal d) :: es0). eexists _, _, out, rr.
  split; [done|]. split; [|by left]. by rewrite Htr.
Qed.

(** X16. The options of a successful submission are the caller's
    [create_work_args] with two keys set by the function:
    [wu_template], a file [boinc2docker_in_<hex>] in the scratch
    directory of the run, and [rsc_memory_bound], the memory of the
    job in MB times [1e6] (a float), and with an override the memory is
    the override cut to an integer.  Every other key is passed as the
    caller gave it, and the mode is not sshgrid. *)
Theorem submitted_options a w wu :
  (boinc2docker_create_work a w).1 = Normal (Some wu) ->
  exists d u mem args files out,
    In (EvMkdtemp (Normal d)) (w_trace (boinc2docker_create_work a w).2) /\
    In (EvCreateWork (appname a) args files (Normal out))
       (w_trace (boinc2docker_create_work a w).2) /\
    args !! "wu_template"
    = Some (ArgStr (PosixPath.join d ("boinc2docker_in_" +:+ u))) /\
    args !! "rsc_memory_bound"
    = Some (ArgNum (PyFlt (float_mul (float_of_int mem) million))) /\
    (forall m, memory a = Some m -> mem = num_int m) /\
    (forall k, k <> "wu_template" -> k <> "rsc_memory_bound" ->
               args !! k = default ∅ (create_work_args a) !! k) /\
    sshgrid_mode a = false.
Proof.
  intros Hrun.
  destruct (run_success a w wu Hrun)
    as (d & u & mem & files & out & es0 & rr & _ & Htr & Hmem & Hssh).
  exists d, u, mem. eexists _, _, out. rewrite Htr.
  split; [apply in_or_app; right; by left|].
  split.
  { apply in_or_app. right. right. apply in_or_app. right. by left. }
  split; [by rewrite lookup_insert_eq|].
  split; [by rewrite lookup_insert_ne, lookup_insert_eq|].
  split; [done|]. split; [|done].
  intros k H1 H2. by rewrite !lookup_insert_ne.
Qed.

End Success.

Lemma returned_id_is_stripped_output_witness :
  exists d es args files out rr,
    "boinc2docker_1" = Py.strip out /\
    w_trace (boinc2docker_create_work (Sim.job "alpine") (Sim.start Sim.fresh_server)).2
    = w_trace (Sim.start Sim.fresh_server) ++ es ++
      [EvCreateWork (appname (Sim.job "alpine")) args files (Normal out); rm_event d rr] /\
    In (EvMkdtemp (Normal d)) es.
Proof.
  apply (returned_id_is_stripped_output (Sim.job "alpine") (Sim.start Sim.fresh_server)).
  vm_compute. reflexivity.
Defined.

Lemma submitted_options_witness :
  exists d u mem args files out,
    In (EvMkdtemp (Normal d))
       (w_trace (boinc2docker_create_work (Sim.job "alpine")
                   (Sim.start Sim.fresh_server)).2) /\
    In (EvCreateWork (appname (Sim.job "alpine")) args files (Normal out))
       (w_trace (boinc2docker_create_work (Sim.job "alpine")
                   (Sim.start Sim.fresh_server)).2) /\
    args !! "wu_template"
    = Some (ArgStr (PosixPath.join d ("boinc2docker_in_" +:+ u))) /\
    args !! "rsc_memory_bound"
    = Some (ArgNum (PyFlt (float_mul (float_of_int mem) million))) /\
    (forall m, memory (Sim.job "alpine") = Some m -> mem = num_int m) /\
    (forall k, k <> "wu_template" -> k <> "rsc_memory_bound" ->
               args !! k = default ∅ (create_work_args (Sim.job "alpine")) !! k) /\
    sshgrid_mode (Sim.job "alpine") = false.
Proof.
  apply (submitted_options (Sim.job "alpine") (Sim.start Sim.fresh_server)
           "boinc2docker_1").
  vm_compute. reflexivity.
Defined.

(** ** The escaped command *)

Section Escaping.
Context {F Env : Type} `{PyFloat F} `{System F Env}.
Implicit Types (w : world F Env).

Lemma escaped_command_run (quote : string -> string) command :
  (forall s e, exists e', sys_check_output (escape_argv s) e = (Normal (quote s), e')) ->
  forall w,
    (escaped_command command w).1
    = Normal (Py.join " " (map quote (command_tokens command))) /\
    w_trace (escaped_command command w).2
    = w_trace w ++
      map (fun s => EvCheckOutput (escape_argv s) (Normal (quote s)))
          (command_tokens command) /\
    w_stdout (escaped_command command w).2 = w_stdout w.
Proof.
  intros Hq w. unfold escaped_command. fold (command_tokens command).
  rewrite bind_unfold.
  assert (Hmap : forall l w0, exists w1,
            mapM escape_string l w0 = (Normal (map quote l), w1) /\
            w_trace w1
            = w_trace w0 ++ map (fun s => EvCheckOutput (escape_argv s) (Normal (quote s))) l /\
            w_stdout w1 = w_stdout w0).
  { induction l as [|s l IH]; intros w0.
    - exists w0. by rewrite app_nil_r.
    - cbn [mapM map]. rewrite bind_unfold.
      unfold escape_string at 1, check_output, external.
      fold (escape_argv s). destruct (Hq s (w_env w0)) as [e' ->].
      rewrite bind_unfold.
      edestruct IH as (w1 & -> & Htr & Hout). eexists. split; [done|].
      cbn [snd w_trace w_stdout] in *. rewrite Htr, Hout.
      by rewrite <- app_assoc. }
  destruct (Hmap (command_tokens command) w) as (w1 & -> & Htr & Hout). done.
Qed.

(** X17. The command of the script (lines 134-135): a command given
    as a string is split on white space, one given as a list is taken
    token by token; bash is called once for each token, in order, and
    for nothing else; when it answers every call with the quoted
    token, the command is the quoted tokens joined by single spaces.
    A token of a list that holds white space stays one token, and
    nothing is printed. *)
Theorem escaped_command_calls (quote : string -> string) command w :
  (forall s e, exists e', sys_check_output (escape_argv s) e = (Normal (quote s), e')) ->
  (escaped_command command w).1
  = Normal (Py.join " " (map quote (command_tokens command))) /\
  w_trace (escaped_command command w).2
  = w_trace w ++
    map (fun s => EvCheckOutput (escape_argv s) (Normal (quote s)))
        (command_tokens command) /\
  w_stdout (escaped_command command w).2 = w_stdout w.
Proof. intros Hq. by apply escaped_command_run. Qed.

End Escaping.

Lemma escaped_command_calls_witness :
  (escaped_command (CmdStr "echo hello world") (Sim.start Sim.fresh_server)).1
  = Normal (Py.join " " (map id (command_tokens (CmdStr "echo hello world")))) /\
  w_trace (escaped_command (CmdStr "echo hello world") (Sim.start Sim.fresh_server)).2
  = w_trace (Sim.start Sim.fresh_server) ++
    map (fun s => EvCheckOutput (escape_argv s) (Normal (id s)))
        (command_tokens (CmdStr "echo hello world")) /\
  w_stdout (escaped_command (CmdStr "echo hello world") (Sim.start Sim.fresh_server)).2
  = w_stdout (Sim.start Sim.fresh_server).
Proof.
  apply (escaped_command_calls id (CmdStr "echo hello world") (Sim.start Sim.fresh_server)).
  intros s e. exists e. reflexivity.
Defined.

(** ** Physical names of the inline files *)

Lemma contains_slash_cons c s :
  Py.contains "/" (String c s) = Ascii.eqb c "/" || Py.contains "/" s.
Proof.
  cbn [Py.contains String.prefix].
  destruct (Ascii.ascii_dec "/" c) as [<-|Hne].
  - by destruct s.
  - destruct (Ascii.eqb_spec c "/") as [->|_]; [done|]. done.
Qed.

Lemma cut_no_slash s : Py.contains "/" s = false -> PosixPath.cut s = ("", s).
Proof.
  induction s as [|c s IH]; intros Hs; [done|].
  rewrite contains_slash_cons in Hs. apply orb_false_elim in Hs as [Hc Hs].
  cbn [PosixPath.cut]. rewrite (IH Hs), Hc. done.
Qed.

Lemma cut_last_slash dir name :
  Py.contains "/" name = false ->
  PosixPath.cut (dir +:+ String "/" name) = (dir +:+ "/", name).
Proof.
  intros Hname. induction dir as [|c dir IH].
  - change ("" +:+ String "/" name) with (String "/" name).
    cbn [PosixPath.cut]. rewrite (cut_no_slash name Hname). done.
  - change (String c dir +:+ String "/" name) with (String c (dir +:+ String "/" name)).
    change (String c dir +:+ "/") with (String c (dir +:+ "/")).
    cbn [PosixPath.cut]. rewrite IH.
    assert (Hne : exists a t, dir +:+ "/" = String a t) by (destruct dir; by eexists _, _).
    destruct Hne as (a & t & ->). by destruct (Ascii.eqb c "/").
Qed.

(** X18. Line 217 names an inline file by the base name of its open
    name: the directory part is dropped, so that two input files with
    the same name in different directories get the same physical name;
    an open name without a slash is kept. *)
Theorem inline_name_drops_directory dir name contents flags :
  Py.contains "/" name = false ->
  repackage (dir +:+ "/" +:+ name, contents, flags)
  = (dir +:+ "/" +:+ name, Inline name contents, flags) /\
  repackage (name, contents, flags) = (name, Inline name contents, flags).
Proof.
  intros Hname. unfold repackage, PosixPath.basename.
  change (dir +:+ "/" +:+ name) with (dir +:+ String "/" name).
  by rewrite cut_last_slash, cut_no_slash.
Qed.

Lemma inline_name_drops_directory_witness :
  repackage ("shared" +:+ "/" +:+ "boinc_app", "#!/bin/sh", [])
  = ("shared" +:+ "/" +:+ "boinc_app", Inline "boinc_app" "#!/bin/sh", []) /\
  repackage ("boinc_app", "#!/bin/sh", []) = ("boinc_app", Inline "boinc_app" "#!/bin/sh", []).
Proof.
  apply (inline_name_drops_directory "shared" "boinc_app" "#!/bin/sh" []). reflexivity.
Defined.

(** ** The command line *)

Section Main.
Context {F Env : Type} `{PyFloat F} `{System F Env}.
Implicit Types (c : cli (F := F)) (w : world F Env).


End Main.

(** ** The size of an image *)

Lemma words_go_token tok : forall acc,
  no_space tok = true ->
  String.words_go (Some acc) tok = [String.rev (String.rev_app tok acc)].
Proof.
  induction tok as [|a tok IH]; intros acc Htok; [done|].
  cbn [no_space] in Htok. apply andb_prop in Htok as [Ha Htok].
  apply negb_true_iff in Ha. cbn [String.words_go]. rewrite Ha. cbn.
  by rewrite IH.
Qed.

Lemma words_go_token_space tok rest : forall acc,
  no_space tok = true ->
  String.words_go (Some acc) (tok +:+ String " " rest)
  = String.rev (String.rev_app tok acc) :: String.words_go None rest.
Proof.
  induction tok as [|a tok IH]; intros acc Htok; [done|].
  cbn [no_space] in Htok. apply andb_prop in Htok as [Ha Htok].
  apply negb_true_iff in Ha.
  change (String a tok +:+ String " " rest) with (String a (tok +:+ String " " rest)).
  cbn [String.words_go]. rewrite Ha. cbn. by rewrite IH.
Qed.

Lemma words_token tok :
  no_space tok = true -> tok <> "" -> Py.split_ws tok = [tok].
Proof.
  intros Htok Hne. destruct tok as [|a tok]; [done|].
  cbn [no_space] in Htok. apply andb_prop in Htok as [Ha Htok].
  apply negb_true_iff in Ha.
  unfold Py.split_ws, String.words. cbn [String.words_go]. rewrite Ha. cbn.
  rewrite words_go_token by done. by rewrite rev_rev_app.
Qed.

Lemma words_two_tokens val units :
  no_space val = true -> val <> "" -> no_space units = true -> units <> "" ->
  Py.split_ws (val +:+ " " +:+ units) = [val; units].
Proof.
  intros Hval Hv Hunits Hu. destruct val as [|a val]; [done|].
  cbn [no_space] in Hval. apply andb_prop in Hval as [Ha Hval].
  apply negb_true_iff in Ha.
  pose proof (words_token units Hunits Hu) as Hw.
  unfold Py.split_ws, String.words in *.
  change (String a val +:+ " " +:+ units) with (String a (val +:+ String " " units)).
  cbn [String.words_go]. rewrite Ha. cbn.
  rewrite words_go_token_space by done. by rewrite rev_rev_app, Hw.
Qed.

Lemma splitlines_go_line line rest : forall cur,
  no_break line = true ->
  splitlines_go cur (line +:+ String "010" rest)
  = String.rev (String.rev_app line cur) :: splitlines_go "" rest.
Proof.
  induction line as [|a line IH]; intros cur Hline; [done|].
  cbn [no_break] in Hline. apply andb_prop in Hline as [Ha Hline].
  apply andb_prop in Ha as [Hn Hr].
  apply negb_true_iff in Hn. apply negb_true_iff in Hr.
  change (String a line +:+ String "010" rest) with (String a (line +:+ String "010" rest)).
  cbn [splitlines_go]. rewrite Hn, Hr. by rewrite IH.
Qed.

Lemma splitlines_line line rest :
  no_break line = true ->
  splitlines (line +:+ String "010" rest) = line :: splitlines rest.
Proof. intros Hline. unfold splitlines. by rewrite splitlines_go_line, rev_rev_app. Qed.

Lemma no_space_no_break s : no_space s = true -> no_break s = true.
Proof.
  induction s as [|a s IH]; [done|]. cbn [no_space no_break]. intros Hs.
  apply andb_prop in Hs as [Ha Hs]. rewrite (IH Hs), andb_true_r.
  apply negb_true_iff in Ha.
  destruct (Ascii.eqb_spec a "010") as [->|_]; [done|].
  destruct (Ascii.eqb_spec a "013") as [->|_]; done.
Qed.

Lemma no_break_app s t : no_break s = true -> no_break t = true -> no_break (s +:+ t) = true.
Proof.
  intros Hs Ht. induction s as [|a s IH]; [done|].
  cbn [no_break] in *. apply andb_prop in Hs as [Ha Hs].
  change (String a s +:+ t) with (String a (s +:+ t)). cbn [no_break].
  by rewrite Ha, IH.
Qed.

Lemma splitlines_go_nil s : forall cur, splitlines_go cur s = [] -> cur = "" /\ s = "".
Proof.
  induction s as [|c s IH]; intros cur.
  - cbn. by destruct cur.
  - cbn [splitlines_go]. destruct (Ascii.eqb c "010"); [done|].
    destruct (Ascii.eqb c "013"); [done|]. intros Hs. by apply IH in Hs as [[=] _].
Qed.

Lemma splitlines_nil s : splitlines s = [] -> s = "".
Proof. intros Hs. by apply splitlines_go_nil in Hs as [_ ->]. Qed.

Lemma append_assoc (s t u : string) : (s +:+ t) +:+ u = s +:+ t +:+ u.
Proof.
  induction s as [|a s IH]; [done|].
  change (String a ((s +:+ t) +:+ u) = String a (s +:+ t +:+ u)). by rewrite IH.
Qed.

Section ImageSize.
Context {F Env : Type} `{PyFloat F} `{System F Env} `{FloatOfStr F}.
Implicit Types (w : world F Env).

Lemma get_image_size_run image w :
  (get_image_size image w).1
  = match (sys_check_output (Shell (images_line image) true) (w_env w)).1 with
    | Normal out => Normal (image_size image (splitlines out))
    | Raised e => Raised e
    end.
Proof.
  unfold get_image_size, check_output, external. rewrite bind_unfold.
  by destruct (sys_check_output _ (w_env w)) as [[out|e] e1].
Qed.

(** X20. [get_image_size] reports an unknown image, by an
    [Exception] that names it, exactly when docker prints nothing at
    all: an output of a single line break is one empty line and fails
    in another way. *)
Theorem get_image_size_unknown_image image w :
  (get_image_size image w).1
  = Normal (inl (SizeException
                   ("Trying to get size of unknown image '" +:+ image +:+ "'")))
  <-> (sys_check_output (Shell (images_line image) true) (w_env w)).1 = Normal "".
Proof.
  rewrite get_image_size_run.
  destruct (sys_check_output _ (w_env w)).1 as [out|e]; [|split; discriminate].
  split.
  - intros [= Hsize]. f_equal.
    destruct (splitlines out) as [|line [|line' lines]] eqn:Hlines.
    + by apply splitlines_nil.
    + unfold image_size in Hsize.
      destruct (Py.split_ws line) as [|val [|units [|? ?]]]; try discriminate.
      destruct (float_of_str val); [|discriminate].
      destruct (units_exponent units); discriminate.
    + cbn in Hsize. discriminate.
  - by intros [= ->].
Qed.

(** X21. Two lines of output or more are an ambiguous image name,
    whatever the lines hold and whatever follows them. *)
Theorem get_image_size_ambiguous image w l1 l2 rest :
  no_break l1 = true -> no_break l2 = true ->
  (sys_check_output (Shell (images_line image) true) (w_env w)).1
  = Normal (l1 +:+ Py.nl +:+ l2 +:+ Py.nl +:+ rest) ->
  (get_image_size image w).1
  = Normal (inl (SizeException
                   ("Trying to get size of ambiguous image name '" +:+ image +:+ "'"))).
Proof.
  intros Hl1 Hl2 Hout. rewrite get_image_size_run, Hout.
  change (l1 +:+ Py.nl +:+ l2 +:+ Py.nl +:+ rest)
    with (l1 +:+ String "010" (l2 +:+ String "010" rest)).
  by rewrite !splitlines_line.
Qed.

(** X22. A size that docker prints as one word, such as [5.57MB], is
    not accepted: line 288 unpacks the words of the line into a value
    and a unit, and one word alone raises a [ValueError], whatever the
    word is. *)
Theorem get_image_size_one_word image w word :
  no_space word = true -> word <> "" ->
  (sys_check_output (Shell (images_line image) true) (w_env w)).1
  = Normal (word +:+ Py.nl) ->
  (get_image_size image w).1 = Normal (inl SizeValueError).
Proof.
  intros Hword Hne Hout. rewrite get_image_size_run, Hout.
  change (word +:+ Py.nl) with (word +:+ String "010" "").
  rewrite splitlines_line by by apply no_space_no_break.
  unfold image_size. cbn [splitlines splitlines_go]. by rewrite words_token.
Qed.

(** X23. A size printed as a value and a unit.  A value that is not a
    float raises a [ValueError]; otherwise a unit other than [B], [KB],
    [MB] and [GB] (so [kB] and [TB]) raises a [KeyError]; otherwise the
    result is the value times the power of ten of the unit, divided by
    [1e6]: the size in MB. *)
Theorem get_image_size_value_and_unit image w val units :
  no_space val = true -> val <> "" -> no_space units = true -> units <> "" ->
  (sys_check_output (Shell (images_line image) true) (w_env w)).1
  = Normal (val +:+ " " +:+ units +:+ Py.nl) ->
  (get_image_size image w).1
  = Normal
      match float_of_str val with
      | None => inl SizeValueError
      | Some x =>
          if bool_decide (units = "B") then inr (float_div (float_mul x (float_of_int 1)) million)
          else if bool_decide (units = "KB") then
            inr (float_div (float_mul x (float_of_int 1000)) million)
          else if bool_decide (units = "MB") then
            inr (float_div (float_mul x (float_of_int 1000000)) million)
          else if bool_decide (units = "GB") then
            inr (float_div (float_mul x (float_of_int 1000000000)) million)
          else inl (SizeKeyError units)
      end.
Proof.
  intros Hval Hv Hunits Hu Hout. rewrite get_image_size_run, Hout.
  assert (Hline : no_break (val +:+ " " +:+ units) = true).
  { apply no_break_app; [by apply no_space_no_break|].
    change (" " +:+ units) with (String " " units). cbn [no_break].
    by rewrite (no_space_no_break units Hunits). }
  assert (Heq : val +:+ " " +:+ units +:+ Py.nl
                = (val +:+ " " +:+ units) +:+ String "010" "").
  { change Py.nl with (String "010" ""). by rewrite !append_assoc. }
  rewrite Heq, splitlines_line by done.
  unfold image_size. cbn [splitlines splitlines_go].
  rewrite words_two_tokens by done.
  destruct (float_of_str val) as [x|]; [|done].
  unfold units_exponent. by repeat case_bool_decide.
Qed.

End ImageSize.

Lemma get_image_size_ambiguous_witness :
  (get_image_size "alpine"
     (Canned.start [Normal ("5.57 MB" +:+ Py.nl +:+ "4.8 MB" +:+ Py.nl +:+ "")])).1
  = Normal (inl (SizeException
                   ("Trying to get size of ambiguous image name '" +:+ "alpine" +:+ "'"))).
Proof.
  apply (get_image_size_ambiguous "alpine"
           (Canned.start [Normal ("5.57 MB" +:+ Py.nl +:+ "4.8 MB" +:+ Py.nl +:+ "")])
           "5.57 MB" "4.8 MB" ""); reflexivity.
Defined.

Lemma get_image_size_one_word_witness :
  (get_image_size "alpine" (Canned.start [Normal ("5.57MB" +:+ Py.nl)])).1
  = Normal (inl SizeValueError).
Proof.
  apply (get_image_size_one_word "alpine" (Canned.start [Normal ("5.57MB" +:+ Py.nl)])
           "5.57MB"); [reflexivity | discriminate | reflexivity].
Defined.

Lemma get_image_size_value_and_unit_witness :
  (get_image_size "alpine" (Canned.start [Normal ("5.57 MB" +:+ Py.nl)])).1
  = Normal (inr (557 # 100)%Q).
Proof.
  etrans.
  - apply (get_image_size_value_and_unit "alpine"
             (Canned.start [Normal ("5.57 MB" +:+ Py.nl)]) "5.57" "MB");
      [reflexivity | discriminate | reflexivity | discriminate | reflexivity].
  - vm_compute. reflexivity.
Defined.

(** Sizes under one megabyte, which docker prints in [kB], are not in
    the table of line 289. *)
Example get_image_size_kilobytes :
  (get_image_size "alpine" (Canned.start [Normal ("812 kB" +:+ Py.nl)])).1
  = Normal (inl (SizeKeyError "kB")).
Proof. reflexivity. Qed.

(** ** Sshgrid mode in every environment *)

Section SshgridAlways.
Context {F Env : Type} `{PyFloat F} `{System F Env}.
Implicit Types (w : world F Env).

(** X24. In sshgrid mode lines 138-182 never complete, in any
    environment.  Either one of their external calls (the host name,
    the uuid, the two key generations, the insertion into the key
    database) fails: its exception is raised at once and the caller's
    list is as it was.  Or they all succeed: the keys are stored in
    the database, the private and the public client key are appended
    to the caller's list, and line 173 then raises a [NameError] for
    [server_pub]. *)
Theorem configure_sshgrid_always_raises verbose tmpdir l args w (xs : list input_file) :
  w_heap w !! l = Some xs ->
  (forall v, (configure_sshgrid true verbose tmpdir l args w).1 <> Normal v) /\
  exists es,
    w_trace (configure_sshgrid true verbose tmpdir l args w).2 = w_trace w ++ es /\
    ((exists e ev,
        (configure_sshgrid true verbose tmpdir l args w).1 = Raised e /\
        last es = Some ev /\ ev_exn ev = Some e /\
        w_heap (configure_sshgrid true verbose tmpdir l args w).2 = w_heap w) \/
     ((configure_sshgrid true verbose tmpdir l args w).1 = Raised (NameError "server_pub") /\
      Forall (fun ev => ev_exn ev = None) es /\
      exists client_pub client_priv user server_priv,
        last es = Some (EvKeysInsert client_priv user server_priv (Normal tt)) /\
        w_heap (configure_sshgrid true verbose tmpdir l args w).2 !! l
        = Some (xs ++ [("shared/id_rsa", client_priv, []);
                       ("shared/id_rsa.pub", client_pub, [])]))).
Proof.
  intros Hxs.
  unfold configure_sshgrid, ssh_keygen, master_host, uuid_hex, read_file, check_output,
    keys_insert, external, list_append, load_global, raise, bind, ret, when, print.
  destruct verbose; unfold ret; cbn [w_env w_trace w_heap w_stdout w_tmpdir].
  all: repeat
         (match goal with
          | |- context [sys_master_host ?e] => destruct (sys_master_host e) as [[?|?] ?]
          | |- context [sys_uuid4 ?e] => destruct (sys_uuid4 e) as [[?|?] ?]
          | |- context [sys_check_output ?c ?e] =>
              destruct (sys_check_output c e) as [[?|?] ?]
          | |- context [sys_read_file ?p ?e] => destruct (sys_read_file p e) as [[?|?] ?]
          | |- context [sys_keys_insert ?a ?b ?c ?e] =>
              destruct (sys_keys_insert a b c e) as [[[]|?] ?]
          end;
          cbn [w_env w_trace w_heap w_stdout w_tmpdir fst snd]).
  all: rewrite ?Hxs; cbn [w_env w_trace w_heap w_stdout w_tmpdir fst snd];
    rewrite ?lookup_insert_eq; cbn [w_env w_trace w_heap w_stdout w_tmpdir fst snd].
  all: (split; [intros v; discriminate|]).
  all: eexists; (split; [rewrite <- ?app_assoc; reflexivity|]).
  all: try (left; eexists _, _; split; [reflexivity|];
            split; [reflexivity|]; split; reflexivity).
  all: right; split; [reflexivity|].
  all: split; [cbn [app]; repeat (apply Forall_cons_2; [reflexivity|]); apply Forall_nil_2|].
  all: eexists _, _, _, _; split; [reflexivity|];
    by rewrite lookup_insert_eq, <- app_assoc.
Qed.

End SshgridAlways.

Lemma configure_sshgrid_always_raises_witness :
  (forall v, (configure_sshgrid true true "/tmp/tmpabc" 1%positive ∅
                (Sim.start_with Sim.fresh_server 1%positive [])).1 <> Normal v) /\
  exists es,
    w_trace (configure_sshgrid true true "/tmp/tmpabc" 1%positive ∅
               (Sim.start_with Sim.fresh_server 1%positive [])).2
    = w_trace (Sim.start_with Sim.fresh_server 1%positive []) ++ es /\
    ((exists e ev,
        (configure_sshgrid true true "/tmp/tmpabc" 1%positive ∅
           (Sim.start_with Sim.fresh_server 1%positive [])).1 = Raised e /\
        last es = Some ev /\ ev_exn ev = Some e /\
        w_heap (configure_sshgrid true true "/tmp/tmpabc" 1%positive ∅
                  (Sim.start_with Sim.fresh_server 1%positive [])).2
        = w_heap (Sim.start_with Sim.fresh_server 1%positive [])) \/
     ((configure_sshgrid true true "/tmp/tmpabc" 1%positive ∅
         (Sim.start_with Sim.fresh_server 1%positive [])).1
      = Raised (NameError "server_pub") /\
      Forall (fun ev => ev_exn ev = None) es /\
      exists client_pub client_priv user server_priv,
        last es = Some (EvKeysInsert client_priv user server_priv (Normal tt)) /\
        w_heap (configure_sshgrid true true "/tmp/tmpabc" 1%positive ∅
                  (Sim.start_with Sim.fresh_server 1%positive [])).2 !! 1%positive
        = Some ([] ++ [("shared/id_rsa", client_priv, []);
                       ("shared/id_rsa.pub", client_pub, [])]))).
Proof.
  apply (configure_sshgrid_always_raises true "/tmp/tmpabc" 1%positive ∅
           (Sim.start_with Sim.fresh_server 1%positive []) []).
  reflexivity.
Defined.

(** ** The archive and the file that is tested *)

Lemma rev_app_append (s t acc : string) :
  String.rev_app (s +:+ t) acc = String.rev_app t (String.rev_app s acc).
Proof.
  revert acc. induction s as [|a s IH]; intros acc; [done|].
  change (String a s +:+ t) with (String a (s +:+ t)). cbn [String.rev_app]. by rewrite IH.
Qed.

Lemma rev_involutive (s : string) : String.rev (String.rev s) = s.
Proof. unfold String.rev at 2. by rewrite rev_rev_app. Qed.

Lemma all_slashes_rev_app (s acc : string) :
  PosixPath.all_slashes (String.rev_app s acc)
  = PosixPath.all_slashes s && PosixPath.all_slashes acc.
Proof.
  revert acc. induction s as [|a s IH]; intros acc; [done|].
  cbn [String.rev_app PosixPath.all_slashes]. rewrite IH. cbn [PosixPath.all_slashes].
  by destruct (Ascii.eqb a "/"), (PosixPath.all_slashes s), (PosixPath.all_slashes acc).
Qed.

(** The directory of [dir/name], for a directory that does not end in a
    slash and a name without one. *)
Lemma dirname_of_file dir name :
  dir <> "" -> PosixPath.ends_with_slash dir = false ->
  Py.contains "/" name = false ->
  PosixPath.dirname (dir +:+ "/" +:+ name) = dir.
Proof.
  intros Hne Hend Hname. unfold PosixPath.dirname, PosixPath.split.
  change (dir +:+ "/" +:+ name) with (dir +:+ String "/" name).
  rewrite cut_last_slash by done.
  assert (Hrev : String.rev (dir +:+ "/") = String "/" (String.rev dir)).
  { unfold String.rev. by rewrite rev_app_append. }
  unfold PosixPath.ends_with_slash in Hend.
  destruct (String.rev dir) as [|a r] eqn:Hr.
  { exfalso. apply Hne. rewrite <- (rev_involutive dir), Hr. done. }
  assert (Hall : PosixPath.all_slashes (dir +:+ "/") = false).
  { rewrite <- (rev_involutive (dir +:+ "/")), Hrev. unfold String.rev.
    rewrite all_slashes_rev_app. cbn [PosixPath.all_slashes]. rewrite Hend.
    by rewrite andb_false_l. }
  rewrite Hall, Hrev. cbn [PosixPath.strip_slashes fst].
  change (Ascii.eqb "/" "/") with true. cbn [PosixPath.strip_slashes fst].
  rewrite ?Hend, <- Hr. apply rev_involutive.
Qed.

Lemma join_relative dir name a :
  dir <> "" -> PosixPath.ends_with_slash dir = false -> Ascii.eqb a "/" = false ->
  PosixPath.join dir (String a name) = dir +:+ "/" +:+ String a name.
Proof.
  intros Hne Hend Ha. unfold PosixPath.join. rewrite Hend.
  rewrite bool_decide_eq_false_2 by done. cbn [orb].
  destruct (Ascii.eqb_spec a "/") as [->|Hn]; [done|].
  destruct a as [[] [] [] [] [] [] [] []]; try done.
Qed.

Lemma contains_slash_app s t :
  Py.contains "/" s = false -> Py.contains "/" t = false ->
  Py.contains "/" (s +:+ t) = false.
Proof.
  intros Hs Ht. induction s as [|a s IH]; [done|].
  rewrite contains_slash_cons in Hs. apply orb_false_elim in Hs as [Ha Hs].
  change (String a s +:+ t) with (String a (s +:+ t)).
  by rewrite contains_slash_cons, Ha, IH.
Qed.

Section ArchivePath.
Context {F Env : Type} `{PyFloat F} `{System F Env}.

(** X25. Where the download hierarchy puts the file of a layer in a
    directory [dir], the archive that [tar] writes is
    [dir/layer_<id>.tar], and the file whose presence line 231 tests is
    that path with the suffix that [gzip -fS .manual.gz] gives it; with
    native unzip it is the archive itself, which [gzip -fk] keeps. *)
Theorem layer_archive_is_the_tested_file native_unzip layer dir :
  dir <> "" -> PosixPath.ends_with_slash dir = false ->
  Py.contains "/" (layer_filename_tar layer) = false ->
  dir_hier_path (layer_filename native_unzip layer)
  = dir +:+ "/" +:+ layer_filename native_unzip layer ->
  layer_path_tar native_unzip layer = dir +:+ "/" +:+ layer_filename_tar layer /\
  layer_path native_unzip layer
  = layer_path_tar native_unzip layer +:+ manual_gz native_unzip.
Proof.
  intros Hne Hend Hname Hdir.
  assert (Htar : layer_path_tar native_unzip layer
                 = dir +:+ "/" +:+ layer_filename_tar layer).
  { unfold layer_path_tar, layer_path. rewrite Hdir.
    rewrite dirname_of_file; [|done|done|].
    - unfold layer_filename_tar. by apply (join_relative dir _ "l").
    - unfold layer_filename. apply contains_slash_app; [done|]. by destruct native_unzip. }
  split; [done|]. rewrite Htar. unfold layer_path. rewrite Hdir. unfold layer_filename.
  by rewrite !append_assoc.
Qed.

End ArchivePath.

Lemma layer_archive_is_the_tested_file_witness :
  layer_path_tar (F := Q) (Env := Sim.env) false "c2d3/layer.tar"
  = "/project/download/2e" +:+ "/" +:+ layer_filename_tar "c2d3/layer.tar" /\
  layer_path (F := Q) (Env := Sim.env) false "c2d3/layer.tar"
  = layer_path_tar (F := Q) (Env := Sim.env) false "c2d3/layer.tar" +:+ manual_gz false.
Proof.
  apply (layer_archive_is_the_tested_file (F := Q) (Env := Sim.env) false "c2d3/layer.tar"
           "/project/download/2e"); [discriminate | reflexivity | reflexivity | reflexivity].
Defined.

(** ** The caller's list in every run *)

Section Appended.
Context {F Env : Type} `{PyFloat F} `{System F Env}.
Implicit Types (a : arguments (F := F)) (w : world F Env) (es : list (event F)).

Lemma manifest_read_app es1 es2 :
  manifest_read (es1 ++ es2) = manifest_read es1 || manifest_read es2.
Proof. apply existsb_app. Qed.

Lemma escape_failed_app es1 es2 :
  escape_failed (es1 ++ es2) = escape_failed es1 || escape_failed es2.
Proof. apply existsb_app. Qed.

Lemma keys_stored_app es1 es2 :
  keys_stored (es1 ++ es2) = keys_stored es1 || keys_stored es2.
Proof. apply existsb_app. Qed.

Lemma quiet_nil : quiet (F := F) [].
Proof. done. Qed.

Lemma quiet_app es1 es2 : quiet es1 -> quiet es2 -> quiet (es1 ++ es2).
Proof.
  intros (A1 & B1 & C1) (A2 & B2 & C2). unfold quiet.
  by rewrite manifest_read_app, escape_failed_app, keys_stored_app, A1, A2, B1, B2, C1, C2.
Qed.

(** Calls that tell nothing change nothing of what has been appended. *)
Lemma appended_entries_quiet a described q1 es q2 added :
  quiet q1 -> quiet q2 ->
  appended_entries a described es added ->
  appended_entries a described (q1 ++ es ++ q2) added.
Proof.
  intros (A1 & B1 & C1) (A2 & B2 & C2). unfold appended_entries.
  rewrite !manifest_read_app, !escape_failed_app, !keys_stored_app.
  by rewrite A1, A2, B1, B2, C1, C2, !orb_false_r.
Qed.

Lemma appended_entries_none a described es :
  quiet es -> appended_entries a described es [].
Proof. intros (A & _ & _). unfold appended_entries. by rewrite A. Qed.

(** *** Steps whose calls tell nothing *)

Lemma calm_ret {A} (x : A) : calm (F := F) (Env := Env) (ret x).
Proof. intros w. exists []. by rewrite app_nil_r. Qed.

Lemma calm_raise {A} e : calm (F := F) (Env := Env) (raise (A := A) e).
Proof. intros w. exists []. by rewrite app_nil_r. Qed.

Lemma calm_bind {A B} (m : M F Env A) (k : A -> M F Env B) :
  calm m -> (forall x, calm (F := F) (Env := Env) (k x)) -> calm (F := F) (Env := Env) (bind m k).
Proof.
  intros Hm Hk w. rewrite bind_unfold. destruct (Hm w) as (es1 & T1 & Q1).
  destruct (m w) as [[x|e] w1]; cbn [snd] in T1.
  - destruct (Hk x w1) as (es2 & T2 & Q2). exists (es1 ++ es2).
    split; [by rewrite T2, T1, app_assoc | by apply quiet_app].
  - by exists es1.
Qed.

Lemma calm_try_except {A} (m : M F Env A) h :
  calm m -> (forall e k, h e = Some k -> calm k) -> calm (F := F) (Env := Env) (try_except m h).
Proof.
  intros Hm Hh w. unfold try_except. destruct (Hm w) as (es1 & T1 & Q1).
  destruct (m w) as [[x|e] w1]; cbn [snd] in T1; [by exists es1|].
  destruct (h e) as [k|] eqn:E; [|by exists es1].
  destruct (Hh e k E w1) as (es2 & T2 & Q2). exists (es1 ++ es2).
  split; [by rewrite T2, T1, app_assoc | by apply quiet_app].
Qed.

Lemma calm_when b (m : M F Env unit) : calm m -> calm (F := F) (Env := Env) (when b m).
Proof. intros Hm. destruct b; [done | apply calm_ret]. Qed.

Lemma calm_mapM {A B} (f : A -> M F Env B) l : (forall x, calm (F := F) (Env := Env) (f x)) -> calm (F := F) (Env := Env) (mapM f l).
Proof.
  intros Hf. induction l as [|x l IH]; [apply calm_ret|].
  cbn [mapM]. apply calm_bind; [apply Hf | intros y].
  apply calm_bind; [apply IH | intros ys; apply calm_ret].
Qed.

Lemma calm_still {A} (m : M F Env A) :
  (forall w, w_trace (m w).2 = w_trace w) -> calm m.
Proof. intros Hm w. exists []. by rewrite app_nil_r. Qed.

Lemma calm_print s : calm (F := F) (Env := Env) (print s).
Proof. by apply calm_still. Qed.

Lemma calm_path_exists p : calm (F := F) (Env := Env) (path_exists p).
Proof. by apply calm_still. Qed.

Lemma calm_fmt_text s : calm (F := F) (Env := Env) (fmt_text s).
Proof. by apply calm_still. Qed.

Lemma calm_list_read l : calm (F := F) (Env := Env) (list_read l).
Proof. apply calm_still. intros w. unfold list_read. by destruct (w_heap w !! l). Qed.

Lemma calm_read_tmpdir : calm (F := F) (Env := Env) read_tmpdir.
Proof. apply calm_still. intros w. unfold read_tmpdir. by destruct (w_tmpdir w). Qed.

Lemma calm_external {A} (op : Env -> outcome A * Env) ev :
  (forall r, quiet [ev r]) -> calm (F := F) (Env := Env) (external op ev).
Proof.
  intros Hev w. unfold external. destruct (op (w_env w)) as [r e1].
  exists [ev r]. split; [done | apply Hev].
Qed.

Lemma calm_sh line : calm (F := F) (Env := Env) (sh line).
Proof.
  unfold sh, check_output. apply calm_bind; [|intros; apply calm_ret].
  apply calm_external. intros r. by destruct r.
Qed.

Ltac calm_step :=
  first
    [ apply calm_ret | apply calm_raise | apply calm_print | apply calm_path_exists
    | apply calm_fmt_text | apply calm_list_read | apply calm_read_tmpdir
    | apply calm_sh
    | apply calm_when
    | apply calm_mapM; intros ?
    | apply calm_bind; [|intros ?]
    | apply calm_external; intros [?|?]; done
    | match goal with
      | |- calm (match ?x with _ => _ end) => destruct x
      | |- calm (if ?b then _ else _) => destruct b
      end ].

Ltac calm := repeat (cbv zeta; calm_step).

Lemma calm_memory_check imagesize memory verbose :
  calm (F := F) (Env := Env) (memory_check imagesize memory verbose).
Proof. unfold memory_check. calm. Qed.

Lemma calm_job_memory image memory verbose : calm (F := F) (Env := Env) (job_memory image memory verbose).
Proof.
  unfold job_memory. apply calm_bind; [apply calm_sh | intros out].
  apply calm_bind; [calm | intros size].
  apply calm_bind; [apply calm_memory_check | intros m; calm].
Qed.

Lemma calm_get_image_id image : calm (F := F) (Env := Env) (get_image_id image).
Proof. unfold get_image_id. calm. Qed.

Lemma calm_resolve_image image verbose : calm (F := F) (Env := Env) (resolve_image image verbose).
Proof.
  unfold resolve_image. apply calm_try_except; [apply calm_get_image_id|].
  intros e k Hk. destruct e; try discriminate. injection Hk as <-.
  destruct (Py.contains _ _); [|calm].
  apply calm_bind; [calm | intros _].
  apply calm_bind; [apply calm_sh | intros _]. apply calm_get_image_id.
Qed.

Lemma calm_tar_and_gzip native_unzip tar_line path_tar :
  calm (F := F) (Env := Env) (tar_and_gzip native_unzip tar_line path_tar).
Proof. unfold tar_and_gzip. calm. Qed.

Lemma calm_package_layer force_reimport need_extract verbose native_unzip tmpdir layer :
  calm (F := F) (Env := Env) (package_layer force_reimport need_extract verbose native_unzip tmpdir layer).
Proof.
  unfold package_layer. cbv zeta.
  apply calm_bind; [calm | intros archive].
  apply calm_bind; [|intros _; calm].
  destruct archive; [|calm].
  apply calm_bind; [calm | intros _]. apply calm_tar_and_gzip.
Qed.

Lemma calm_package_image force_reimport need_extract verbose native_unzip tmpdir image_id :
  calm (F := F) (Env := Env) (package_image force_reimport need_extract verbose native_unzip tmpdir image_id).
Proof.
  unfold package_image. cbv zeta.
  apply calm_bind; [|intros _; calm].
  destruct (force_reimport || need_extract); [|calm].
  apply calm_bind; [calm | intros _]. apply calm_tar_and_gzip.
Qed.

Lemma calm_package a l p : calm (F := F) (Env := Env) (package a l p).
Proof.
  unfold package. cbv zeta.
  apply calm_bind; [calm | intros old].
  apply calm_bind; [calm | intros layers].
  apply calm_bind; [apply calm_mapM; intros; apply calm_package_layer | intros entries].
  apply calm_bind; [apply calm_package_image | intros entry]. calm.
Qed.

Lemma calm_submit appname tmpdir verbose args files :
  calm (F := F) (Env := Env) (submit (F := F) appname tmpdir verbose args files).
Proof. unfold submit, uuid_hex, write_file, create_work. calm. Qed.

Lemma calm_cleanup : calm (F := F) (Env := Env) cleanup.
Proof.
  unfold cleanup. apply calm_try_except; [calm|]. intros e k [= <-]. calm.
Qed.

Lemma calm_handlers e k : handlers (F := F) (Env := Env) e = Some k -> calm k.
Proof. destruct e; intros [= <-]; calm. Qed.

Lemma calm_run {A} (m : M F Env A) w r w' :
  calm m -> m w = (r, w') -> exists es, w_trace w' = w_trace w ++ es /\ quiet es.
Proof. intros Hm E. specialize (Hm w). by rewrite E in Hm. Qed.

(** *** Steps whose calls tell *)

Lemma export_image_events image tmpdir image_path force_reimport verbose w :
  exists es,
    w_trace (export_image image tmpdir image_path force_reimport verbose w).2
    = w_trace w ++ es /\
    escape_failed es = false /\ keys_stored es = false /\
    manifest_read es
    = match (export_image image tmpdir image_path force_reimport verbose w).1 with
      | Normal _ => true
      | Raised _ => false
      end.
Proof.
  pose proof (export_image_run image tmpdir image_path force_reimport verbose w) as Hrun.
  cbv zeta in Hrun.
  destruct (negb force_reimport && sys_exists image_path (w_env w)).
  - destruct Hrun as (rm & -> & ->). eexists. split; [done|]. by destruct rm.
  - destruct Hrun as (rs & rest & -> & Hrest). eexists. split; [done|].
    destruct rs as [o|e].
    + destruct Hrest as (rm & -> & ->). by destruct rm.
    + by destruct Hrest as (-> & ->).
Qed.

Lemma escape_tokens_events tokens : forall w,
  exists es,
    w_trace (mapM escape_string tokens w).2 = w_trace w ++ es /\
    manifest_read es = false /\ keys_stored es = false /\
    escape_failed es
    = match (mapM escape_string tokens w).1 with
      | Normal _ => false
      | Raised _ => true
      end.
Proof.
  induction tokens as [|s tokens IH]; intros w.
  - exists []. by rewrite app_nil_r.
  - destruct (mapM escape_string (s :: tokens) w) as [r w'] eqn:E. cbn [fst snd].
    cbn [mapM] in E. rewrite bind_unfold in E.
    unfold escape_string at 1, check_output, external in E.
    destruct (sys_check_output _ (w_env w)) as [[out|e] e1].
    + rewrite bind_unfold in E.
      match type of E with
      | context [mapM escape_string tokens ?w1] =>
          destruct (IH w1) as (es & T & A & B & C);
          destruct (mapM escape_string tokens w1) as [[ys|e] w2]
      end; unfold ret in E; injection E as <- <-; cbn [fst snd w_trace] in *;
        (eexists ([_] ++ es); split; [by rewrite T, <- app_assoc|]);
        rewrite manifest_read_app, keys_stored_app, escape_failed_app, A, B, C; by cbn.
    + injection E as <- <-. eexists [_]. done.
Qed.

Lemma escaped_command_events command w :
  exists es,
    w_trace (escaped_command command w).2 = w_trace w ++ es /\
    manifest_read es = false /\ keys_stored es = false /\
    escape_failed es
    = match (escaped_command command w).1 with
      | Normal _ => false
      | Raised _ => true
      end.
Proof.
  unfold escaped_command. cbv zeta. rewrite bind_unfold.
  destruct (escape_tokens_events
              match command with CmdStr s => Py.split_ws s | CmdList l => l end w)
    as (es & T & A & B & C).
  destruct (mapM escape_string _ w) as [[ys|e] w1]; by exists es.
Qed.

Lemma configure_sshgrid_events verbose tmpdir l args w (ys : list input_file) :
  w_heap w !! l = Some ys ->
  exists es,
    w_trace (configure_sshgrid true verbose tmpdir l args w).2 = w_trace w ++ es /\
    manifest_read es = false /\ escape_failed es = false /\
    if keys_stored es then
      exists client_priv client_pub,
        w_heap (configure_sshgrid true verbose tmpdir l args w).2 !! l
        = Some (ys ++ [("shared/id_rsa", client_priv, []);
                       ("shared/id_rsa.pub", client_pub, [])])
    else w_heap (configure_sshgrid true verbose tmpdir l args w).2 = w_heap w.
Proof.
  intros Hys.
  unfold configure_sshgrid, ssh_keygen, master_host, uuid_hex, read_file, check_output,
    keys_insert, external, list_append, load_global, raise, bind, ret, when, print.
  destruct verbose; unfold ret; cbn [w_env w_trace w_heap w_stdout w_tmpdir].
  all: repeat
         (match goal with
          | |- context [sys_master_host ?e] => destruct (sys_master_host e) as [[?|?] ?]
          | |- context [sys_uuid4 ?e] => destruct (sys_uuid4 e) as [[?|?] ?]
          | |- context [sys_check_output ?c ?e] =>
              destruct (sys_check_output c e) as [[?|?] ?]
          | |- context [sys_read_file ?p ?e] => destruct (sys_read_file p e) as [[?|?] ?]
          | |- context [sys_keys_insert ?a ?b ?c ?e] =>
              destruct (sys_keys_insert a b c e) as [[[]|?] ?]
          end;
          cbn [w_env w_trace w_heap w_stdout w_tmpdir fst snd]).
  all: rewrite ?Hys; cbn [w_env w_trace w_heap w_stdout w_tmpdir fst snd];
    rewrite ?lookup_insert_eq; cbn [w_env w_trace w_heap w_stdout w_tmpdir fst snd].
  all: eexists; (split; [rewrite <- ?app_assoc; reflexivity|]).
  all: split; [reflexivity|]; split; [reflexivity|].
  all: cbn; try done.
  all: eexists _, _; by rewrite lookup_insert_eq, <- app_assoc.
Qed.

(** *** Lines 91-213 *)

Lemma kept_opts_run {A} (m : M F Env A) lo w r w' (os : list vbox_opt) :
  Meets (of_rel (kept_opts lo)) m -> m w = (r, w') ->
  w_opts w !! lo = Some os -> w_opts w' !! lo = Some os.
Proof. intros Hm E. specialize (Hm w). rewrite E in Hm. apply Hm. Qed.

Lemma valid_options_run {A} (m : M F Env A) vbox w r w' (os : list vbox_opt) :
  (forall lo, Meets (of_rel (kept_opts lo)) m) -> m w = (r, w') ->
  valid_options vbox os w -> valid_options vbox os w'.
Proof.
  intros Hm E. destruct vbox as [lo|]; [|done]. by apply (kept_opts_run m lo w r w').
Qed.

Lemma describe_job_appends a image prerun postrun command l args d id w
    (xs : list input_file) (os : list vbox_opt) :
  w_heap w !! l = Some xs ->
  valid_options (vbox_job_xml a) os w ->
  exists es added,
    w_trace (describe_job a image prerun postrun command l args d id w).2
    = w_trace w ++ es /\
    w_heap (describe_job a image prerun postrun command l args d id w).2 !! l
    = Some (xs ++ added) /\
    appended_entries a (negb (existsb is_empty_dict os)) es added.
Proof.
  intros Hxs Hos.
  destruct (describe_job a image prerun postrun command l args d id w) as [r wf] eqn:E.
  cbn [snd]. unfold describe_job in E. cbv zeta in E.
  (* line 96 *)
  rewrite bind_unfold in E.
  destruct (job_memory image (memory a) (verbose a) w) as [[mem|e] w1] eqn:E1.
  2: { injection E as <- <-.
       destruct (calm_run _ _ _ _ (calm_job_memory _ _ _) E1) as (es1 & T1 & Q1).
       exists es1, [].
       rewrite (same_heap_run _ _ _ _ (job_memory_meets _ _ _ _) E1), app_nil_r.
       split; [done|]. split; [done|]. by apply appended_entries_none. }
  destruct (calm_run _ _ _ _ (calm_job_memory _ _ _) E1) as (es1 & T1 & A1 & B1 & C1).
  pose proof (same_heap_run _ _ _ _ (job_memory_meets _ _ _ _) E1) as S1.
  pose proof (valid_options_run _ _ _ _ _ os
                (fun lo => job_memory_meets _ _ _ _) E1 Hos) as O1.
  (* lines 99-106 *)
  rewrite bind_unfold in E.
  destruct (export_image_events image d
              (dir_hier_path (("image_" +:+ id +:+ ".tar") +:+ manual_gz (native_unzip a)))
              (force_reimport a) (verbose a) w1) as (es2 & T2 & B2 & C2 & A2).
  destruct (export_image image d _ (force_reimport a) (verbose a) w1)
    as [[[need_extract manifest]|e] w2] eqn:E2; cbn [fst snd] in T2, A2.
  2: { injection E as <- <-. exists (es1 ++ es2), [].
       rewrite (same_heap_run _ _ _ _ (export_image_meets _ _ _ _ _ _) E2), S1, app_nil_r.
       split; [by rewrite T2, T1, app_assoc|]. split; [done|].
       apply appended_entries_none. unfold quiet.
       by rewrite manifest_read_app, escape_failed_app, keys_stored_app,
         A1, A2, B1, B2, C1, C2. }
  pose proof (same_heap_run _ _ _ _ (export_image_meets _ _ _ _ _ _) E2) as S2.
  pose proof (valid_options_run _ _ _ _ _ os
                (fun lo => export_image_meets _ _ _ _ _ _) E2 O1) as O2.
  (* lines 110-129 *)
  rewrite bind_unfold in E.
  destruct (vbox_job_xml_contents_run (vbox_job_xml a) (disable_automatic_checkpoints a)
              mem w2 os O2) as [W3 R3].
  destruct (vbox_job_xml_contents (vbox_job_xml a) (disable_automatic_checkpoints a) mem w2)
    as [r3 w3]; cbn [fst snd] in W3, R3.
  assert (S3 : w_heap w3 = w_heap w2) by (by rewrite W3).
  assert (T3 : w_trace w3 = w_trace w2) by (by rewrite W3).
  clear W3.
  destruct (existsb is_empty_dict os) eqn:Hdict; cbn [negb].
  { subst r3. injection E as <- <-. exists (es1 ++ es2), [].
    rewrite S3, S2, S1, app_nil_r. split; [by rewrite T3, T2, T1, app_assoc|].
    split; [done|]. unfold appended_entries. by rewrite andb_false_r. }
  destruct R3 as [contents ->].
  (* line 130 *)
  rewrite bind_unfold in E. unfold list_append at 1 in E.
  assert (Hl3 : w_heap w3 !! l = Some xs) by (by rewrite S3, S2, S1).
  rewrite Hl3 in E.
  set (w4 := World _ _ (<[l := _]> _) _ _ _) in E.
  assert (Hl4 : w_heap w4 !! l = Some (xs ++ [("vbox_job.xml", contents, [])]))
    by apply lookup_insert_eq.
  assert (T4 : w_trace w4 = w_trace w ++ es1 ++ es2)
    by (subst w4; cbn; by rewrite T3, T2, T1, app_assoc).
  clearbody w4.
  (* lines 134-135 *)
  rewrite bind_unfold in E.
  destruct (escaped_command_events command w4) as (es5 & T5 & A5 & C5 & B5).
  destruct (escaped_command command w4) as [[cmd|e] w5] eqn:E5; cbn [fst snd] in T5, B5.
  2: { injection E as <- <-.
       exists (es1 ++ es2 ++ es5), [("vbox_job.xml", contents, [])].
       rewrite (same_heap_run _ _ _ _ (escaped_command_meets _ _) E5).
       split; [by rewrite T5, T4, <- !app_assoc|]. split; [done|].
       unfold appended_entries.
       rewrite !manifest_read_app, !escape_failed_app, A1, A2, A5, B1, B2, B5.
       cbn. by eexists. }
  pose proof (same_heap_run _ _ _ _ (escaped_command_meets _ _) E5) as S5.
  assert (Hl5 : w_heap w5 !! l = Some (xs ++ [("vbox_job.xml", contents, [])]))
    by (by rewrite S5).
  (* lines 138-182 *)
  rewrite bind_unfold in E. destruct (sshgrid_mode a) eqn:Hssh.
  - destruct (configure_sshgrid_events (verbose a) d l
                (<["rsc_memory_bound" := ArgNum (num_mul (PyInt mem) (PyFlt million))]> args)
                w5 _ Hl5) as (es6 & T6 & A6 & B6 & K6).
    destruct (configure_sshgrid true (verbose a) d l _ w5) as [[v|e] w6] eqn:E6.
    { by apply configure_sshgrid_never_returns in E6. }
    injection E as <- <-. cbn [fst snd] in *.
    destruct (keys_stored es6) eqn:Hk; cbn beta iota in K6.
    + destruct K6 as (priv & pub & K6).
      exists (es1 ++ es2 ++ es5 ++ es6),
        [("vbox_job.xml", contents, []); ("shared/id_rsa", priv, []);
         ("shared/id_rsa.pub", pub, [])].
      split; [by rewrite T6, T5, T4, <- !app_assoc|].
      split; [by rewrite K6, <- app_assoc|].
      unfold appended_entries.
      rewrite !manifest_read_app, !escape_failed_app, !keys_stored_app,
        A1, A2, A5, A6, B1, B2, B5, B6, C1, C2, C5, Hk, Hssh.
      cbn. by eexists _, _, _.
    + exists (es1 ++ es2 ++ es5 ++ es6), [("vbox_job.xml", contents, [])].
      split; [by rewrite T6, T5, T4, <- !app_assoc|].
      split; [by rewrite K6|].
      unfold appended_entries.
      rewrite !manifest_read_app, !escape_failed_app, !keys_stored_app,
        A1, A2, A5, A6, B1, B2, B5, B6, C1, C2, C5, Hk, Hssh.
      cbn. by eexists.
  - unfold configure_sshgrid in E. unfold ret at 1 in E. rewrite bind_unfold in E.
    unfold list_append at 1 in E. rewrite Hl5 in E. unfold ret in E.
    injection E as <- <-. cbn [fst snd w_trace w_heap].
    eexists (es1 ++ es2 ++ es5), [("vbox_job.xml", contents, []); (_, _, [])].
    split; [by rewrite T5, T4, <- !app_assoc|].
    split; [by rewrite lookup_insert_eq, <- app_assoc|].
    unfold appended_entries.
    rewrite !manifest_read_app, !escape_failed_app, A1, A2, A5, B1, B2, B5, Hssh.
    cbn. by eexists _, _.
Qed.

(** *** The suite of the outer [try] *)

Lemma try_suite_appends a image prerun postrun command l args w
    (xs : list input_file) (os : list vbox_opt) :
  w_heap w !! l = Some xs ->
  valid_options (vbox_job_xml a) os w ->
  exists es added,
    w_trace (try_suite a image prerun postrun command l args w).2 = w_trace w ++ es /\
    w_heap (try_suite a image prerun postrun command l args w).2 !! l
    = Some (xs ++ added) /\
    appended_entries a (negb (existsb is_empty_dict os)) es added.
Proof.
  intros Hxs Hos.
  destruct (try_suite a image prerun postrun command l args w) as [r wf] eqn:E.
  cbn [snd]. rewrite try_suite_unfold, bind_unfold in E.
  unfold mkdtemp, external in E.
  destruct (sys_mkdtemp (w_env w)) as [[d|e] e1].
  2: { injection E as <- <-. exists [EvMkdtemp (Raised e)], []. cbn [w_trace w_heap].
       rewrite app_nil_r. split; [done|]. split; [done|].
       by apply appended_entries_none. }
  rewrite bind_unfold in E. unfold bind_tmpdir at 1 in E.
  cbn [w_env w_stdout w_heap w_tmpdir w_trace w_opts] in E.
  set (w2 := World _ _ _ _ _ _) in E.
  assert (Hxs2 : w_heap w2 !! l = Some xs) by done.
  assert (Hos2 : valid_options (vbox_job_xml a) os w2) by done.
  assert (T2 : w_trace w2 = w_trace w ++ [EvMkdtemp (Normal d)]) by done.
  assert (Q2 : quiet (F := F) [EvMkdtemp (Normal d)]) by done.
  clearbody w2.
  rewrite bind_unfold in E.
  destruct (resolve_image image (verbose a) w2) as [[id|e] w3] eqn:E3.
  all: destruct (calm_run _ _ _ _ (calm_resolve_image _ _) E3) as (es3 & T3 & Q3).
  all: pose proof (same_heap_run _ _ _ _ (resolve_image_meets _ _ _) E3) as S3.
  2: { injection E as <- <-. exists ([EvMkdtemp (Normal d)] ++ es3), [].
       rewrite S3, app_nil_r. split; [by rewrite T3, T2, <- app_assoc|].
       split; [done|]. by apply appended_entries_none, quiet_app. }
  pose proof (valid_options_run _ _ _ _ _ os
                (fun lo => resolve_image_meets _ _ _) E3 Hos2) as Hos3.
  assert (Hxs3 : w_heap w3 !! l = Some xs) by (by rewrite S3).
  unfold after_resolve in E. rewrite bind_unfold in E.
  destruct (describe_job_appends a image prerun postrun command l args d id w3 xs os
              Hxs3 Hos3) as (es4 & added & T4 & H4 & A4).
  destruct (describe_job a image prerun postrun command l args d id w3)
    as [[p|e] w4] eqn:E4; cbn [snd] in T4, H4.
  2: { injection E as <- <-. exists (([EvMkdtemp (Normal d)] ++ es3) ++ es4 ++ []), added.
       split; [by rewrite T4, T3, T2, app_nil_r, <- !app_assoc|]. split; [done|].
       apply appended_entries_quiet; [by apply quiet_app | apply quiet_nil | done]. }
  rewrite bind_unfold in E.
  destruct (package a l p w4) as [[files|e] w5] eqn:E5.
  all: destruct (calm_run _ _ _ _ (calm_package _ _ _) E5) as (es5 & T5 & Q5).
  all: pose proof (same_heap_run _ _ _ _ (package_meets _ _ _ _) E5) as S5.
  2: { injection E as <- <-. exists (([EvMkdtemp (Normal d)] ++ es3) ++ es4 ++ es5), added.
       split; [by rewrite T5, T4, T3, T2, <- !app_assoc|]. split; [by rewrite S5|].
       apply appended_entries_quiet; [by apply quiet_app | done | done]. }
  rewrite bind_unfold in E.
  destruct (submit (appname a) (p_tmpdir p) (verbose a) (p_create_work_args p) files w5)
    as [[wu|e] w6] eqn:E6.
  all: destruct (calm_run _ _ _ _ (calm_submit _ _ _ _ _) E6) as (es6 & T6 & Q6).
  all: pose proof (same_heap_run _ _ _ _ (submit_meets _ _ _ _ _ _) E6) as S6.
  all: injection E as <- <-.
  all: exists (([EvMkdtemp (Normal d)] ++ es3) ++ es4 ++ (es5 ++ es6)), added.
  all: split; [by rewrite T6, T5, T4, T3, T2, <- !app_assoc|].
  all: split; [by rewrite S6, S5|].
  all: apply appended_entries_quiet; [by apply quiet_app | by apply quiet_app | done].
Qed.

Lemma run_appends a w l (xs : list input_file) (os : list vbox_opt) :
  input_files a = Some l ->
  w_heap w !! l = Some xs ->
  valid_options (vbox_job_xml a) os w ->
  exists es added,
    w_trace (boinc2docker_create_work a w).2 = w_trace w ++ es /\
    w_heap (boinc2docker_create_work a w).2 !! l = Some (xs ++ added) /\
    appended_entries a (negb (existsb is_empty_dict os)) es added.
Proof.
  intros Hl Hxs Hos. rewrite run_unfold.
  assert (Hg : exists es added,
            w_trace (guarded_suite a w).2 = w_trace w ++ es /\
            w_heap (guarded_suite a w).2 !! l = Some (xs ++ added) /\
            appended_entries a (negb (existsb is_empty_dict os)) es added).
  { unfold guarded_suite. rewrite handlers_run, Hl. cbn [enter fst snd].
    set (w0 := World _ _ _ None _ _).
    destruct (try_suite_appends a (with_tag (image a)) (default "" (prerun a))
                (default "" (postrun a)) (default (CmdStr "") (command a)) l
                (default ∅ (create_work_args a)) w0 xs os Hxs Hos)
      as (es & added & T & Hh & A).
    exists es, added.
    destruct (try_suite _ _ _ _ _ _ _ w0) as [[v|[]] ws]; done. }
  destruct Hg as (es & added & T & Hh & A).
  destruct (cleanup (guarded_suite a w).2) as [rc wc] eqn:Ec.
  destruct (calm_run _ _ _ _ calm_cleanup Ec) as (esc & Tc & Qc).
  pose proof (same_heap_run _ _ _ _ (cleanup_meets _) Ec) as Sc.
  exists ([] ++ es ++ esc), added.
  assert (Hw : w_trace wc = w_trace w ++ [] ++ es ++ esc /\
               w_heap wc !! l = Some (xs ++ added)).
  { split; [by rewrite Tc, T, <- app_assoc | by rewrite Sc]. }
  destruct Hw as [Hw1 Hw2].
  destruct rc as [[]|e]; cbn [snd];
    (split; [done|]); (split; [done|]);
    (apply appended_entries_quiet; [apply quiet_nil | done | done]).
Qed.


End Appended.



(** In sshgrid mode the same list gets the descriptor and the two
    client keys, and neither [shared/authorized_keys] nor the script. *)
Example caller_list_after_an_sshgrid_run :
  let a := Sim.sshgrid_job "alpine" 1%positive in
  let w := Sim.start_with Sim.fresh_server 1%positive [("shared/foo", "bar", ["gzip"])] in
  (boinc2docker_create_work a w).1 = Raised (NameError "server_pub") /\
  (map (fun f : input_file => f.1.1) <$> w_heap (boinc2docker_create_work a w).2 !! 1%positive)
  = Some ["shared/foo"; "vbox_job.xml"; "shared/id_rsa"; "shared/id_rsa.pub"] /\
  keys_stored (w_trace (boinc2docker_create_work a w).2) = true.
Proof. vm_compute. repeat split; reflexivity. Qed.
